(** * invoicegen.py: the invoice generator, embedded and verified

    A shallow embedding of [src/invoicegen.py] and what holds of it.

    - Python strings are Rocq strings, one character per code point below
      256; Python integers are [Z], unbounded, with no limit on the number
      of digits that [int()] reads or [str()] writes; Python floats are the
      primitive binary64 floats, so that sums are the machine's sums.
    - The file system is a finite map from path to what the path names; a
      path is looked up as it is written. A method is a function from the
      world before the call to its result, a value or a raised exception,
      and the world after it. The world also keeps, in order, the files the
      program has opened and its calls into tkinter and the web browser.
    - A reportlab canvas is the list of the calls made on it; [save()]
      writes that list to the file, and nothing is written before.
    - A [StringVar] is the text it holds. The application object is a
      record of these texts; what the user does in a window is a function
      on the record.

    The model comes first, then the properties: the invoice number file,
    the configuration file, the invoice page, the due date. *)

From Stdlib Require Import ZArith List String Ascii Bool Lia Floats.
From stdpp Require Import gmap strings list.

Local Open Scope string_scope.
Local Open Scope list_scope.
Local Open Scope Z_scope.

(** ** Python text primitives *)

Module Py.

(** [str.isspace] of one character, for the code points below 256. *)
Definition is_space (c : ascii) : bool :=
  let n := nat_of_ascii c in
  ((9 <=? n)%nat && (n <=? 13)%nat) || ((28 <=? n)%nat && (n <=? 32)%nat)
  || (n =? 133)%nat || (n =? 160)%nat.

Fixpoint lstrip (s : list ascii) : list ascii :=
  match s with
  | c :: s' => if is_space c then lstrip s' else s
  | [] => []
  end.

Definition rstrip (s : list ascii) : list ascii := rev (lstrip (rev s)).

(** [s.strip()] *)
Definition strip_chars (s : list ascii) : list ascii := rstrip (lstrip s).

Definition strip (s : string) : string :=
  string_of_list_ascii (strip_chars (list_ascii_of_string s)).

(** The blanks that [int()] and [float()] skip around a number, for the
    code points below 256: fewer than [str.isspace] accepts. *)
Definition is_blank (c : ascii) : bool :=
  let n := nat_of_ascii c in
  ((9 <=? n)%nat && (n <=? 13)%nat) || (n =? 32)%nat || (n =? 133)%nat
  || (n =? 160)%nat.

Fixpoint skip_blanks (s : list ascii) : list ascii :=
  match s with
  | c :: s' => if is_blank c then skip_blanks s' else s
  | [] => []
  end.

Definition trim (s : list ascii) : list ascii :=
  rev (skip_blanks (rev (skip_blanks s))).

(** The value of a decimal digit character. *)
Definition digit_value (c : ascii) : option Z :=
  let n := nat_of_ascii c in
  if (48 <=? n)%nat && (n <=? 57)%nat then Some (Z.of_nat n - 48) else None.

Definition digit_char (d : Z) : ascii := ascii_of_nat (Z.to_nat (48 + d)).

(** The digits of an integer literal as [int()] reads them: at least one
    digit, and single underscores allowed between two digits. [prev] tells
    whether the previous character was a digit. *)
Fixpoint parse_digits (prev : bool) (acc : Z) (s : list ascii) : option Z :=
  match s with
  | [] => if prev then Some acc else None
  | c :: s' =>
      match digit_value c with
      | Some d => parse_digits true (10 * acc + d) s'
      | None =>
          if Ascii.eqb c "_" && prev then parse_digits false acc s' else None
      end
  end.

(** [int(s)] in base 10: surrounding blanks, an optional sign, digits.
    [None] stands for the [ValueError]. *)
Definition int_chars (s : list ascii) : option Z :=
  match trim s with
  | "+"%char :: r => parse_digits false 0 r
  | "-"%char :: r => Z.opp <$> parse_digits false 0 r
  | r => parse_digits false 0 r
  end.

Definition int (s : string) : option Z := int_chars (list_ascii_of_string s).

(** The decimal digits of a non-negative integer, most significant first.
    The fuel bounds the number of digits by the number of bits. *)
Fixpoint digits_fuel (fuel : nat) (n : Z) (acc : list ascii) : list ascii :=
  match fuel with
  | O => acc
  | S fuel' =>
      let acc' := digit_char (n mod 10) :: acc in
      if n <? 10 then acc' else digits_fuel fuel' (n / 10) acc'
  end.

Definition digits (n : Z) : list ascii :=
  digits_fuel (S (Z.to_nat (Z.log2 n))) n [].

(** [str(n)] for an integer. *)
Definition str_chars (n : Z) : list ascii :=
  if n <? 0 then "-"%char :: digits (- n) else digits n.

Definition str (n : Z) : string := string_of_list_ascii (str_chars n).

(** Writing [new] at offset 0 of a file that holds [old], without
    truncating: what [f.seek(0); f.write(new)] does on a file opened
    with mode "r+". The write replaces bytes; here it replaces as many
    characters, which is the same wherever the characters replaced are of
    ASCII, one byte each, as digits, signs, blanks and line ends are. *)
Definition overwrite (new old : string) : string :=
  let n := list_ascii_of_string new in
  string_of_list_ascii (n ++ drop (length n) (list_ascii_of_string old)).

End Py.

(** ** The world: files, dialogs, and the result of a call *)

(** One call on a reportlab canvas, with its arguments as the source
    passes them. Lengths are in points, colours are RGB components. *)
Inductive canvas_op : Type :=
| DrawImage (path : string) (x y width height : float) (mask : option string)
| SetFont (name : string) (size : Z)
| SetFillColorRGB (r g b : float)
| SetFillColor (r g b : float)
| SetStrokeColorRGB (r g b : float)
| DrawString (x y : float) (text : string)
| DrawRightString (x y : float) (text : string)
| DrawCentredString (x y : float) (text : string)
| Line (x1 y1 x2 y2 : float)
| Rect (x y width height : float) (fill stroke : Z)
| ShowPage.

(** What a path names. A text file holds a string; an image is only known
    to load; a PDF holds the page description it was saved with. *)
Inductive file : Type :=
| TextFile (content : string)
| ImageFile
| PdfFile (pagesize : float * float) (calls : list canvas_op)
| Directory.

(** What the program does to its environment, in order: the files it
    opens, and its calls into tkinter and the web browser. *)
Inductive event : Type :=
| Opened (path mode : string)
| ShowError (title message : string)
| ShowInfo (title message : string)
| Destroyed
| BrowserOpened (path : string).

Record World : Type := {
  files : gmap string file;
  events : list event;
}.

(** Exceptions, named after the Python class and the call that raises. *)
Inductive exn : Type :=
| FileNotFoundError (path : string)
| IsADirectoryError (path : string)
| NotADirectoryError (path : string)
| UnicodeDecodeError (path : string)
| ValueError_int (text : string)
| ValueError_float (text : string)
| ValueError_unpack (got : nat)
| ValueError_strptime (text : string)
| OverflowError
| AttributeError (name : string)
| OSError_image (path : string).

Inductive result (A : Type) : Type :=
| Ok (a : A)
| Raise (e : exn).
Arguments Ok {A} a.
Arguments Raise {A} e.

(** A method: from the world before to its result and the world after. *)
Definition M (A : Type) : Type := World -> result A * World.

Definition ret {A} (a : A) : M A := fun w => (Ok a, w).

Definition raise {A} (e : exn) : M A := fun w => (Raise e, w).

Definition bind {A B} (m : M A) (k : A -> M B) : M B :=
  fun w => match m w with
           | (Ok a, w') => k a w'
           | (Raise e, w') => (Raise e, w')
           end.

Definition emit (e : event) : M unit :=
  fun w => (Ok tt, {| files := files w; events := events w ++ [e] |}).

Definition lookup_file (path : string) : M (option file) :=
  fun w => (Ok (files w !! path), w).

Definition store_file (path : string) (f : file) : M unit :=
  fun w => (Ok tt, {| files := <[path := f]> (files w); events := events w |}).


Notation "x <- m ;; k" := (bind m (fun x => k))
  (at level 100, m at next level, right associativity).
Notation "m ;;; k" := (bind m (fun _ => k))
  (at level 100, k at level 200, right associativity).

(** [open(path, mode)] on an existing text file followed by [f.read()]. *)
Definition read_text (path mode : string) : M string :=
  f <- lookup_file path ;;
  match f with
  | None => raise (FileNotFoundError path)
  | Some Directory => raise (IsADirectoryError path)
  | Some (TextFile content) => emit (Opened path mode) ;;; ret content
  | Some _ => emit (Opened path mode) ;;; raise (UnicodeDecodeError path)
  end.

(** ** The invoice number file (source lines 391-417) *)

Definition verify_invoice_number_file : M unit :=
  f <- lookup_file "invoice_number.txt" ;;
  match f with
  | Some _ => ret tt
  | None =>
      emit (Opened "invoice_number.txt" "w") ;;;
      store_file "invoice_number.txt" (TextFile "0")
  end.

Definition get_next_invoice_number : M Z :=
  content <- read_text "invoice_number.txt" "r+" ;;
  match Py.int (Py.strip content) with
  | None => raise (ValueError_int (Py.strip content))
  | Some number =>
      store_file "invoice_number.txt"
        (TextFile (Py.overwrite (Py.str (number + 1)) content)) ;;;
      ret (number + 1)
  end.

(** [N] calls of [get_next_invoice_number], one after the other; the
    numbers are returned in the order of the calls. *)
Fixpoint allocate_many (N : nat) : M (list Z) :=
  match N with
  | O => ret []
  | S N' =>
      n <- get_next_invoice_number ;;
      ns <- allocate_many N' ;;
      ret (n :: ns)
  end.

(** The counter file holds [C] in the form the program writes it. *)
Definition counter_is (C : Z) (w : World) : Prop :=
  files w !! "invoice_number.txt" = Some (TextFile (Py.str C)).

(** The number that line 414 reads back from the counter file. *)
Definition stored_number (w : World) : option Z :=
  match files w !! "invoice_number.txt" with
  | Some (TextFile content) => Py.int (Py.strip content)
  | _ => None
  end.

(** [n] calls of [verify_invoice_number_file] in a row. *)
Fixpoint verify_many (n : nat) : M unit :=
  match n with
  | O => ret tt
  | S n' => verify_invoice_number_file ;;; verify_many n'
  end.

(** A world that holds nothing but a counter file with the given text. *)
Definition world_with_counter (content : string) : World :=
  {| files := {["invoice_number.txt" := TextFile content]}; events := [] |}.

Definition empty_world : World := {| files := ∅; events := [] |}.

(** ** The configuration file (source lines 81-123) *)

Module Config.

Definition LF : ascii := "010"%char.
Definition CR : ascii := "013"%char.

(** The lines that iterating over a file opened in text mode yields: each
    ends where a line feed, a carriage return or the pair of them stands,
    keeps its end as one line feed, and a last unterminated line counts.
    [after_cr] is set right after a carriage return, [cur] holds the
    characters of the current line, last first. *)
Fixpoint lines_from (after_cr : bool) (cur s : list ascii) : list (list ascii) :=
  match s with
  | [] => match cur with [] => [] | _ => [rev cur] end
  | c :: s' =>
      if Ascii.eqb c LF then
        if after_cr then lines_from false [] s'
        else rev (LF :: cur) :: lines_from false [] s'
      else if Ascii.eqb c CR then rev (LF :: cur) :: lines_from true [] s'
      else lines_from false (c :: cur) s'
  end.

Definition file_lines (content : string) : list string :=
  map string_of_list_ascii (lines_from false [] (list_ascii_of_string content)).

(** [s.split('=', 1)]: the text before and after the first [=], or [None]
    when there is none and the list has the single element [s]. *)
Fixpoint split_eq (before s : list ascii) : option (list ascii * list ascii) :=
  match s with
  | [] => None
  | c :: s' =>
      if Ascii.eqb c "=" then Some (rev before, s')
      else split_eq (c :: before) s'
  end.

(** The attributes that [load_config] has set on [self], by name. *)
Abbreviation attrs := (gmap string string).

(** Lines 102-123: the chain of comparisons on [key]. *)
Definition assign (key value : string) (self : attrs) : attrs :=
  if String.eqb key "companyimage_file_name" then
    <["companyimage_file_name" := value]> self
  else if String.eqb key "signature_file_name" then
    <["signature_file_name" := value]> self
  else if String.eqb key "company_name" then <["company_name" := value]> self
  else if String.eqb key "address" then <["address" := value]> self
  else if String.eqb key "city_st_zip" then <["city_st_zip" := value]> self
  else if String.eqb key "phone_no" then <["phone_no" := value]> self
  else if String.eqb key "email" then <["email" := value]> self
  else if String.eqb key "customer_name" then <["customer_name" := value]> self
  else if String.eqb key "customer_email" then <["customer_email" := value]> self
  else if String.eqb key "customer_address" then
    <["customer_address" := value]> self
  else if String.eqb key "customer_city" then <["customer_city" := value]> self
  else self.

(** Lines 99-100 and the chain, for one line of the file. *)
Definition load_line (line : string) (self : attrs) : result attrs :=
  match split_eq [] (Py.strip_chars (list_ascii_of_string line)) with
  | None => Raise (ValueError_unpack 1)
  | Some (key, value) =>
      Ok (assign (string_of_list_ascii key)
                 (string_of_list_ascii (Py.strip_chars value)) self)
  end.

Fixpoint load_lines (lines : list string) (self : attrs) : result attrs :=
  match lines with
  | [] => Ok self
  | line :: rest =>
      match load_line line self with
      | Ok self' => load_lines rest self'
      | Raise e => Raise e
      end
  end.

(** [self.load_config(file_path)], returning the attributes of [self]. *)
Definition load_config (file_path : string) (self : attrs) : M attrs :=
  f <- lookup_file file_path ;;
  match f with
  | None | Some Directory =>
      emit (ShowError "Error" ("Configuration file not found: " +:+ file_path)) ;;;
      ret self
  | Some (TextFile content) =>
      emit (Opened file_path "r") ;;;
      match load_lines (file_lines content) self with
      | Ok self' => ret self'
      | Raise e => raise e
      end
  | Some _ =>
      emit (Opened file_path "r") ;;;
      raise (UnicodeDecodeError file_path)
  end.

(** Some line of the file has no [=] in it. *)
Definition has_line_without_eq (content : string) : Prop :=
  Exists (fun line => split_eq [] (Py.strip_chars (list_ascii_of_string line)) = None)
         (file_lines content).

End Config.

(** A world that holds nothing but a configuration file. *)
Definition world_with_config (content : string) : World :=
  {| files := {["config.txt" := TextFile content]}; events := [] |}.

(** ** Dates (Python's [datetime], proleptic Gregorian calendar) *)

Module Datetime.

Record date : Type := { year : Z; month : Z; day : Z }.

Definition is_leap (y : Z) : bool :=
  (y mod 4 =? 0) && (negb (y mod 100 =? 0) || (y mod 400 =? 0)).

Definition DAYS_IN_MONTH : list Z :=
  [-1; 31; 28; 31; 30; 31; 30; 31; 31; 30; 31; 30; 31].

Definition DAYS_BEFORE_MONTH : list Z :=
  [-1; 0; 31; 59; 90; 120; 151; 181; 212; 243; 273; 304; 334].

Definition days_in_month (y m : Z) : Z :=
  if (m =? 2) && is_leap y then 29 else nth (Z.to_nat m) DAYS_IN_MONTH 0.

Definition days_before_year (y : Z) : Z :=
  let y := y - 1 in y * 365 + y / 4 - y / 100 + y / 400.

Definition days_before_month (y m : Z) : Z :=
  nth (Z.to_nat m) DAYS_BEFORE_MONTH 0
  + (if (2 <? m) && is_leap y then 1 else 0).

(** Day number of a date; 1 is 0001-01-01. *)
Definition toordinal (d : date) : Z :=
  days_before_year (year d) + days_before_month (year d) (month d) + day d.

Definition DI400Y : Z := 146097.
Definition DI100Y : Z := 36524.
Definition DI4Y : Z := 1461.
Definition MAXORDINAL : Z := 3652059.

(** Month and day of the day numbered [n] within its year, from 0: an
    estimate of the month that is exact or one too large, then corrected. *)
Definition month_day (leapyear : bool) (n : Z) : Z * Z :=
  let m := Z.shiftr (n + 50) 5 in
  let preceding :=
    nth (Z.to_nat m) DAYS_BEFORE_MONTH 0
    + (if (2 <? m) && leapyear then 1 else 0) in
  if n <? preceding then
    let m := m - 1 in
    let preceding :=
      preceding - (nth (Z.to_nat m) DAYS_IN_MONTH 0
                   + (if (m =? 2) && leapyear then 1 else 0)) in
    (m, n - preceding + 1)
  else (m, n - preceding + 1).

(** The date of a day number, by the 400, 100, 4 and 1 year cycles. *)
Definition fromordinal (n : Z) : date :=
  let n := n - 1 in
  let n400 := n / DI400Y in
  let n := n mod DI400Y in
  let n100 := n / DI100Y in
  let n := n mod DI100Y in
  let n4 := n / DI4Y in
  let n := n mod DI4Y in
  let n1 := n / 365 in
  let n := n mod 365 in
  let y := n400 * 400 + 1 + n100 * 100 + n4 * 4 + n1 in
  if (n1 =? 4) || (n100 =? 4) then {| year := y - 1; month := 12; day := 31 |}
  else
    let leapyear := (n1 =? 3) && (negb (n4 =? 24) || (n100 =? 3)) in
    let '(m, d) := month_day leapyear n in
    {| year := y; month := m; day := d |}.

(** The checks of the [date] constructor. *)
Definition valid (d : date) : bool :=
  (1 <=? year d) && (year d <=? 9999) && (1 <=? month d) && (month d <=? 12)
  && (1 <=? day d) && (day d <=? days_in_month (year d) (month d)).

(** [d + timedelta(days=k)]; [None] stands for the [OverflowError]. *)
Definition add_days (d : date) (k : Z) : option date :=
  let o := toordinal d + k in
  if (0 <? o) && (o <=? MAXORDINAL) then Some (fromordinal o) else None.

Definition month_name (m : Z) : string :=
  nth (Z.to_nat m)
    [""; "January"; "February"; "March"; "April"; "May"; "June"; "July";
     "August"; "September"; "October"; "November"; "December"] "".

Definition two_digits (n : Z) : string :=
  string_of_list_ascii [Py.digit_char (n / 10); Py.digit_char (n mod 10)].

(** [d.strftime("%d %B %Y")] in the C locale. *)
Definition strftime (d : date) : string :=
  two_digits (day d) +:+ " " +:+ month_name (month d) +:+ " " +:+ Py.str (year d).

(** The ways the start of [s] can be read as [%m], in the order in which
    the pattern 1[0-2]|0[1-9]|[1-9] tries them, each with the rest. *)
Definition read_month (s : list ascii) : list (Z * list ascii) :=
  match s with
  | a :: r =>
      match Py.digit_value a with
      | Some x =>
          (match r with
           | b :: r' =>
               match Py.digit_value b with
               | Some y =>
                   if ((x =? 1) && (y <=? 2)) || ((x =? 0) && (1 <=? y))
                   then [(10 * x + y, r')] else []
               | None => []
               end
           | [] => []
           end) ++ (if 1 <=? x then [(x, r)] else [])
      | None => []
      end
  | [] => []
  end.

(** The same for [%d], pattern 3[01]|[12]\d|0[1-9]|[1-9]| [1-9]. *)
Definition read_day (s : list ascii) : list (Z * list ascii) :=
  match s with
  | a :: r =>
      match Py.digit_value a with
      | Some x =>
          (match r with
           | b :: r' =>
               match Py.digit_value b with
               | Some y =>
                   if ((x =? 3) && (y <=? 1)) || ((1 <=? x) && (x <=? 2))
                      || ((x =? 0) && (1 <=? y))
                   then [(10 * x + y, r')] else []
               | None => []
               end
           | [] => []
           end) ++ (if 1 <=? x then [(x, r)] else [])
      | None =>
          if Ascii.eqb a " " then
            match r with
            | b :: r' =>
                match Py.digit_value b with
                | Some y => if 1 <=? y then [(y, r')] else []
                | None => []
                end
            | [] => []
            end
          else []
      end
  | [] => []
  end.

(** A [/], then [%y] (two digits) up to the end of the text. *)
Definition read_year (s : list ascii) : option Z :=
  match s with
  | [slash; a; b] =>
      if Ascii.eqb slash "/" then
        match Py.digit_value a, Py.digit_value b with
        | Some x, Some y => Some (10 * x + y)
        | _, _ => None
        end
      else None
  | _ => None
  end.

Definition read_slash (s : list ascii) : option (list ascii) :=
  match s with
  | c :: r => if Ascii.eqb c "/" then Some r else None
  | [] => None
  end.

(** The first reading of the whole text as [%m/%d/%y]. *)
Definition match_mdy (s : list ascii) : option (Z * Z * Z) :=
  head
    (m ← read_month s;
     r1 ← option_list (read_slash m.2);
     d ← read_day r1;
     y ← option_list (read_year d.2);
     [(m.1, d.1, y)]).

(** [datetime.strptime(s, "%m/%d/%y")], the date part ([None] for the
    [ValueError]): a two-digit year up to 68 is in the 2000s, one from 69
    on in the 1900s, and the day has to exist in the month. *)
Definition strptime (s : string) : option date :=
  match match_mdy (list_ascii_of_string s) with
  | Some (m, d, y) =>
      let d :=
        {| year := if y <=? 68 then y + 2000 else y + 1900;
           month := m; day := d |} in
      if valid d then Some d else None
  | None => None
  end.

(** The day after [d] on the calendar. *)
Definition next_day (d : date) : date :=
  if day d <? days_in_month (year d) (month d)
  then {| year := year d; month := month d; day := day d + 1 |}
  else if month d <? 12
  then {| year := year d; month := month d + 1; day := 1 |}
  else {| year := year d + 1; month := 1; day := 1 |}.

End Datetime.

(** ** Python floats: [float(s)] and the [.2f] format *)

Module PyFloat.

Definition is_digit (c : ascii) : bool :=
  match Py.digit_value c with Some _ => true | None => false end.

(** Underscores are dropped; each has to stand between two digits. [prev]
    is the previous character. [None] when one is misplaced. *)
Fixpoint drop_underscores (prev : ascii) (s : list ascii) : option (list ascii) :=
  match s with
  | [] => if Ascii.eqb prev "_" then None else Some []
  | c :: s' =>
      if Ascii.eqb c "_" then
        if is_digit prev then drop_underscores c s' else None
      else if Ascii.eqb prev "_" && negb (is_digit c) then None
      else cons c <$> drop_underscores c s'
  end.

(** A leading sign: [true] for minus. *)
Definition read_sign (s : list ascii) : bool * list ascii :=
  match s with
  | c :: s' =>
      if Ascii.eqb c "-" then (true, s')
      else if Ascii.eqb c "+" then (false, s')
      else (false, s)
  | [] => (false, [])
  end.

(** The digits at the start of [s]: their value after [acc], how many
    they are, and the rest. *)
Fixpoint read_digits (acc : Z) (count : Z) (s : list ascii) : Z * Z * list ascii :=
  match s with
  | c :: s' =>
      match Py.digit_value c with
      | Some d => read_digits (10 * acc + d) (count + 1) s'
      | None => (acc, count, s)
      end
  | [] => (acc, count, [])
  end.

Definition lower (c : ascii) : ascii :=
  let n := nat_of_ascii c in
  if (65 <=? n)%nat && (n <=? 90)%nat then ascii_of_nat (n + 32) else c.

Definition is_word (word : string) (s : list ascii) : bool :=
  String.eqb (string_of_list_ascii (map lower s)) word.

(** A decimal numeral, without its sign: digits, an optional point and
    more digits, with a digit somewhere, and an optional exponent that has
    a digit. The result is a mantissa [m] and an exponent [e], for the
    number [m * 10 ^ e]. *)
Definition read_decimal (s : list ascii) : option (Z * Z) :=
  let '(int_part, int_count, s1) := read_digits 0 0 s in
  let '(mantissa, frac_count, s2) :=
    match s1 with
    | c :: r =>
        if Ascii.eqb c "." then
          let '(m, total, r') := read_digits int_part int_count r in
          (m, total - int_count, r')
        else (int_part, 0, s1)
    | [] => (int_part, 0, s1)
    end in
  if int_count + frac_count =? 0 then None
  else
    match s2 with
    | [] => Some (mantissa, - frac_count)
    | c :: r =>
        if Ascii.eqb (lower c) "e" then
          let '(negative, r1) := read_sign r in
          let '(x, count, r2) := read_digits 0 0 r1 in
          match r2 with
          | [] =>
              if count =? 0 then None
              else Some (mantissa, (if negative then - x else x) - frac_count)
          | _ => None
          end
        else None
    end.

(** The binary64 number nearest to [m * 10 ^ e], ties to even, for
    [0 <= m]; too large a number gives an infinity. Numbers of more than
    310 or fewer than -330 decimal places before the point are decided
    without the division: they are past the largest float, or below half
    the smallest one. *)
Definition nearest (negative : bool) (m e : Z) : float :=
  match m with
  | Zpos p =>
      let places := Z.of_nat (length (Py.digits m)) + e in
      if 310 <? places then SF2Prim (S754_infinity negative)
      else if places <? -330 then SF2Prim (S754_zero negative)
      else
        match (m * 10 ^ Z.max e 0)%Z, (10 ^ Z.max (- e) 0)%Z with
        | Zpos num, Zpos den =>
            SF2Prim (SFdiv prec emax (S754_finite negative num 0)
                                     (S754_finite false den 0))
        | _, _ => SF2Prim (S754_zero negative)
        end
  | _ => SF2Prim (S754_zero negative)
  end.

(** [float(s)] for a string; [None] stands for the [ValueError]. *)
Definition float_chars (s : list ascii) : option float :=
  match drop_underscores "000" (Py.trim s) with
  | None => None
  | Some t =>
      let '(negative, body) := read_sign t in
      if is_word "inf" body || is_word "infinity" body then
        Some (SF2Prim (S754_infinity negative))
      else if is_word "nan" body then Some PrimFloat.nan
      else
        match read_decimal body with
        | Some (m, e) => Some (nearest negative m e)
        | None => None
        end
  end.

(** [m * 2 ^ e * 100] rounded to the nearest integer, ties to even. *)
Definition round_hundredths (m : positive) (e : Z) : Z :=
  if 0 <=? e then Z.pos m * 2 ^ e * 100
  else
    let num := Z.pos m * 100 in
    let den := 2 ^ (- e) in
    let q := num / den in
    let r := num mod den in
    match 2 * r ?= den with
    | Lt => q
    | Gt => q + 1
    | Eq => if Z.even q then q else q + 1
    end.

(** [f"{x:.2f}"] *)
Definition format_2f (x : float) : string :=
  match Prim2SF x with
  | S754_nan => "nan"
  | S754_infinity negative => if negative then "-inf" else "inf"
  | S754_zero negative => if negative then "-0.00" else "0.00"
  | S754_finite negative m e =>
      let n := round_hundredths m e in
      (if negative then "-" else "")
      +:+ Py.str (n / 100) +:+ "." +:+ Datetime.two_digits (n mod 100)
  end.

Definition float (s : string) : option PrimFloat.float :=
  float_chars (list_ascii_of_string s).

End PyFloat.

(** ** The application object *)

(** One row of the line item window: the four entry fields. *)
Record LineItem : Type := {
  item_date : string;
  description : string;
  location : string;
  rate : string;
}.

(** The attributes of a constructed [InvoiceGeneratorApp], each [StringVar]
    by the text it holds. Those that only [load_config] sets and that
    [__init__] never reads may be missing. [authorized_signatory] is not a
    field: line 71 binds it to the very [StringVar] of [company_name]. *)
Record App : Type := {
  companyimage_file_name : option string;
  signature_file_name : option string;
  company_name : string;
  address : string;
  city_st_zip : string;
  phone_no : string;
  email : option string;
  customer_name : string;
  customer_email : option string;
  customer_address : option string;
  customer_city : option string;
  date : string;
  due_date : string;
  line_items : list LineItem;
}.

Definition authorized_signatory (self : App) : string := company_name self.

Definition with_dates (date' due_date' : string) (self : App) : App :=
  {| companyimage_file_name := companyimage_file_name self;
     signature_file_name := signature_file_name self;
     company_name := company_name self;
     address := address self;
     city_st_zip := city_st_zip self;
     phone_no := phone_no self;
     email := email self;
     customer_name := customer_name self;
     customer_email := customer_email self;
     customer_address := customer_address self;
     customer_city := customer_city self;
     date := date';
     due_date := due_date';
     line_items := line_items self |}.

Definition with_line_items (items : list LineItem) (self : App) : App :=
  {| companyimage_file_name := companyimage_file_name self;
     signature_file_name := signature_file_name self;
     company_name := company_name self;
     address := address self;
     city_st_zip := city_st_zip self;
     phone_no := phone_no self;
     email := email self;
     customer_name := customer_name self;
     customer_email := customer_email self;
     customer_address := customer_address self;
     customer_city := customer_city self;
     date := date self;
     due_date := due_date self;
     line_items := items |}.

(** Reading an attribute of [self] that may never have been assigned. *)
Definition attr (name : string) (value : option string) : M string :=
  match value with
  | Some v => ret v
  | None => raise (AttributeError name)
  end.

Definition lift {A} (r : result A) : M A :=
  match r with
  | Ok a => ret a
  | Raise e => raise e
  end.

Definition add_days_or_raise (d : Datetime.date) (k : Z) : M Datetime.date :=
  match Datetime.add_days d k with
  | Some d' => ret d'
  | None => raise OverflowError
  end.

(** [InvoiceGeneratorApp()] on the day [today] (lines 47-79). The widgets
    that [create_widgets] builds read the attributes in the order below. *)
Definition __init__ (today : Datetime.date) : M App :=
  self <- Config.load_config "config.txt" ∅ ;;
  due <- add_days_or_raise today 15 ;;
  company_name <- attr "company_name" (self !! "company_name") ;;
  address <- attr "address" (self !! "address") ;;
  city_st_zip <- attr "city_st_zip" (self !! "city_st_zip") ;;
  phone_no <- attr "phone_no" (self !! "phone_no") ;;
  customer_name <- attr "customer_name" (self !! "customer_name") ;;
  verify_invoice_number_file ;;;
  ret {| companyimage_file_name := self !! "companyimage_file_name";
         signature_file_name := self !! "signature_file_name";
         company_name := company_name;
         address := address;
         city_st_zip := city_st_zip;
         phone_no := phone_no;
         email := self !! "email";
         customer_name := customer_name;
         customer_email := self !! "customer_email";
         customer_address := self !! "customer_address";
         customer_city := self !! "customer_city";
         date := Datetime.strftime today;
         due_date := Datetime.strftime due;
         line_items := [] |}.

(** The Set Date button of the calendar window (lines 188-196), where
    [cal.get_date()] returns [date_str]. *)
Definition set_date (date_str : string) (self : App) : result unit * App :=
  match Datetime.strptime date_str with
  | None => (Raise (ValueError_strptime date_str), self)
  | Some date_adj =>
      let self := with_dates (Datetime.strftime date_adj) (due_date self) self in
      match Datetime.add_days date_adj 15 with
      | None => (Raise OverflowError, self)
      | Some due =>
          (Ok tt, with_dates (date self) (Datetime.strftime due) self)
      end
  end.

(** The user types [text] into the Date entry, which line 148 binds to
    [self.date]. *)
Definition type_date (text : string) (self : App) : App :=
  with_dates text (due_date self) self.

(** [add_line_item_row] (lines 228-251): a row of four empty fields. The
    line item window opens with one call of it, and its + Add Line button
    makes one more. *)
Definition add_line_item_row (self : App) : App :=
  with_line_items
    (line_items self
     ++ [{| item_date := ""; description := ""; location := ""; rate := "" |}])
    self.

(** The user fills in the fields of row [index] of the line item window. *)
Definition type_line_item (index : nat) (item : LineItem) (self : App) : App :=
  with_line_items (<[index := item]> (line_items self)) self.

(** ** The invoice PDF (source lines 253-389) *)

Set Warnings "-inexact-float".

(** [reportlab.lib.units] and [reportlab.lib.pagesizes]. *)
Definition inch : float := 72.0%float.
Definition cm : float := (inch / 2.54)%float.
Definition mm : float := (cm * 0.1)%float.
Definition A4 : float * float := ((210 * mm)%float, (297 * mm)%float).

(** [not s] for a string. *)
Definition py_not (s : string) : bool := String.eqb s "".

(** The condition of line 264. *)
Definition field_missing (self : App) : bool :=
  py_not (company_name self) || py_not (address self)
  || py_not (city_st_zip self) || py_not (date self)
  || py_not (customer_name self) || py_not (phone_no self)
  || py_not (authorized_signatory self).

(** [inv_canvas.drawImage(path, ...)] opens the file it draws and reads it
    as an image. A file that is no image is opened all the same, and
    fails when it is read; a directory or a missing file cannot be
    opened. *)
Definition load_image (path : string) : M unit :=
  f <- lookup_file path ;;
  match f with
  | Some ImageFile => emit (Opened path "rb")
  | None | Some Directory => raise (OSError_image path)
  | Some _ => emit (Opened path "rb") ;;; raise (OSError_image path)
  end.

(** [inv_canvas.save()]: the canvas has kept its calls in memory up to
    here, and the file is written now. *)
Definition save (filename : string) (pagesize : float * float)
    (calls : list canvas_op) : M unit :=
  dir <- lookup_file "invoices" ;;
  match dir with
  | None => raise (FileNotFoundError filename)
  | Some Directory =>
      f <- lookup_file filename ;;
      match f with
      | Some Directory => raise (IsADirectoryError filename)
      | _ =>
          emit (Opened filename "wb") ;;;
          store_file filename (PdfFile pagesize calls)
      end
  | Some _ => raise (NotADirectoryError filename)
  end.

Section Drawing.
Local Open Scope float_scope.

(** The band behind a row (lines 330-331). *)
Definition band_calls (y_position : float) : list canvas_op :=
  [SetFillColor 0.9 0.9 0.9;
   Rect (1.8 * cm) (y_position - 0.2 * cm) (17 * cm) (0.70 * cm) 1 0].

(** The text of a row (lines 334-339). *)
Definition row_calls (y_position : float) (item : LineItem) : list canvas_op :=
  [SetFillColor 0 0 0;
   DrawString (2 * cm) y_position (item_date item);
   DrawString (5 * cm) y_position (description item);
   DrawString (12 * cm) y_position (location item);
   DrawString (17 * cm) y_position ("$" +:+ rate item)].

(** The loop of lines 325-345 from row [index] on: the calls it makes,
    and the final [y_position] and [subtotal]. *)
Fixpoint draw_items (index : nat) (items : list LineItem)
    (y_position subtotal : float) : result (list canvas_op * float * float) :=
  match items with
  | [] => Ok ([], y_position, subtotal)
  | item :: rest =>
      let band := if Nat.odd index then band_calls y_position else [] in
      match PyFloat.float (rate item) with
      | None => Raise (ValueError_float (rate item))
      | Some r =>
          match draw_items (S index) rest (y_position - 1 * cm) (subtotal + r) with
          | Ok (calls, y', subtotal') =>
              Ok (band ++ row_calls y_position item ++ calls, y', subtotal')
          | Raise e => Raise e
          end
      end
  end.

(** Lines 277-315: logo, company block, title, invoice number and date,
    customer block, column headings. *)
Definition head_calls (self : App) (invoice_number : Z)
    (logo email customer_email customer_address customer_city : string)
    : list canvas_op :=
  let '(width, height) := A4 in
  [DrawImage logo (2 * cm) (height - 3.5 * cm) (4 * cm) (2 * cm) None;
   SetFont "Helvetica" 10;
   SetFillColorRGB 0.6 0.6 0.6;
   DrawRightString (width - 2 * cm) (height - 2 * cm) (company_name self);
   DrawRightString (width - 2 * cm) (height - 2.5 * cm) email;
   DrawRightString (width - 2 * cm) (height - 3 * cm) (phone_no self);
   DrawRightString (width - 2 * cm) (height - 3.5 * cm) (address self);
   DrawRightString (width - 2 * cm) (height - 4 * cm) (city_st_zip self);
   SetFillColorRGB 0 0 0;
   SetFont "Helvetica" 20;
   SetFillColorRGB 0 0.6 0.9;
   DrawCentredString (width / 2) (height - 5 * cm) "INVOICE";
   SetFillColorRGB 0 0 0;
   SetFont "Helvetica-Bold" 10;
   DrawRightString (width - 2 * cm) (height - 5 * cm)
     ("Invoice No.: " +:+ Py.str invoice_number);
   SetFont "Helvetica" 10;
   DrawRightString (width - 2 * cm) (height - 5.5 * cm) (date self);
   SetFont "Helvetica-Bold" 10;
   DrawString (2 * cm) (height - 5 * cm) "BILL TO:";
   SetFont "Helvetica" 10;
   DrawString (2 * cm) (height - 5.5 * cm) (customer_name self);
   DrawString (2 * cm) (height - 6 * cm) customer_email;
   DrawString (2 * cm) (height - 6.5 * cm) customer_address;
   DrawString (2 * cm) (height - 7 * cm) customer_city;
   SetStrokeColorRGB 0.8 0.8 0.8;
   Line (2 * cm) (height - 8 * cm) (width - 2 * cm) (height - 8 * cm);
   DrawString (2 * cm) (height - 8.5 * cm) "Date";
   DrawString (5 * cm) (height - 8.5 * cm) "Description";
   DrawString (12 * cm) (height - 8.5 * cm) "Location";
   DrawString (17 * cm) (height - 8.5 * cm) "Rate"].

(** Lines 347-367: rule, total, rule, due date, signatory. *)
Definition total_calls (self : App) (y_position subtotal : float)
    : list canvas_op :=
  let '(width, height) := A4 in
  [SetStrokeColorRGB 0.8 0.8 0.8;
   Line (2 * cm) y_position (width - 2 * cm) y_position;
   DrawRightString (width - 6 * cm) (y_position - 1 * cm) "Total:";
   SetFont "Helvetica-Bold" 12;
   SetFillColorRGB 0 0.6 0.9;
   DrawRightString (width - 3 * cm) (y_position - 1 * cm)
     ("$ " +:+ PyFloat.format_2f subtotal);
   SetFillColorRGB 0 0 0;
   SetStrokeColorRGB 0.8 0.8 0.8;
   Line (width - 8 * cm) (y_position - 1.5 * cm) (width - 2 * cm)
     (y_position - 1.5 * cm);
   SetFont "Helvetica" 10;
   SetFont "Helvetica-Bold" 10;
   DrawRightString (width - 5.7 * cm) (y_position - 2 * cm) "Due Date:";
   SetFont "Helvetica" 10;
   DrawRightString (width - 2.5 * cm) (y_position - 2 * cm) (due_date self);
   DrawRightString (width - 2 * cm) (2 * cm)
     ("Authorized Signatory: " +:+ authorized_signatory self)].

(** Lines 368-381: signature image, the note, the end of the page. The
    note is shorter than the 90 characters [textwrap.wrap] fills, so it
    is the only line. *)
Definition foot_calls (signature : string) (y_position : float)
    : list canvas_op :=
  let '(width, height) := A4 in
  [DrawImage signature (width - 6 * cm) (2.5 * cm) (6 * cm) (2 * cm) (Some "auto");
   SetFillColorRGB 0.5 0.5 0.5;
   SetFont "Helvetica" 10;
   DrawString (3 * cm) (y_position - 3 * cm)
     "Your business is greatly appreciated.";
   ShowPage].

End Drawing.

Definition pdf_filename (invoice_number : Z) : string :=
  "invoices/Invoice_" +:+ Py.str invoice_number +:+ ".pdf".

(** Lines 270-389, after the invoice number is taken. *)
Definition render (self : App) (invoice_number : Z) : M unit :=
  let '(width, height) := A4 in
  logo <- attr "companyimage_file_name" (companyimage_file_name self) ;;
  load_image logo ;;;
  email <- attr "email" (email self) ;;
  customer_email <- attr "customer_email" (customer_email self) ;;
  customer_address <- attr "customer_address" (customer_address self) ;;
  customer_city <- attr "customer_city" (customer_city self) ;;
  rows <- lift (draw_items 0 (line_items self) (height - 9.5 * cm)%float 0%float) ;;
  let '(item_calls, y_position, subtotal) := rows in
  signature <- attr "signature_file_name" (signature_file_name self) ;;
  load_image signature ;;;
  save (pdf_filename invoice_number) A4
    (head_calls self invoice_number logo email customer_email
       customer_address customer_city
     ++ item_calls
     ++ total_calls self y_position subtotal
     ++ foot_calls signature y_position) ;;;
  emit (ShowInfo "Success"
          ("Invoice generated successfully and saved as "
           +:+ pdf_filename invoice_number +:+ ".")) ;;;
  emit Destroyed ;;;
  emit (BrowserOpened (pdf_filename invoice_number)).

(** [self.generate_invoice()] *)
Definition generate_invoice (self : App) : M unit :=
  if field_missing self then
    emit (ShowError "Error" "Please fill in all fields.")
  else
    invoice_number <- get_next_invoice_number ;;
    render self invoice_number.

(** ** Reading a drawn table back *)

Section Drawn.
Local Open Scope float_scope.

Abbreviation colour := (float * float * float)%type.

Definition light_grey : colour := (0.9, 0.9, 0.9).

Definition is_black (c : colour) : bool :=
  let '(r, g, b) := c in (r =? 0) && (g =? 0) && (b =? 0).

(** A rectangle as it was painted: the fill colour in force, and the
    arguments of [rect] (line 331). *)
Record band : Type := {
  band_colour : colour;
  band_x : float;
  band_y : float;
  band_width : float;
  band_height : float;
  band_fill : Z;
  band_stroke : Z;
}.

(** The height at which the text that comes next is drawn. *)
Definition text_height (calls : list canvas_op) : option float :=
  match calls with
  | DrawString _ y _ :: _ => Some y
  | _ => None
  end.

(** The rows of a drawn table, in order, each with the height of its text
    and the rectangle painted before that text, if one was. A row's text
    starts where the fill colour is set to black (line 334); [fill] is the
    fill colour in force and [pending] the last rectangle painted since the
    text of the previous row started. *)
Fixpoint banded_rows (fill : colour) (pending : option band)
    (calls : list canvas_op) : list (option float * option band) :=
  match calls with
  | [] => []
  | SetFillColor r g b :: rest =>
      if is_black (r, g, b) then
        (text_height rest, pending) :: banded_rows (r, g, b) None rest
      else banded_rows (r, g, b) pending rest
  | SetFillColorRGB r g b :: rest => banded_rows (r, g, b) pending rest
  | Rect x y width height fill' stroke :: rest =>
      banded_rows fill
        (Some {| band_colour := fill; band_x := x; band_y := y;
                 band_width := width; band_height := height;
                 band_fill := fill'; band_stroke := stroke |})
        rest
  | _ :: rest => banded_rows fill pending rest
  end.

(** What the loop of lines 325-345 draws when every rate is a number. *)
Fixpoint item_calls (index : nat) (items : list LineItem) (y_position : float)
    : list canvas_op :=
  match items with
  | [] => []
  | item :: rest =>
      (if Nat.odd index then band_calls y_position else [])
      ++ row_calls y_position item
      ++ item_calls (S index) rest (y_position - 1 * cm)
  end.

(** [y_position] after [n] rows. *)
Fixpoint y_after (n : nat) (y_position : float) : float :=
  match n with
  | O => y_position
  | S n' => y_after n' (y_position - 1 * cm)
  end.

(** Row [k] of a table whose first row has the index [index] and its text
    at the height [y_position], as lines 329-339 paint it: the height of
    its text, and behind a row of odd index the light grey band, a filled
    rectangle 17 cm wide and 0.7 cm high that starts 1.8 cm from the left
    edge of the page and 0.2 cm below the text. *)
Definition painted_row (index : nat) (y_position : float) (k : nat)
    : option float * option band :=
  let y_k := y_after k y_position in
  (Some y_k,
   if Nat.odd (index + k) then
     Some {| band_colour := light_grey;
             band_x := 1.8 * cm; band_y := y_k - 0.2 * cm;
             band_width := 17 * cm; band_height := 0.70 * cm;
             band_fill := 1; band_stroke := 0 |}
   else None).

(** The whole page of an invoice whose rates are the floats [rates]. *)
Definition invoice_calls (self : App) (invoice_number : Z)
    (logo email customer_email customer_address customer_city signature : string)
    (rates : list float) : list canvas_op :=
  let y0 := A4.2 - 9.5 * cm in
  let y_position := y_after (length (line_items self)) y0 in
  head_calls self invoice_number logo email customer_email customer_address
    customer_city
  ++ item_calls 0 (line_items self) y0
  ++ total_calls self y_position (fold_left PrimFloat.add rates 0)
  ++ foot_calls signature y_position.

End Drawn.

(** The rates of the rows read as the floats [rates]. *)
Definition rates_are (items : list LineItem) (rates : list float) : Prop :=
  Forall2 (fun item r => PyFloat.float (rate item) = Some r) items rates.

(** ** A sample office, for the examples *)

Definition office_config : string :=
  "companyimage_file_name=logo.png" +:+ String Config.LF
  "signature_file_name=signature.png" +:+ String Config.LF
  "company_name=ACME Cleaning" +:+ String Config.LF
  "address=1 Main Street" +:+ String Config.LF
  "city_st_zip=Springfield, IL 62701" +:+ String Config.LF
  "phone_no=555-0100" +:+ String Config.LF
  "email=" +:+ String Config.LF
  "customer_name=Bob Smith" +:+ String Config.LF
  "customer_email=" +:+ String Config.LF
  "customer_address=" +:+ String Config.LF
  "customer_city=" +:+ String Config.LF "".

(** Before the first start: no counter file yet. *)
Definition office_world : World :=
  {| files := list_to_map [("config.txt", TextFile office_config);
                           ("logo.png", ImageFile);
                           ("signature.png", ImageFile);
                           ("invoices", Directory)];
     events := [] |}.

Definition new_year_2024 : Datetime.date :=
  {| Datetime.year := 2024; Datetime.month := 1; Datetime.day := 1 |}.

(** The application started in the office on 2024-01-01. *)
Definition office_app : App :=
  {| companyimage_file_name := Some "logo.png";
     signature_file_name := Some "signature.png";
     company_name := "ACME Cleaning";
     address := "1 Main Street";
     city_st_zip := "Springfield, IL 62701";
     phone_no := "555-0100";
     email := Some "";
     customer_name := "Bob Smith";
     customer_email := Some "";
     customer_address := Some "";
     customer_city := Some "";
     date := "01 January 2024";
     due_date := "16 January 2024";
     line_items := [] |}.

(** The office once the application has started. *)
Definition office_started : World :=
  {| files := <["invoice_number.txt" := TextFile "0"]> (files office_world);
     events := [Opened "config.txt" "r"; Opened "invoice_number.txt" "w"] |}.

(** The same application after the user has emptied the Customer Name
    entry and filled in three rows. *)
Definition app_without_customer : App :=
  {| companyimage_file_name := Some "logo.png";
     signature_file_name := Some "signature.png";
     company_name := "ACME Cleaning";
     address := "1 Main Street";
     city_st_zip := "Springfield, IL 62701";
     phone_no := "555-0100";
     email := Some "";
     customer_name := "";
     customer_email := Some "";
     customer_address := Some "";
     customer_city := Some "";
     date := "01 January 2024";
     due_date := "16 January 2024";
     line_items :=
       [{| item_date := "01/02/2024"; description := "Windows";
           location := "Hall"; rate := "10.00" |}] |}.

Definition three_items : list LineItem :=
  [{| item_date := "01/02/2024"; description := "Windows"; location := "Hall";
      rate := "10.00" |};
   {| item_date := "01/03/2024"; description := "Floors"; location := "Office";
      rate := "20.50" |};
   {| item_date := "01/04/2024"; description := "Carpet"; location := "Lobby";
      rate := "5.25" |}].

Definition five_items : list LineItem :=
  three_items
  ++ [{| item_date := "01/05/2024"; description := "Stairs"; location := "Hall";
         rate := "7" |};
      {| item_date := "01/06/2024"; description := "Desks"; location := "Office";
         rate := "1e1" |}].

Definition items_with_abc : list LineItem :=
  [{| item_date := "01/02/2024"; description := "Windows"; location := "Hall";
      rate := "10.00" |};
   {| item_date := "01/03/2024"; description := "Floors"; location := "Office";
      rate := "abc" |}].

(** ** Checking a property over a range of integers *)

Module Calendar.

(** [f] holds of the [count] integers from [lo] on. *)
Fixpoint holds_from (count : nat) (lo : Z) (f : Z -> bool) : bool :=
  match count with
  | O => true
  | S count' => if f lo then holds_from count' (lo + 1) f else false
  end.

(** Days in month [m] of a leap or a common year. *)
Definition month_length (leap : bool) (m : Z) : Z :=
  if (m =? 2) && leap then 29 else nth (Z.to_nat m) Datetime.DAYS_IN_MONTH 0.

(** Day [d] of month [m], counted from 0 within its year. *)
Definition day_of_year (leap : bool) (m d : Z) : Z :=
  nth (Z.to_nat m) Datetime.DAYS_BEFORE_MONTH 0
  + (if (2 <? m) && leap then 1 else 0) + d - 1.

(** [month_day] finds month and day again from the day of the year; only
    the last day of a leap year is out of its reach. *)
Definition month_day_ok (leap : bool) (m d : Z) : bool :=
  implb (d <=? month_length leap m)
    (let n := day_of_year leap m d in
     (0 <=? n) && (n <=? 365)
     && (if n =? 365 then leap && (m =? 12) && (d =? 31)
         else let '(m', d') := Datetime.month_day leap n in (m' =? m) && (d' =? d))).

End Calendar.

(** ** Further definitions, for the properties beyond the invoice itself *)

(** The eleven keys that the chain of lines 102-123 knows. *)
Definition config_keys : list string :=
  ["companyimage_file_name"; "signature_file_name"; "company_name"; "address";
   "city_st_zip"; "phone_no"; "email"; "customer_name"; "customer_email";
   "customer_address"; "customer_city"].

(** The line [key=value] as it stands in a file. *)
Definition config_line (key value : string) : string :=
  key +:+ "=" +:+ value.

(** Every line of the text has an [=] in it. *)
Definition every_line_has_eq (content : string) : Prop :=
  Forall (fun line =>
            Config.split_eq [] (Py.strip_chars (list_ascii_of_string line)) <> None)
         (Config.file_lines content).


(** The application started from a configuration file that has no line
    for [email]. *)
Definition app_without_email : App :=
  {| companyimage_file_name := Some "logo.png";
     signature_file_name := Some "signature.png";
     company_name := "ACME Cleaning";
     address := "1 Main Street";
     city_st_zip := "Springfield, IL 62701";
     phone_no := "555-0100";
     email := None;
     customer_name := "Bob Smith";
     customer_email := Some "";
     customer_address := Some "";
     customer_city := Some "";
     date := "01 January 2024";
     due_date := "16 January 2024";
     line_items := [] |}.

(** The office after someone has removed the directory [invoices]. *)
Definition office_without_directory : World :=
  {| files := delete "invoices" (files office_started);
     events := events office_started |}.


(** [open_line_item_window] (lines 200-226): the window opens with one row,
    after the rows that are there from an earlier opening. *)
Definition open_line_item_window (self : App) : App := add_line_item_row self.

(** A row as the page shows it: the rate behind a dollar sign (line 339). *)
Definition as_drawn (item : LineItem) : LineItem :=
  {| item_date := item_date item;
     description := description item;
     location := location item;
     rate := "$" +:+ rate item |}.

(** The rows of a drawn table read back from the page: a row is four
    texts drawn right after [setFillColor] has set the fill colour to
    black. *)
Fixpoint drawn_rows (calls : list canvas_op) : list LineItem :=
  match calls with
  | [] => []
  | SetFillColor r g b :: rest =>
      match rest with
      | DrawString _ _ t1 :: DrawString _ _ t2 :: DrawString _ _ t3
        :: DrawString _ _ t4 :: _ =>
          if is_black (r, g, b) then
            {| item_date := t1; description := t2; location := t3; rate := t4 |}
            :: drawn_rows rest
          else drawn_rows rest
      | _ => drawn_rows rest
      end
  | _ :: rest => drawn_rows rest
  end.

(** White space of ASCII: blank, tab, line feed, carriage return and the
    like. Each is one byte of the file, as the digits are. *)
Definition is_ascii_space (c : ascii) : bool :=
  Py.is_space c && (nat_of_ascii c <? 128)%nat.

(** The counter file holds [C] followed by white space of ASCII, as after
    an edit by hand that left a newline at its end. *)
Definition counter_padded (C : Z) (w : World) : Prop :=
  exists ws,
    Forall (fun c => is_ascii_space c = true) ws
    /\ files w !! "invoice_number.txt"
       = Some (TextFile (Py.str C +:+ string_of_list_ascii ws)).


(** A configuration file written line by line: each [key=value] followed
    by a line feed. *)
Definition config_text (lines : list (string * string)) : string :=
  fold_right (fun kv rest => config_line kv.1 kv.2 +:+ String Config.LF rest)
    "" lines.

(** The text holds no line feed and no carriage return. *)
Definition no_newline (s : string) : Prop :=
  Forall (fun c => Ascii.eqb c Config.LF = false /\ Ascii.eqb c Config.CR = false)
    (list_ascii_of_string s).

(** * Properties *)

Example strip_example : Py.strip (" 12" +:+ String "010" " ") = "12".
Proof. reflexivity. Qed.

Example int_examples :
  Py.int "42" = Some 42 /\ Py.int " 007 " = Some 7 /\ Py.int "-3" = Some (-3)
  /\ Py.int "1_000" = Some 1000 /\ Py.int "" = None /\ Py.int "abc" = None
  /\ Py.int "1__0" = None /\ Py.int "_1" = None /\ Py.int "4 2" = None.
Proof. repeat split; reflexivity. Qed.

Example str_examples :
  Py.str 0 = "0" /\ Py.str 9 = "9" /\ Py.str 10 = "10" /\ Py.str 1024 = "1024"
  /\ Py.str (-10) = "-10".
Proof. repeat split; reflexivity. Qed.

Example overwrite_examples :
  Py.overwrite "10" "9" = "10" /\ Py.overwrite "8" "007" = "807".
Proof. split; reflexivity. Qed.

(** ** Decimal digits *)

Section Digits.
Import Py.

Lemma digit_value_char d : 0 <= d < 10 -> digit_value (digit_char d) = Some d.
Proof.
  intros H.
  assert (Hd : d = 0 \/ d = 1 \/ d = 2 \/ d = 3 \/ d = 4 \/ d = 5 \/ d = 6
               \/ d = 7 \/ d = 8 \/ d = 9) by lia.
  repeat (destruct Hd as [-> | Hd]; [reflexivity |]); subst; reflexivity.
Qed.

Lemma digit_char_not_space d : 0 <= d < 10 -> is_space (digit_char d) = false.
Proof.
  intros H.
  assert (Hd : d = 0 \/ d = 1 \/ d = 2 \/ d = 3 \/ d = 4 \/ d = 5 \/ d = 6
               \/ d = 7 \/ d = 8 \/ d = 9) by lia.
  repeat (destruct Hd as [-> | Hd]; [reflexivity |]); subst; reflexivity.
Qed.

Lemma digit_char_not_blank d : 0 <= d < 10 -> is_blank (digit_char d) = false.
Proof.
  intros H.
  assert (Hd : d = 0 \/ d = 1 \/ d = 2 \/ d = 3 \/ d = 4 \/ d = 5 \/ d = 6
               \/ d = 7 \/ d = 8 \/ d = 9) by lia.
  repeat (destruct Hd as [-> | Hd]; [reflexivity |]); subst; reflexivity.
Qed.

Lemma digits_fuel_acc fuel : forall n acc,
  digits_fuel fuel n acc = digits_fuel fuel n [] ++ acc.
Proof.
  induction fuel as [| fuel IH]; intros n acc; simpl; [reflexivity |].
  destruct (n <? 10); [reflexivity |].
  rewrite (IH _ (_ :: acc)), (IH _ [_]), <- app_assoc. reflexivity.
Qed.

Lemma digits_fuel_enough f1 : forall f2 n acc,
  0 <= n < 2 ^ Z.of_nat (S f1) -> n < 2 ^ Z.of_nat (S f2) ->
  digits_fuel (S f1) n acc = digits_fuel (S f2) n acc.
Proof.
  induction f1 as [| f1 IH]; intros f2 n acc H1 H2.
  - change (2 ^ Z.of_nat 1) with 2 in H1. simpl.
    destruct (Z.ltb_spec n 10); [reflexivity | lia].
  - cbn [digits_fuel]. destruct (Z.ltb_spec n 10) as [Hlt | Hge]; [reflexivity |].
    destruct f2 as [| f2].
    + change (2 ^ Z.of_nat 1) with 2 in H2. lia.
    + rewrite !Nat2Z.inj_succ, !Z.pow_succ_r in H1, H2 by lia.
      apply IH.
      * rewrite Nat2Z.inj_succ, Z.pow_succ_r by lia.
        split; [apply Z.div_pos; lia |].
        apply Z.div_lt_upper_bound; lia.
      * rewrite Nat2Z.inj_succ, Z.pow_succ_r by lia.
        apply Z.div_lt_upper_bound; lia.
Qed.

Lemma log2_fuel n : 0 <= n -> n < 2 ^ Z.of_nat (S (Z.to_nat (Z.log2 n))).
Proof.
  intros H. rewrite Nat2Z.inj_succ, Z2Nat.id by apply Z.log2_nonneg.
  destruct (Z.eq_dec n 0) as [-> | Hn]; [reflexivity |].
  apply Z.log2_spec. lia.
Qed.

Lemma digits_small n : 0 <= n < 10 -> digits n = [digit_char n].
Proof.
  intros H. unfold digits. cbn [digits_fuel].
  destruct (Z.ltb_spec n 10); [| lia].
  rewrite Z.mod_small by lia. reflexivity.
Qed.

Lemma digits_step n :
  10 <= n -> digits n = digits (n / 10) ++ [digit_char (n mod 10)].
Proof.
  intros H. unfold digits at 1. cbn [digits_fuel].
  destruct (Z.ltb_spec n 10); [lia |].
  rewrite digits_fuel_acc. f_equal.
  assert (Hq : 0 <= n / 10) by (apply Z.div_pos; lia).
  assert (Hlog : 0 < Z.log2 n) by (apply Z.log2_pos; lia).
  destruct (Z.to_nat (Z.log2 n)) as [| k] eqn:Ek; [lia |].
  unfold digits. apply digits_fuel_enough.
  - split; [exact Hq |].
    assert (Hn := log2_fuel n ltac:(lia)). rewrite Ek in Hn.
    rewrite Nat2Z.inj_succ, Z.pow_succ_r in Hn by lia.
    apply Z.div_lt_upper_bound; lia.
  - apply log2_fuel. exact Hq.
Qed.

(** Induction over the decimal digits of a non-negative integer. *)
Lemma digits_ind (P : Z -> Prop) :
  (forall n, 0 <= n < 10 -> P n) ->
  (forall n, 10 <= n -> P (n / 10) -> P n) ->
  forall n, 0 <= n -> P n.
Proof.
  intros Hsmall Hstep n Hn. pattern n.
  apply Zlt_0_ind; [| exact Hn].
  clear n Hn. intros n IH Hn.
  destruct (Z_lt_ge_dec n 10) as [Hlt | Hge]; [apply Hsmall; lia |].
  apply Hstep; [lia |]. apply IH.
  split; [apply Z.div_pos; lia | apply Z.div_lt; lia].
Qed.

Lemma digits_nonempty n : 0 <= n -> digits n <> [].
Proof.
  intros Hn. destruct (Z_lt_ge_dec n 10).
  - rewrite digits_small by lia. discriminate.
  - rewrite digits_step by lia. intros Habs.
    apply app_eq_nil in Habs. destruct Habs; discriminate.
Qed.

Lemma digits_not_space n :
  0 <= n -> Forall (fun c => is_space c = false) (digits n).
Proof.
  intros Hn. pattern n. apply digits_ind; [| | exact Hn]; clear n Hn.
  - intros n Hn. rewrite digits_small by lia.
    constructor; [apply digit_char_not_space; lia | constructor].
  - intros n Hn IH. rewrite digits_step by lia.
    apply Forall_app. split; [exact IH |].
    constructor; [| constructor].
    apply digit_char_not_space. apply Z.mod_pos_bound. lia.
Qed.

(** Reading back the digits of [n] shifts the accumulator and adds [n]. *)
Lemma parse_digits_digits n : 0 <= n -> forall prev acc rest,
  parse_digits prev acc (digits n ++ rest)
  = parse_digits true (acc * 10 ^ Z.of_nat (length (digits n)) + n) rest.
Proof.
  intros Hn. pattern n. apply digits_ind; [| | exact Hn]; clear n Hn.
  - intros n Hn prev acc rest. rewrite digits_small by lia.
    cbn [app parse_digits length]. rewrite digit_value_char by lia.
    f_equal. change (Z.of_nat 1) with 1. lia.
  - intros n Hn IH prev acc rest. rewrite digits_step by lia.
    rewrite <- app_assoc, IH. cbn [app parse_digits].
    rewrite digit_value_char by (apply Z.mod_pos_bound; lia).
    f_equal. rewrite length_app, Nat2Z.inj_add. cbn [length].
    change (Z.of_nat 1) with 1. rewrite Z.pow_add_r by lia.
    pose proof (Z.div_mod n 10 ltac:(lia)). lia.
Qed.

(** The number of digits never decreases as the number grows. *)
Lemma digits_length_mono n : 0 <= n -> forall m,
  n <= m -> (length (digits n) <= length (digits m))%nat.
Proof.
  intros Hn. pattern n. apply digits_ind; [| | exact Hn]; clear n Hn.
  - intros n Hn m Hm. rewrite digits_small by lia. cbn [length].
    pose proof (digits_nonempty m ltac:(lia)).
    destruct (digits m); [congruence | cbn [length]; lia].
  - intros n Hn IH m Hm. rewrite (digits_step n), (digits_step m) by lia.
    rewrite !length_app. cbn [length].
    specialize (IH (m / 10) ltac:(apply Z.div_le_mono; lia)). lia.
Qed.

End Digits.

(** ** Reading and writing the counter text *)

Section CounterText.
Import Py.

Lemma lstrip_id l :
  match l with c :: _ => is_space c = false | [] => True end -> lstrip l = l.
Proof. destruct l as [| c l]; simpl; [reflexivity |]. intros ->. reflexivity. Qed.

Lemma strip_chars_id l :
  Forall (fun c => is_space c = false) l -> strip_chars l = l.
Proof.
  intros H. unfold strip_chars, rstrip.
  rewrite (lstrip_id l) by (destruct H; [exact I | assumption]).
  rewrite lstrip_id, rev_involutive; [reflexivity |].
  apply Forall_rev in H. destruct H; [exact I | assumption].
Qed.

Lemma digits_head n : 0 <= n ->
  match digits n with c :: _ => is_Some (digit_value c) | [] => False end.
Proof.
  intros Hn. pattern n. apply digits_ind; [| | exact Hn]; clear n Hn.
  - intros n Hn. rewrite digits_small by lia.
    rewrite digit_value_char by lia. eauto.
  - intros n Hn IH. rewrite digits_step by lia.
    destruct (digits (n / 10)); [contradiction | exact IH].
Qed.

Lemma skip_blanks_id l :
  match l with c :: _ => is_blank c = false | [] => True end -> skip_blanks l = l.
Proof. destruct l as [| c l]; simpl; [reflexivity |]. intros ->. reflexivity. Qed.

Lemma trim_id l : Forall (fun c => is_blank c = false) l -> trim l = l.
Proof.
  intros H. unfold trim.
  rewrite (skip_blanks_id l) by (destruct H; [exact I | assumption]).
  rewrite skip_blanks_id, rev_involutive; [reflexivity |].
  apply Forall_rev in H. destruct H; [exact I | assumption].
Qed.

Lemma digits_not_blank n :
  0 <= n -> Forall (fun c => is_blank c = false) (digits n).
Proof.
  intros Hn. pattern n. apply digits_ind; [| | exact Hn]; clear n Hn.
  - intros n Hn. rewrite digits_small by lia.
    constructor; [apply digit_char_not_blank; lia | constructor].
  - intros n Hn IH. rewrite digits_step by lia.
    apply Forall_app. split; [exact IH |].
    constructor; [| constructor].
    apply digit_char_not_blank. apply Z.mod_pos_bound. lia.
Qed.

Lemma int_chars_unsigned l :
  match l with c :: _ => is_Some (digit_value c) | [] => False end ->
  trim l = l -> int_chars l = parse_digits false 0 l.
Proof.
  intros Hhead Hstrip. unfold int_chars. rewrite Hstrip.
  destruct l as [| c r]; [contradiction |].
  destruct c as [[] [] [] [] [] [] [] []]; try reflexivity;
    destruct Hhead as [d Hd]; vm_compute in Hd; discriminate.
Qed.

Lemma int_chars_digits n : 0 <= n -> int_chars (digits n) = Some n.
Proof.
  intros Hn.
  rewrite int_chars_unsigned;
    [| apply digits_head; exact Hn
     | apply trim_id, digits_not_blank; exact Hn].
  pose proof (parse_digits_digits n Hn false 0 []) as H.
  rewrite app_nil_r in H. rewrite H. reflexivity.
Qed.

Lemma str_chars_nonneg n : 0 <= n -> str_chars n = digits n.
Proof. intros Hn. unfold str_chars. destruct (Z.ltb_spec n 0); [lia | reflexivity]. Qed.

Lemma strip_str n : 0 <= n -> strip (str n) = str n.
Proof.
  intros Hn. unfold strip, str.
  rewrite list_ascii_of_string_of_list_ascii, str_chars_nonneg by exact Hn.
  rewrite strip_chars_id by (apply digits_not_space; exact Hn). reflexivity.
Qed.

(** [int(str(n))] is [n]. *)
Lemma int_str n : 0 <= n -> int (str n) = Some n.
Proof.
  intros Hn. unfold int, str.
  rewrite list_ascii_of_string_of_list_ascii, str_chars_nonneg by exact Hn.
  apply int_chars_digits. exact Hn.
Qed.

(** Writing [str(n + 1)] over [str(n)] from the start of the file leaves
    nothing of the old text: the new text is at least as long. *)
Lemma overwrite_str_succ n : 0 <= n -> overwrite (str (n + 1)) (str n) = str (n + 1).
Proof.
  intros Hn. unfold overwrite, str.
  rewrite !list_ascii_of_string_of_list_ascii, !str_chars_nonneg by lia.
  rewrite drop_ge, app_nil_r; [reflexivity |].
  apply digits_length_mono; lia.
Qed.

End CounterText.

(** ** The invoice number file *)

Lemma get_next_invoice_number_text content number w :
  files w !! "invoice_number.txt" = Some (TextFile content) ->
  Py.int (Py.strip content) = Some number ->
  get_next_invoice_number w
  = (Ok (number + 1),
     {| files := <["invoice_number.txt" :=
                     TextFile (Py.overwrite (Py.str (number + 1)) content)]>
                   (files w);
        events := events w ++ [Opened "invoice_number.txt" "r+"] |}).
Proof.
  intros Hfile Hint.
  unfold get_next_invoice_number, read_text, bind, emit, lookup_file,
    store_file, ret.
  cbn [files events]. rewrite Hfile, Hint. reflexivity.
Qed.

(** One allocation from a counter file that holds [str(C)]. *)
Lemma get_next_invoice_number_canonical C w :
  0 <= C -> counter_is C w ->
  get_next_invoice_number w
  = (Ok (C + 1),
     {| files := <["invoice_number.txt" := TextFile (Py.str (C + 1))]> (files w);
        events := events w ++ [Opened "invoice_number.txt" "r+"] |}).
Proof.
  intros HC Hfile.
  rewrite (get_next_invoice_number_text (Py.str C) C) by
    (try exact Hfile; rewrite strip_str by exact HC; apply int_str; exact HC).
  rewrite overwrite_str_succ by exact HC. reflexivity.
Qed.

Lemma consecutive_NoDup C N :
  List.NoDup (map (fun k => C + Z.of_nat k) (seq 1 N)).
Proof.
  apply Finite.Injective_map_NoDup; [| apply List.seq_NoDup].
  intros a b Hab. lia.
Qed.

(** [N] allocations in a row from a counter file that holds [str(C)]. *)
Lemma sequential_allocation_from C N w :
  0 <= C -> counter_is C w ->
  exists w',
    allocate_many N w = (Ok (map (fun k => C + Z.of_nat k) (seq 1 N)), w')
    /\ counter_is (C + Z.of_nat N) w'.
Proof.
  revert C w. induction N as [| N IH]; intros C w HC Hfile.
  - exists w. cbn [allocate_many seq map]. rewrite Z.add_0_r.
    split; [reflexivity | exact Hfile].
  - cbn [allocate_many]. unfold bind at 1.
    rewrite (get_next_invoice_number_canonical C w HC Hfile).
    set (w1 := {| files := _; events := _ |}).
    assert (H1 : counter_is (C + 1) w1) by apply lookup_insert_eq.
    destruct (IH (C + 1) w1 ltac:(lia) H1) as (w' & Hrun & Hend).
    exists w'. unfold bind. rewrite Hrun. unfold ret.
    assert (Hshift : map (fun k => C + 1 + Z.of_nat k) (seq 1 N)
                     = map (fun k => C + Z.of_nat k) (seq 2 N)).
    { rewrite <- (seq_shift N 1), map_map. apply map_ext. intros k. lia. }
    cbn [seq map]. rewrite Hshift. change (Z.of_nat 1) with 1.
    split; [reflexivity |].
    replace (C + Z.of_nat (S N)) with (C + 1 + Z.of_nat N) by lia. exact Hend.
Qed.

(** X25. Where the text of the counter file is exactly the decimal text of
    the non-negative number [C], the form in which the program itself
    writes the file, [N] calls of [get_next_invoice_number] in a row all
    return, and they return exactly [C+1, C+2, ..., C+N] in this order; the
    numbers are pairwise distinct, and the text of the file is that of
    [C+N] afterwards. *)
Theorem sequential_allocation C N w :
  0 <= C -> counter_is C w ->
  exists w',
    allocate_many N w = (Ok (map (fun k => C + Z.of_nat k) (seq 1 N)), w')
    /\ List.NoDup (map (fun k => C + Z.of_nat k) (seq 1 N))
    /\ counter_is (C + Z.of_nat N) w'.
Proof.
  intros HC Hfile.
  destruct (sequential_allocation_from C N w HC Hfile) as (w' & Hrun & Hend).
  exists w'. split; [exact Hrun |]. split; [apply consecutive_NoDup | exact Hend].
Qed.

Lemma sequential_allocation_witness :
  exists w',
    allocate_many 3 (world_with_counter "41") = (Ok [42; 43; 44], w')
    /\ List.NoDup [42; 43; 44]
    /\ counter_is 44 w'.
Proof.
  apply (sequential_allocation 41 3 (world_with_counter "41")); [lia | reflexivity].
Defined.

(** X26. Where the text of the counter file is exactly the decimal text of
    the non-negative number [C], the form in which the program itself
    writes the file, one call of [get_next_invoice_number] returns [C+1]
    and leaves a counter file whose whole content is the decimal text of
    [C+1]: the new text is at least as long as the old one, so the write
    from offset 0 covers it, and reading the file again as line 414 does
    gives [C+1]. *)
Theorem counter_file_rewritten C w :
  0 <= C -> counter_is C w ->
  exists w',
    get_next_invoice_number w = (Ok (C + 1), w')
    /\ files w' !! "invoice_number.txt" = Some (TextFile (Py.str (C + 1)))
    /\ stored_number w' = Some (C + 1).
Proof.
  intros HC Hfile. eexists. split; [| split].
  - apply get_next_invoice_number_canonical; assumption.
  - apply lookup_insert_eq.
  - unfold stored_number. cbn [files]. rewrite lookup_insert_eq.
    rewrite strip_str by lia. apply int_str. lia.
Qed.

Lemma counter_file_rewritten_witness :
  exists w',
    get_next_invoice_number (world_with_counter "99") = (Ok 100, w')
    /\ files w' !! "invoice_number.txt" = Some (TextFile "100")
    /\ stored_number w' = Some 100.
Proof.
  apply (counter_file_rewritten 99 (world_with_counter "99")); [lia | reflexivity].
Defined.

(** The write does not truncate: text that the program did not write itself
    can leave characters behind, and so can a negative number. *)
Example get_next_invoice_number_stale_text :
  files (snd (get_next_invoice_number (world_with_counter "007")))
    !! "invoice_number.txt" = Some (TextFile "807")
  /\ files (snd (get_next_invoice_number (world_with_counter "-10")))
       !! "invoice_number.txt" = Some (TextFile "-90").
Proof. split; reflexivity. Qed.

Lemma verify_invoice_number_file_present w :
  is_Some (files w !! "invoice_number.txt") ->
  verify_invoice_number_file w = (Ok tt, w).
Proof.
  intros [f Hf]. unfold verify_invoice_number_file, bind, lookup_file, ret.
  rewrite Hf. reflexivity.
Qed.

Lemma verify_many_present n : forall w,
  is_Some (files w !! "invoice_number.txt") -> verify_many n w = (Ok tt, w).
Proof.
  induction n as [| n IH]; intros w Hw; [reflexivity |].
  cbn [verify_many]. unfold bind.
  rewrite verify_invoice_number_file_present by exact Hw. apply IH, Hw.
Qed.

Lemma verify_invoice_number_file_absent w :
  files w !! "invoice_number.txt" = None ->
  verify_invoice_number_file w
  = (Ok tt, {| files := <["invoice_number.txt" := TextFile "0"]> (files w);
               events := events w ++ [Opened "invoice_number.txt" "w"] |}).
Proof.
  intros Hf. unfold verify_invoice_number_file, bind, lookup_file, ret, emit,
    store_file.
  rewrite Hf. reflexivity.
Qed.

(** C9. [verify_invoice_number_file] is idempotent. Calling it any number of
    times (at least once) is the same as calling it once; when the counter
    file exists, whatever it holds, any number of calls leave the world as it
    is; when the file is absent, the call creates it with the text 0 and
    touches no other file. *)
Theorem verify_invoice_number_file_idempotent n w :
  verify_many (S n) w = verify_invoice_number_file w
  /\ match files w !! "invoice_number.txt" with
     | Some _ => verify_many n w = (Ok tt, w)
     | None =>
         exists w', verify_invoice_number_file w = (Ok tt, w')
           /\ files w' = <["invoice_number.txt" := TextFile "0"]> (files w)
     end.
Proof.
  destruct (files w !! "invoice_number.txt") as [f |] eqn:Hf.
  - assert (Hsome : is_Some (files w !! "invoice_number.txt")) by eauto.
    rewrite !verify_many_present, verify_invoice_number_file_present by exact Hsome.
    split; reflexivity.
  - split.
    + cbn [verify_many]. unfold bind.
      rewrite verify_invoice_number_file_absent by exact Hf.
      apply verify_many_present. cbn [files]. rewrite lookup_insert_eq. eauto.
    + eexists. split; [apply verify_invoice_number_file_absent; exact Hf |].
      reflexivity.
Qed.

Example verify_keeps_nonzero_counter :
  verify_many 2 (world_with_counter "17") = (Ok tt, world_with_counter "17")
  /\ stored_number (snd (verify_invoice_number_file empty_world)) = Some 0.
Proof. split; reflexivity. Qed.

(** ** The configuration file *)

Example file_lines_example :
  Config.file_lines ("a=1" +:+ String Config.CR (String Config.LF "b=2"))
  = ["a=1" +:+ String Config.LF ""; "b=2"].
Proof. reflexivity. Qed.

Example load_config_example :
  fst (Config.load_config "config.txt" ∅
         (world_with_config ("company_name = ACME = Co " +:+ String Config.LF
                               "email=a@b.c" +:+ String Config.LF
                               "company_name=ACME" +:+ String Config.LF "")))
  = Ok (<["company_name" := "ACME"]> (<["email" := "a@b.c"]> ∅)).
Proof. vm_compute. reflexivity. Qed.

Lemma load_lines_without_eq lines : forall self,
  Exists (fun line =>
            Config.split_eq [] (Py.strip_chars (list_ascii_of_string line)) = None)
         lines ->
  Config.load_lines lines self = Raise (ValueError_unpack 1).
Proof.
  induction lines as [| line rest IH]; intros self Hex.
  - inversion Hex.
  - cbn [Config.load_lines]. unfold Config.load_line.
    destruct (Config.split_eq [] _) as [[key value] |] eqn:Hsplit; [| reflexivity].
    apply IH. inversion Hex as [? ? Hhere | ? ? Hlater]; subst;
      [congruence | exact Hlater].
Qed.

(** C5, as the code behaves. A configuration file with a line that has no
    [=] makes [load_config] end in the [ValueError] of the failed tuple
    unpacking on line 99: the line is not skipped, but the failure is the
    interpreter's own exception, raised past [load_config] and [__init__],
    and no error dialog is shown for it. *)
Theorem load_config_line_without_eq path content self w :
  files w !! path = Some (TextFile content) ->
  Config.has_line_without_eq content ->
  Config.load_config path self w
  = (Raise (ValueError_unpack 1),
     {| files := files w; events := events w ++ [Opened path "r"] |}).
Proof.
  intros Hfile Hline.
  unfold Config.load_config, bind, lookup_file, emit, raise.
  rewrite Hfile. cbn [files events].
  rewrite load_lines_without_eq by exact Hline. reflexivity.
Qed.

Lemma load_config_line_without_eq_witness :
  Config.load_config "config.txt" ∅
    (world_with_config ("company_name=ACME" +:+ String Config.LF "phone_no"))
  = (Raise (ValueError_unpack 1),
     {| files := {["config.txt" :=
                     TextFile ("company_name=ACME" +:+ String Config.LF "phone_no")]};
        events := [Opened "config.txt" "r"] |}).
Proof.
  apply (load_config_line_without_eq "config.txt"
           ("company_name=ACME" +:+ String Config.LF "phone_no") ∅
           (world_with_config ("company_name=ACME" +:+ String Config.LF "phone_no")));
    [reflexivity |].
  unfold Config.has_line_without_eq. apply Exists_cons_tl, Exists_cons_hd.
  reflexivity.
Defined.

(** The sibling case, a missing file, is reported in a dialog and
    [load_config] returns. *)
Example load_config_missing_file :
  Config.load_config "config.txt" ∅ empty_world
  = (Ok ∅, {| files := ∅;
              events := [ShowError "Error" "Configuration file not found: config.txt"] |}).
Proof. reflexivity. Qed.

(** ** Dates *)

Example add_days_examples :
  Datetime.add_days {| Datetime.year := 2024; Datetime.month := 1; Datetime.day := 1 |} 15
  = Some {| Datetime.year := 2024; Datetime.month := 1; Datetime.day := 16 |}
  /\ Datetime.add_days {| Datetime.year := 2024; Datetime.month := 12; Datetime.day := 20 |} 15
     = Some {| Datetime.year := 2025; Datetime.month := 1; Datetime.day := 4 |}
  /\ Datetime.add_days {| Datetime.year := 2024; Datetime.month := 2; Datetime.day := 20 |} 15
     = Some {| Datetime.year := 2024; Datetime.month := 3; Datetime.day := 6 |}
  /\ Datetime.add_days {| Datetime.year := 9999; Datetime.month := 12; Datetime.day := 20 |} 15
     = None.
Proof. repeat split; reflexivity. Qed.

Example strptime_examples :
  Datetime.strptime "8/1/24"
  = Some {| Datetime.year := 2024; Datetime.month := 8; Datetime.day := 1 |}
  /\ Datetime.strptime "12/20/24"
     = Some {| Datetime.year := 2024; Datetime.month := 12; Datetime.day := 20 |}
  /\ Datetime.strptime "05/01/69"
     = Some {| Datetime.year := 1969; Datetime.month := 5; Datetime.day := 1 |}
  /\ Datetime.strptime "2/30/24" = None
  /\ Datetime.strptime "13/1/24" = None
  /\ Datetime.strptime "1/1/2024" = None.
Proof. repeat split; reflexivity. Qed.

Example strftime_example :
  Datetime.strftime {| Datetime.year := 2025; Datetime.month := 1; Datetime.day := 4 |}
  = "04 January 2025".
Proof. reflexivity. Qed.

(** ** Floats *)

Example float_examples :
  PyFloat.float "10.00" = Some 10%float
  /\ PyFloat.float " 1_0.5e1 " = Some 105%float
  /\ PyFloat.float "1e999" = Some infinity
  /\ PyFloat.float "abc" = None
  /\ PyFloat.float "" = None
  /\ PyFloat.float "1,5" = None.
Proof. repeat split; reflexivity. Qed.

Example format_2f_examples :
  PyFloat.format_2f 35.75 = "35.75"
  /\ PyFloat.format_2f 0.125 = "0.12"
  /\ PyFloat.format_2f 2.675 = "2.67"
  /\ PyFloat.format_2f (0.1 + 0.2) = "0.30"
  /\ PyFloat.format_2f (-0.001) = "-0.00"
  /\ PyFloat.format_2f 0 = "0.00".
Proof. repeat split; reflexivity. Qed.

(** ** Generating an invoice: the gate *)

Ltac run :=
  unfold attr, lift; unfold bind, emit, lookup_file, store_file;
  unfold ret, raise; cbv beta iota zeta; cbn [files events fst snd].

Ltac step H := rewrite H; cbv beta iota zeta; cbn [files events fst snd].

Lemma py_not_true s : py_not s = true <-> s = "".
Proof. unfold py_not. apply String.eqb_eq. Qed.

Lemma py_not_false s : py_not s = false <-> s <> "".
Proof. unfold py_not. apply String.eqb_neq. Qed.

Lemma generate_invoice_field_missing self w :
  field_missing self = true ->
  generate_invoice self w
  = (Ok tt, {| files := files w;
               events := events w ++ [ShowError "Error" "Please fill in all fields."] |}).
Proof. intros H. unfold generate_invoice. rewrite H. reflexivity. Qed.

(** C3. With an empty customer name [generate_invoice] shows the error
    dialog and returns: that dialog is the only thing it does. No file is
    created or changed, and the counter file is not opened, so no number is
    read or used up. *)
Theorem empty_customer_name_rejected self w :
  customer_name self = "" ->
  generate_invoice self w
  = (Ok tt, {| files := files w;
               events := events w ++ [ShowError "Error" "Please fill in all fields."] |}).
Proof.
  intros Hname. apply generate_invoice_field_missing.
  unfold field_missing. rewrite (proj2 (py_not_true _) Hname).
  rewrite !orb_true_r. reflexivity.
Qed.

(** ** Generating an invoice: the table *)

Lemma draw_items_ok items : forall rates index y subtotal,
  rates_are items rates ->
  draw_items index items y subtotal
  = Ok (item_calls index items y, y_after (length items) y,
        fold_left PrimFloat.add rates subtotal).
Proof.
  induction items as [| item items IH]; intros rates index y subtotal Hrates.
  - inversion Hrates; subst. reflexivity.
  - inversion Hrates as [| ? r ? rates' Hr Hrest]; subst.
    cbn [draw_items item_calls y_after length fold_left]. rewrite Hr.
    rewrite (IH rates') by exact Hrest. reflexivity.
Qed.

Lemma draw_items_bad good : forall bad rest index y subtotal,
  Forall (fun item => is_Some (PyFloat.float (rate item))) good ->
  PyFloat.float (rate bad) = None ->
  draw_items index (good ++ bad :: rest) y subtotal
  = Raise (ValueError_float (rate bad)).
Proof.
  induction good as [| item good IH]; intros bad rest index y subtotal Hgood Hbad.
  - cbn [app draw_items]. rewrite Hbad. reflexivity.
  - inversion Hgood as [| ? ? [r Hr] Hgood']; subst.
    cbn [app draw_items]. rewrite Hr, IH by assumption. reflexivity.
Qed.

Lemma is_black_light_grey : is_black light_grey = false.
Proof. reflexivity. Qed.

Lemma is_black_black : is_black (0, 0, 0)%float = true.
Proof. reflexivity. Qed.

Lemma painted_row_shift index y n :
  map (painted_row index y) (seq 1 n)
  = map (painted_row (S index) (y - 1 * cm)%float) (seq 0 n).
Proof.
  rewrite <- (seq_shift n 0), map_map. apply map_ext. intros k.
  unfold painted_row. cbn [y_after]. rewrite Nat.add_succ_r. reflexivity.
Qed.

Lemma banded_rows_item_calls_app items rest :
  (forall fill, banded_rows fill None rest = []) ->
  forall index y fill,
    banded_rows fill None (item_calls index items y ++ rest)
    = map (painted_row index y) (seq 0 (length items)).
Proof.
  intros Hrest.
  induction items as [| item items IH]; intros index y fill; [apply Hrest |].
  cbn [item_calls length seq map]. rewrite painted_row_shift.
  unfold painted_row at 1. cbn [y_after]. rewrite Nat.add_0_r.
  rewrite <- !app_assoc.
  destruct (Nat.odd index).
  - cbn [band_calls row_calls app banded_rows text_height].
    change (is_black (0.9, 0.9, 0.9)%float) with (is_black light_grey).
    rewrite is_black_light_grey, is_black_black.
    cbn [banded_rows]. rewrite IH. reflexivity.
  - cbn [row_calls app banded_rows text_height].
    rewrite is_black_black. cbn [banded_rows]. rewrite IH. reflexivity.
Qed.



(** ** Generating an invoice: the page *)

Section Render.

Variables (self : App) (invoice_number : Z) (w : World).
Variables (logo email' customer_email' customer_address' customer_city' : string).

Hypothesis Hlogo : companyimage_file_name self = Some logo.
Hypothesis Hlogo_file : files w !! logo = Some ImageFile.
Hypothesis Hemail : email self = Some email'.
Hypothesis Hcustomer_email : customer_email self = Some customer_email'.
Hypothesis Hcustomer_address : customer_address self = Some customer_address'.
Hypothesis Hcustomer_city : customer_city self = Some customer_city'.

(** When every rate is a number and the signature and the output
    directory are there, the page is saved and the success dialog shown. *)
Lemma render_saved signature rates :
  rates_are (line_items self) rates ->
  signature_file_name self = Some signature ->
  files w !! signature = Some ImageFile ->
  files w !! "invoices" = Some Directory ->
  files w !! pdf_filename invoice_number <> Some Directory ->
  render self invoice_number w
  = (Ok tt,
     {| files := <[pdf_filename invoice_number :=
                     PdfFile A4 (invoice_calls self invoice_number logo email'
                                   customer_email' customer_address'
                                   customer_city' signature rates)]> (files w);
        events := events w
                  ++ [Opened logo "rb"; Opened signature "rb";
                      Opened (pdf_filename invoice_number) "wb";
                      ShowInfo "Success"
                        ("Invoice generated successfully and saved as "
                         +:+ pdf_filename invoice_number +:+ ".");
                      Destroyed;
                      BrowserOpened (pdf_filename invoice_number)] |}).
Proof.
  intros Hrates Hsig Hsig_file Hdir Hpdf.
  unfold render, save, load_image. cbn [A4]. run.
  step Hlogo. step Hlogo_file. step Hemail. step Hcustomer_email.
  step Hcustomer_address. step Hcustomer_city.
  rewrite (draw_items_ok _ rates) by exact Hrates. cbn [files events].
  step Hsig. step Hsig_file. step Hdir.
  unfold invoice_calls. cbn [A4 snd].
  destruct (files w !! pdf_filename invoice_number) as [[] |];
    try contradiction; cbv beta iota zeta; cbn [files events];
    rewrite <- ?app_assoc; reflexivity.
Qed.

(** When a rate is not a number the loop raises, after the logo was
    opened, and nothing else has happened. *)
Lemma render_bad_rate good bad rest :
  line_items self = good ++ bad :: rest ->
  Forall (fun item => is_Some (PyFloat.float (rate item))) good ->
  PyFloat.float (rate bad) = None ->
  render self invoice_number w
  = (Raise (ValueError_float (rate bad)),
     {| files := files w; events := events w ++ [Opened logo "rb"] |}).
Proof.
  intros Hitems Hgood Hbad.
  unfold render, load_image. cbn [A4]. run.
  step Hlogo. step Hlogo_file. step Hemail. step Hcustomer_email.
  step Hcustomer_address. step Hcustomer_city.
  rewrite Hitems, draw_items_bad by assumption. reflexivity.
Qed.

End Render.

(** Whatever else holds, a rate that is not a number keeps [render] from
    writing any file. *)
Lemma render_bad_rate_files self invoice_number w good bad rest :
  line_items self = good ++ bad :: rest ->
  Forall (fun item => is_Some (PyFloat.float (rate item))) good ->
  PyFloat.float (rate bad) = None ->
  files (render self invoice_number w).2 = files w.
Proof.
  intros Hitems Hgood Hbad.
  unfold render, load_image. cbn [A4]. run.
  destruct (companyimage_file_name self) as [logo |]; [| reflexivity].
  destruct (files w !! logo) as [[] |]; try reflexivity.
  cbn [files events].
  destruct (email self); [| reflexivity].
  destruct (customer_email self); [| reflexivity].
  destruct (customer_address self); [| reflexivity].
  destruct (customer_city self); [| reflexivity].
  rewrite Hitems, draw_items_bad by assumption. reflexivity.
Qed.

Lemma get_next_invoice_number_files w path :
  path <> "invoice_number.txt" ->
  files (get_next_invoice_number w).2 !! path = files w !! path.
Proof.
  intros Hpath. unfold get_next_invoice_number, read_text. run.
  destruct (files w !! "invoice_number.txt") as [[content | | |] |];
    try reflexivity.
  cbn [files events].
  destruct (Py.int (Py.strip content)); [| reflexivity].
  cbn [files]. apply lookup_insert_ne. congruence.
Qed.

Example init_office :
  __init__ new_year_2024 office_world = (Ok office_app, office_started).
Proof. vm_compute. reflexivity. Qed.

Lemma pdf_filename_not_counter n : pdf_filename n <> "invoice_number.txt".
Proof. unfold pdf_filename. cbn [String.append]. discriminate. Qed.

Section Generate.

Variables (self : App) (w : World) (content : string) (number : Z).
Variables (logo email' customer_email' customer_address' customer_city' : string).

Hypothesis Hfields : field_missing self = false.
Hypothesis Hcounter : files w !! "invoice_number.txt" = Some (TextFile content).
Hypothesis Hnumber : Py.int (Py.strip content) = Some number.
Hypothesis Hlogo : companyimage_file_name self = Some logo.
Hypothesis Hlogo_file : files w !! logo = Some ImageFile.
Hypothesis Hemail : email self = Some email'.
Hypothesis Hcustomer_email : customer_email self = Some customer_email'.
Hypothesis Hcustomer_address : customer_address self = Some customer_address'.
Hypothesis Hcustomer_city : customer_city self = Some customer_city'.

(** The world once the invoice number has been taken. *)
Let numbered : World :=
  {| files := <["invoice_number.txt" :=
                  TextFile (Py.overwrite (Py.str (number + 1)) content)]> (files w);
     events := events w ++ [Opened "invoice_number.txt" "r+"] |}.

Lemma generate_invoice_numbered :
  generate_invoice self w = render self (number + 1) numbered.
Proof.
  unfold generate_invoice. rewrite Hfields. unfold bind.
  rewrite (get_next_invoice_number_text content number) by assumption.
  reflexivity.
Qed.

Lemma numbered_lookup path f :
  files w !! path = Some f -> f <> TextFile content ->
  files numbered !! path = Some f.
Proof.
  intros Hpath Hf. cbn [numbered files].
  rewrite lookup_insert_ne; [exact Hpath |]. intros <-. congruence.
Qed.

Lemma generate_invoice_saved signature rates :
  rates_are (line_items self) rates ->
  signature_file_name self = Some signature ->
  files w !! signature = Some ImageFile ->
  files w !! "invoices" = Some Directory ->
  files w !! pdf_filename (number + 1) <> Some Directory ->
  generate_invoice self w
  = (Ok tt,
     {| files := <[pdf_filename (number + 1) :=
                     PdfFile A4 (invoice_calls self (number + 1) logo email'
                                   customer_email' customer_address'
                                   customer_city' signature rates)]>
                   (files numbered);
        events := events numbered
                  ++ [Opened logo "rb"; Opened signature "rb";
                      Opened (pdf_filename (number + 1)) "wb";
                      ShowInfo "Success"
                        ("Invoice generated successfully and saved as "
                         +:+ pdf_filename (number + 1) +:+ ".");
                      Destroyed;
                      BrowserOpened (pdf_filename (number + 1))] |}).
Proof.
  intros Hrates Hsig Hsig_file Hdir Hpdf.
  rewrite generate_invoice_numbered.
  apply render_saved; try assumption.
  - apply numbered_lookup; [assumption | discriminate].
  - apply numbered_lookup; [assumption | discriminate].
  - apply numbered_lookup; [assumption | discriminate].
  - cbn [numbered files]. rewrite lookup_insert. case_decide; [discriminate | exact Hpdf].
Qed.

Lemma generate_invoice_bad_rate good bad rest :
  line_items self = good ++ bad :: rest ->
  Forall (fun item => is_Some (PyFloat.float (rate item))) good ->
  PyFloat.float (rate bad) = None ->
  generate_invoice self w
  = (Raise (ValueError_float (rate bad)),
     {| files := files numbered;
        events := events numbered ++ [Opened logo "rb"] |}).
Proof.
  intros Hitems Hgood Hbad. rewrite generate_invoice_numbered.
  apply (render_bad_rate self (number + 1) numbered logo email' customer_email'
           customer_address' customer_city') with (good := good) (rest := rest);
    try assumption.
  apply numbered_lookup; [assumption | discriminate].
Qed.

End Generate.

(** ** Generating an invoice: what the page holds *)

(** C6. When every rate of the line items reads as a float, the saved page
    shows, at the place of the total, the text [$ ] followed by the [.2f]
    format of the subtotal, and the subtotal is the float sum of the rates
    added one by one in the order of the rows, starting from 0. *)
Theorem subtotal_is_float_sum self w content number logo signature
    e ce ca cc rates :
  field_missing self = false ->
  files w !! "invoice_number.txt" = Some (TextFile content) ->
  Py.int (Py.strip content) = Some number ->
  companyimage_file_name self = Some logo ->
  files w !! logo = Some ImageFile ->
  email self = Some e ->
  customer_email self = Some ce ->
  customer_address self = Some ca ->
  customer_city self = Some cc ->
  signature_file_name self = Some signature ->
  files w !! signature = Some ImageFile ->
  files w !! "invoices" = Some Directory ->
  files w !! pdf_filename (number + 1) <> Some Directory ->
  rates_are (line_items self) rates ->
  exists w' calls,
    generate_invoice self w = (Ok tt, w')
    /\ files w' !! pdf_filename (number + 1) = Some (PdfFile A4 calls)
    /\ calls = invoice_calls self (number + 1) logo e ce ca cc signature rates
    /\ In (DrawRightString
             (A4.1 - 3 * cm)%float
             (y_after (length (line_items self)) (A4.2 - 9.5 * cm) - 1 * cm)%float
             ("$ " +:+ PyFloat.format_2f (fold_left PrimFloat.add rates 0%float)))
          calls.
Proof.
  intros Hfields Hcounter Hnumber Hlogo Hlogo_file He Hce Hca Hcc Hsig Hsig_file
    Hdir Hpdf Hrates.
  eexists. eexists. split; [| split; [| split]].
  - apply (generate_invoice_saved self w content number logo e ce ca cc);
      eassumption.
  - cbn [files]. apply lookup_insert_eq.
  - reflexivity.
  - unfold invoice_calls. apply in_or_app. right. apply in_or_app. right.
    apply in_or_app. left. unfold total_calls. cbn [A4 fst snd].
    do 5 right. left. reflexivity.
Qed.

Lemma subtotal_is_float_sum_witness :
  exists w' calls,
    generate_invoice (with_line_items three_items office_app) office_started
    = (Ok tt, w')
    /\ files w' !! "invoices/Invoice_1.pdf" = Some (PdfFile A4 calls)
    /\ calls = invoice_calls (with_line_items three_items office_app) 1
                 "logo.png" "" "" "" "" "signature.png" [10; 20.5; 5.25]%float
    /\ In (DrawRightString (A4.1 - 3 * cm)%float
             (y_after 3 (A4.2 - 9.5 * cm) - 1 * cm)%float "$ 35.75") calls.
Proof.
  apply (subtotal_is_float_sum (with_line_items three_items office_app)
           office_started "0" 0 "logo.png" "signature.png" "" "" "" ""
           [10; 20.5; 5.25]%float);
    try reflexivity.
  - vm_compute. discriminate.
  - repeat constructor.
Defined.

Lemma render_bad_rate_raises self invoice_number w good bad rest :
  line_items self = good ++ bad :: rest ->
  Forall (fun item => is_Some (PyFloat.float (rate item))) good ->
  PyFloat.float (rate bad) = None ->
  exists e, (render self invoice_number w).1 = Raise e.
Proof.
  intros Hitems Hgood Hbad.
  unfold render, load_image. cbn [A4]. run.
  destruct (companyimage_file_name self) as [logo |]; [| eauto].
  destruct (files w !! logo) as [[] |]; eauto.
  cbn [files events].
  destruct (email self); [| eauto].
  destruct (customer_email self); [| eauto].
  destruct (customer_address self); [| eauto].
  destruct (customer_city self); [| eauto].
  rewrite Hitems, draw_items_bad by assumption. eauto.
Qed.

(** C8. When the rate of some row does not read as a float,
    [generate_invoice] writes no document: no path other than the counter
    file changes, whatever the world and the other fields are, and the call
    does not return normally unless the gate of line 264 turned it away.
    When the gate passes, the counter file holds a number and the logo and
    the optional attributes are there, the call ends in the [ValueError] that
    [float()] raises on the first such rate; the counter has been advanced
    by then. *)
Theorem unparsable_rate_writes_no_document self w good bad rest :
  line_items self = good ++ bad :: rest ->
  Forall (fun item => is_Some (PyFloat.float (rate item))) good ->
  PyFloat.float (rate bad) = None ->
  (forall path, path <> "invoice_number.txt" ->
     files (generate_invoice self w).2 !! path = files w !! path)
  /\ ((generate_invoice self w).1 = Ok tt -> field_missing self = true)
  /\ (forall content number logo e ce ca cc,
        field_missing self = false ->
        files w !! "invoice_number.txt" = Some (TextFile content) ->
        Py.int (Py.strip content) = Some number ->
        companyimage_file_name self = Some logo ->
        files w !! logo = Some ImageFile ->
        email self = Some e ->
        customer_email self = Some ce ->
        customer_address self = Some ca ->
        customer_city self = Some cc ->
        generate_invoice self w
        = (Raise (ValueError_float (rate bad)),
           {| files := <["invoice_number.txt" :=
                           TextFile (Py.overwrite (Py.str (number + 1)) content)]>
                         (files w);
              events := events w
                        ++ [Opened "invoice_number.txt" "r+"; Opened logo "rb"] |})).
Proof.
  intros Hitems Hgood Hbad. split; [| split].
  - intros path Hpath. unfold generate_invoice.
    destruct (field_missing self); [reflexivity |].
    unfold bind.
    pose proof (get_next_invoice_number_files w path Hpath) as Hnext.
    destruct (get_next_invoice_number w) as [[n | e] w1]; cbn [snd] in *;
      [| exact Hnext].
    rewrite (render_bad_rate_files self n w1 good bad rest) by assumption.
    exact Hnext.
  - unfold generate_invoice.
    destruct (field_missing self); [reflexivity |].
    unfold bind.
    destruct (get_next_invoice_number w) as [[n | e] w1]; [| discriminate].
    destruct (render_bad_rate_raises self n w1 good bad rest Hitems Hgood Hbad)
      as [e He].
    rewrite He. discriminate.
  - intros content number logo e ce ca cc Hfields Hcounter Hnumber Hlogo
      Hlogo_file He Hce Hca Hcc.
    rewrite (generate_invoice_bad_rate self w content number logo e ce ca cc
               Hfields Hcounter Hnumber Hlogo Hlogo_file He Hce Hca Hcc
               good bad rest Hitems Hgood Hbad).
    cbn [files events]. rewrite <- app_assoc. reflexivity.
Qed.

Lemma unparsable_rate_writes_no_document_witness :
  (forall path, path <> "invoice_number.txt" ->
     files (generate_invoice (with_line_items items_with_abc office_app)
              office_started).2 !! path
     = files office_started !! path)
  /\ generate_invoice (with_line_items items_with_abc office_app) office_started
     = (Raise (ValueError_float "abc"),
        {| files := <["invoice_number.txt" := TextFile "1"]> (files office_started);
           events := events office_started
                     ++ [Opened "invoice_number.txt" "r+"; Opened "logo.png" "rb"] |}).
Proof.
  destruct (unparsable_rate_writes_no_document
              (with_line_items items_with_abc office_app) office_started
              [{| item_date := "01/02/2024"; description := "Windows";
                  location := "Hall"; rate := "10.00" |}]
              {| item_date := "01/03/2024"; description := "Floors";
                 location := "Office"; rate := "abc" |} [])
    as (Hfiles & _ & Hraise).
  - reflexivity.
  - repeat constructor. vm_compute. eauto.
  - reflexivity.
  - split; [exact Hfiles |].
    apply (Hraise "0" 0 "logo.png" "" "" "" ""); reflexivity.
Defined.

(** The gate of line 264 looks at seven fields and at nothing else. *)
Lemma field_missing_false self :
  field_missing self = false
  <-> company_name self <> "" /\ address self <> "" /\ city_st_zip self <> ""
      /\ date self <> "" /\ customer_name self <> "" /\ phone_no self <> ""
      /\ authorized_signatory self <> "".
Proof.
  unfold field_missing. rewrite !orb_false_iff, !py_not_false. tauto.
Qed.

(** C10. The gate checks the company name, address, city line, date,
    customer name, phone number and signatory only. When these are not
    empty, then whatever the company email, the customer email, the customer
    address and the customer city hold, the empty string included, and
    provided the rest of the run can succeed (counter, images, directory and
    rates), [generate_invoice] goes through: the counter file is advanced,
    the page is saved, and these four texts are drawn on it as they are. *)
Theorem unchecked_fields_pass_the_gate self w content number logo signature
    e ce ca cc rates :
  company_name self <> "" -> address self <> "" -> city_st_zip self <> "" ->
  date self <> "" -> customer_name self <> "" -> phone_no self <> "" ->
  authorized_signatory self <> "" ->
  email self = Some e ->
  customer_email self = Some ce ->
  customer_address self = Some ca ->
  customer_city self = Some cc ->
  files w !! "invoice_number.txt" = Some (TextFile content) ->
  Py.int (Py.strip content) = Some number ->
  companyimage_file_name self = Some logo ->
  files w !! logo = Some ImageFile ->
  signature_file_name self = Some signature ->
  files w !! signature = Some ImageFile ->
  files w !! "invoices" = Some Directory ->
  files w !! pdf_filename (number + 1) <> Some Directory ->
  rates_are (line_items self) rates ->
  exists w' calls,
    generate_invoice self w = (Ok tt, w')
    /\ files w' !! "invoice_number.txt"
       = Some (TextFile (Py.overwrite (Py.str (number + 1)) content))
    /\ files w' !! pdf_filename (number + 1) = Some (PdfFile A4 calls)
    /\ In (DrawRightString (A4.1 - 2 * cm)%float (A4.2 - 2.5 * cm)%float e) calls
    /\ In (DrawString (2 * cm)%float (A4.2 - 6 * cm)%float ce) calls
    /\ In (DrawString (2 * cm)%float (A4.2 - 6.5 * cm)%float ca) calls
    /\ In (DrawString (2 * cm)%float (A4.2 - 7 * cm)%float cc) calls.
Proof.
  intros H1 H2 H3 H4 H5 H6 H7 He Hce Hca Hcc Hcounter Hnumber Hlogo Hlogo_file
    Hsig Hsig_file Hdir Hpdf Hrates.
  assert (Hfields : field_missing self = false)
    by (apply field_missing_false; tauto).
  eexists. eexists. split; [| split; [| split]].
  - apply (generate_invoice_saved self w content number logo e ce ca cc);
      eassumption.
  - cbn [files]. rewrite lookup_insert_ne by apply pdf_filename_not_counter.
    apply lookup_insert_eq.
  - cbn [files]. apply lookup_insert_eq.
  - unfold invoice_calls, head_calls. cbn [A4 fst snd].
    repeat split; apply in_or_app; left.
    + do 4 right. left. reflexivity.
    + do 21 right. left. reflexivity.
    + do 22 right. left. reflexivity.
    + do 23 right. left. reflexivity.
Qed.

Lemma unchecked_fields_pass_the_gate_witness :
  exists w' calls,
    generate_invoice (with_line_items three_items office_app) office_started
    = (Ok tt, w')
    /\ files w' !! "invoice_number.txt" = Some (TextFile "1")
    /\ files w' !! "invoices/Invoice_1.pdf" = Some (PdfFile A4 calls)
    /\ In (DrawRightString (A4.1 - 2 * cm)%float (A4.2 - 2.5 * cm)%float "") calls
    /\ In (DrawString (2 * cm)%float (A4.2 - 6 * cm)%float "") calls
    /\ In (DrawString (2 * cm)%float (A4.2 - 6.5 * cm)%float "") calls
    /\ In (DrawString (2 * cm)%float (A4.2 - 7 * cm)%float "") calls.
Proof.
  apply (unchecked_fields_pass_the_gate
           (with_line_items three_items office_app) office_started "0" 0
           "logo.png" "signature.png" "" "" "" "" [10; 20.5; 5.25]%float);
    try reflexivity; try (vm_compute; discriminate).
  repeat constructor.
Defined.

Lemma empty_customer_name_rejected_witness :
  generate_invoice app_without_customer office_started
  = (Ok tt,
     {| files := files office_started;
        events := events office_started
                  ++ [ShowError "Error" "Please fill in all fields."] |}).
Proof.
  apply (empty_customer_name_rejected app_without_customer office_started).
  reflexivity.
Defined.


(** ** The due date *)

(** [__init__] sets the date to today and the due date to 15 days later. *)
Lemma init_due_date today w self w' :
  __init__ today w = (Ok self, w') ->
  exists due,
    Datetime.add_days today 15 = Some due
    /\ date self = Datetime.strftime today
    /\ due_date self = Datetime.strftime due.
Proof.
  unfold __init__, add_days_or_raise. run. intros H.
  destruct (Config.load_config "config.txt" ∅ w) as [[cfg | e] w1]; [| discriminate].
  destruct (Datetime.add_days today 15) as [due |] eqn:Hdue; [| discriminate].
  exists due. split; [reflexivity |].
  destruct (cfg !! "company_name"); [| discriminate].
  destruct (cfg !! "address"); [| discriminate].
  destruct (cfg !! "city_st_zip"); [| discriminate].
  destruct (cfg !! "phone_no"); [| discriminate].
  destruct (cfg !! "customer_name"); [| discriminate].
  destruct (verify_invoice_number_file w1) as [[[] | e] w2]; [| discriminate].
  injection H as <- _. split; reflexivity.
Qed.

(** The Set Date button sets both, the due date 15 days after the date. *)
Lemma set_date_due_date date_str self self' :
  set_date date_str self = (Ok tt, self') ->
  exists d due,
    Datetime.strptime date_str = Some d
    /\ Datetime.add_days d 15 = Some due
    /\ date self' = Datetime.strftime d
    /\ due_date self' = Datetime.strftime due.
Proof.
  unfold set_date. intros H.
  destruct (Datetime.strptime date_str) as [d |] eqn:Hd; [| discriminate].
  destruct (Datetime.add_days d 15) as [due |] eqn:Hdue; [| discriminate].
  injection H as <-. exists d, due. repeat split; [exact Hdue].
Qed.

(** Typing into the Date entry changes the date and nothing else. *)
Lemma type_date_due_date text self :
  date (type_date text self) = text
  /\ due_date (type_date text self) = due_date self.
Proof. split; reflexivity. Qed.

(** C4, as the code behaves. The page shows [self.date] as the issue date
    and [self.due_date] as the due date. After the user has typed a date
    into the Date entry, the issue date on the page is the typed text and
    the due date is the one computed before, at the start or at the last
    use of the calendar, whatever the typed date is. *)
Theorem typed_date_keeps_due_date text self w content number logo signature
    e ce ca cc rates :
  field_missing (type_date text self) = false ->
  files w !! "invoice_number.txt" = Some (TextFile content) ->
  Py.int (Py.strip content) = Some number ->
  companyimage_file_name self = Some logo ->
  files w !! logo = Some ImageFile ->
  email self = Some e ->
  customer_email self = Some ce ->
  customer_address self = Some ca ->
  customer_city self = Some cc ->
  signature_file_name self = Some signature ->
  files w !! signature = Some ImageFile ->
  files w !! "invoices" = Some Directory ->
  files w !! pdf_filename (number + 1) <> Some Directory ->
  rates_are (line_items self) rates ->
  exists w' calls,
    generate_invoice (type_date text self) w = (Ok tt, w')
    /\ files w' !! pdf_filename (number + 1) = Some (PdfFile A4 calls)
    /\ In (DrawRightString (A4.1 - 2 * cm)%float (A4.2 - 5.5 * cm)%float text)
          calls
    /\ In (DrawRightString
             (A4.1 - 2.5 * cm)%float
             (y_after (length (line_items self)) (A4.2 - 9.5 * cm) - 2 * cm)%float
             (due_date self))
          calls.
Proof.
  intros Hfields Hcounter Hnumber Hlogo Hlogo_file He Hce Hca Hcc Hsig Hsig_file
    Hdir Hpdf Hrates.
  eexists. eexists. split; [| split; [| split]].
  - apply (generate_invoice_saved (type_date text self) w content number logo
             e ce ca cc); eassumption.
  - cbn [files]. apply lookup_insert_eq.
  - unfold invoice_calls, head_calls. cbn [A4 fst snd].
    apply in_or_app. left. do 16 right. left. reflexivity.
  - unfold invoice_calls. apply in_or_app. right. apply in_or_app. right.
    apply in_or_app. left. unfold total_calls. cbn [A4 fst snd].
    do 13 right. left. reflexivity.
Qed.

(** The application is started on 2024-01-01 and the user types
    20 December 2024 into the Date entry: the page shows that date with the
    due date 16 January 2024. *)
Lemma typed_date_keeps_due_date_witness :
  __init__ new_year_2024 office_world = (Ok office_app, office_started)
  /\ exists w' calls,
       generate_invoice
         (type_date "20 December 2024" (with_line_items three_items office_app))
         office_started
       = (Ok tt, w')
       /\ files w' !! "invoices/Invoice_1.pdf" = Some (PdfFile A4 calls)
       /\ In (DrawRightString (A4.1 - 2 * cm)%float (A4.2 - 5.5 * cm)%float
                "20 December 2024") calls
       /\ In (DrawRightString (A4.1 - 2.5 * cm)%float
                (y_after 3 (A4.2 - 9.5 * cm) - 2 * cm)%float "16 January 2024")
             calls.
Proof.
  split; [vm_compute; reflexivity |].
  apply (typed_date_keeps_due_date "20 December 2024"
           (with_line_items three_items office_app) office_started "0" 0
           "logo.png" "signature.png" "" "" "" "" [10; 20.5; 5.25]%float);
    try reflexivity; try (vm_compute; discriminate).
  repeat constructor.
Defined.

(** Fifteen days after 20 December 2024 is 4 January 2025, which is what
    the calendar button would have set. *)
Example set_date_december :
  set_date "12/20/24" office_app
  = (Ok tt, with_dates "20 December 2024" "04 January 2025" office_app).
Proof. reflexivity. Qed.

(** ** The calendar: adding days is stepping day by day *)

Section CalendarFacts.
Import Datetime Calendar.

Lemma holds_from_spec f count : forall lo,
  holds_from count lo f = true ->
  forall k, lo <= k < lo + Z.of_nat count -> f k = true.
Proof.
  induction count as [| count IH]; intros lo H k Hk; [lia |].
  cbn [holds_from] in H. destruct (f lo) eqn:Hlo; [| discriminate].
  destruct (Z.eq_dec k lo) as [-> | Hne]; [exact Hlo |].
  apply (IH (lo + 1) H). lia.
Qed.

Lemma month_day_table :
  forallb (fun leap =>
    holds_from 12 1 (fun m => holds_from 31 1 (fun d => month_day_ok leap m d)))
    [true; false] = true.
Proof. vm_compute. reflexivity. Qed.

Lemma month_day_ok_all leap m d :
  1 <= m <= 12 -> 1 <= d <= 31 -> month_day_ok leap m d = true.
Proof.
  intros Hm Hd. pose proof month_day_table as H.
  cbn [forallb] in H. rewrite !andb_true_iff in H. destruct H as (Ht & Hf & _).
  destruct leap.
  - apply (holds_from_spec _ 31 1 (holds_from_spec _ 12 1 Ht m ltac:(lia)) d). lia.
  - apply (holds_from_spec _ 31 1 (holds_from_spec _ 12 1 Hf m ltac:(lia)) d). lia.
Qed.

Lemma month_length_le_31 leap m : month_length leap m <= 31.
Proof.
  unfold month_length. destruct ((m =? 2) && leap); [lia |].
  destruct (Z.to_nat m) as [| [| [| [| [| [| [| [| [| [| [| [| [| k]]]]]]]]]]]]];
    cbn; try lia. destruct k; cbn; lia.
Qed.

Lemma days_in_month_length y m : days_in_month y m = month_length (is_leap y) m.
Proof. reflexivity. Qed.

Lemma toordinal_day_of_year d :
  toordinal d
  = days_before_year (year d) + day_of_year (is_leap (year d)) (month d) (day d) + 1.
Proof. unfold toordinal, days_before_month, day_of_year. lia. Qed.

Lemma divmod_unique n d q r :
  0 <= r < d -> n = d * q + r -> n / d = q /\ n mod d = r.
Proof.
  intros Hr Hn. split; symmetry.
  - apply (Z.div_unique_pos n d q r); assumption.
  - apply (Z.mod_unique_pos n d q r); assumption.
Qed.

Ltac divs := Z.to_euclidean_division_equations; lia.

(** The year before [y] in cycles of 400, 100, 4 and 1 years. *)
Lemma year_digits Y : 0 <= Y ->
  exists a b c e,
    Y = 400 * a + 100 * b + 4 * c + e
    /\ 0 <= a /\ 0 <= b <= 3 /\ 0 <= c <= 24 /\ 0 <= e <= 3
    /\ Y * 365 + Y / 4 - Y / 100 + Y / 400
       = 146097 * a + 36524 * b + 1461 * c + 365 * e
    /\ is_leap (Y + 1) = (e =? 3) && (negb (c =? 24) || (b =? 3)).
Proof.
  intros HY.
  exists (Y / 400), ((Y mod 400) / 100), ((Y mod 100) / 4), (Y mod 4).
  repeat split; try divs.
  unfold is_leap.
  destruct (Z.eqb_spec ((Y + 1) mod 4) 0), (Z.eqb_spec (Y mod 4) 3),
    (Z.eqb_spec ((Y + 1) mod 100) 0), (Z.eqb_spec ((Y mod 100) / 4) 24),
    (Z.eqb_spec ((Y + 1) mod 400) 0), (Z.eqb_spec ((Y mod 400) / 100) 3);
    cbn; try reflexivity; exfalso; divs.
Qed.

Lemma fromordinal_digits a b c e r :
  0 <= b -> 0 <= c -> 0 <= e -> 0 <= r < 365 ->
  365 * e + r < 1461 ->
  1461 * c + 365 * e + r < 36524 ->
  36524 * b + 1461 * c + 365 * e + r < 146097 ->
  fromordinal (146097 * a + 36524 * b + 1461 * c + 365 * e + r + 1)
  = if (e =? 4) || (b =? 4)
    then {| year := a * 400 + 1 + b * 100 + c * 4 + e - 1; month := 12; day := 31 |}
    else
      let '(m, d) := month_day ((e =? 3) && (negb (c =? 24) || (b =? 3))) r in
      {| year := a * 400 + 1 + b * 100 + c * 4 + e; month := m; day := d |}.
Proof.
  intros Hb Hc He Hr H4 H100 H400. unfold fromordinal, DI400Y, DI100Y, DI4Y.
  replace (146097 * a + 36524 * b + 1461 * c + 365 * e + r + 1 - 1)
    with (146097 * a + 36524 * b + 1461 * c + 365 * e + r) by lia.
  destruct (divmod_unique (146097 * a + 36524 * b + 1461 * c + 365 * e + r)
              146097 a (36524 * b + 1461 * c + 365 * e + r)) as [-> ->];
    [lia | lia |].
  destruct (divmod_unique (36524 * b + 1461 * c + 365 * e + r) 36524 b
              (1461 * c + 365 * e + r)) as [-> ->]; [lia | lia |].
  destruct (divmod_unique (1461 * c + 365 * e + r) 1461 c (365 * e + r))
    as [-> ->]; [lia | lia |].
  destruct (divmod_unique (365 * e + r) 365 e r) as [-> ->]; [lia | lia |].
  reflexivity.
Qed.

Lemma valid_spec d :
  valid d = true
  <-> 1 <= year d <= 9999 /\ 1 <= month d <= 12
      /\ 1 <= day d <= days_in_month (year d) (month d).
Proof. unfold valid. rewrite !andb_true_iff, !Z.leb_le. tauto. Qed.

(** A date that the constructor accepts is the date of its day number. *)
Lemma fromordinal_toordinal d : valid d = true -> fromordinal (toordinal d) = d.
Proof.
  intros Hvalid. apply valid_spec in Hvalid.
  destruct d as [y m dd]. cbn [year month day] in Hvalid.
  destruct Hvalid as (Hy & Hm & Hd).
  rewrite toordinal_day_of_year. cbn [year month day].
  rewrite days_in_month_length in Hd.
  pose proof (month_length_le_31 (is_leap y) m) as H31.
  pose proof (month_day_ok_all (is_leap y) m dd Hm ltac:(lia)) as Hok.
  unfold month_day_ok in Hok.
  destruct (Z.leb_spec dd (month_length (is_leap y) m)); [| lia].
  cbn [implb] in Hok. rewrite !andb_true_iff, !Z.leb_le in Hok.
  destruct Hok as [[Hlo Hhi] Hok].
  destruct (year_digits (y - 1) ltac:(lia)) as (a & b & c & e & HY & Ha & Hb & Hc & He & Hdays & Hleap).
  replace (y - 1 + 1) with y in Hleap by lia.
  unfold days_before_year. cbv zeta. rewrite Hdays.
  set (n := day_of_year (is_leap y) m dd) in *.
  destruct (Z.eqb_spec n 365) as [Hlast | Hnot].
  - rewrite !andb_true_iff, !Z.eqb_eq in Hok. destruct Hok as [[Hl ->] ->].
    rewrite Hl in Hleap. symmetry in Hleap.
    rewrite andb_true_iff, orb_true_iff, negb_true_iff, !Z.eqb_eq, Z.eqb_neq in Hleap.
    destruct Hleap as [-> Hcentury]. rewrite Hlast.
    destruct (Z.eq_dec c 24) as [-> | Hc24].
    + assert (b = 3) as -> by tauto.
      replace (146097 * a + 36524 * 3 + 1461 * 24 + 365 * 3 + 365 + 1)
        with (146097 * a + 36524 * 4 + 1461 * 0 + 365 * 0 + 0 + 1) by lia.
      rewrite fromordinal_digits by lia. cbn. f_equal. lia.
    + replace (146097 * a + 36524 * b + 1461 * c + 365 * 3 + 365 + 1)
        with (146097 * a + 36524 * b + 1461 * c + 365 * 4 + 0 + 1) by lia.
      rewrite fromordinal_digits by lia. cbn. f_equal. lia.
  - rewrite fromordinal_digits by lia.
    destruct (Z.eqb_spec e 4); [lia |]. destruct (Z.eqb_spec b 4); [lia |].
    cbn [orb]. rewrite <- Hleap.
    destruct (month_day (is_leap y) n) as [m' d'].
    rewrite andb_true_iff, !Z.eqb_eq in Hok. destruct Hok as [-> ->].
    f_equal. lia.
Qed.

Lemma days_before_year_succ y :
  days_before_year (y + 1) = days_before_year y + 365 + (if is_leap y then 1 else 0).
Proof.
  unfold days_before_year, is_leap. cbv zeta.
  replace (y + 1 - 1) with y by lia.
  destruct (Z.eqb_spec (y mod 4) 0), (Z.eqb_spec (y mod 100) 0),
    (Z.eqb_spec (y mod 400) 0); cbn; divs.
Qed.

Lemma days_before_year_nonneg y : 1 <= y -> 0 <= days_before_year y.
Proof. intros Hy. unfold days_before_year. cbv zeta. divs. Qed.

Local Arguments days_before_year : simpl never.

Lemma month_cases m :
  1 <= m <= 12 ->
  m = 1 \/ m = 2 \/ m = 3 \/ m = 4 \/ m = 5 \/ m = 6 \/ m = 7 \/ m = 8
  \/ m = 9 \/ m = 10 \/ m = 11 \/ m = 12.
Proof. lia. Qed.

Lemma day_of_year_next_month leap m :
  1 <= m <= 11 ->
  day_of_year leap (m + 1) 1 = day_of_year leap m (month_length leap m) + 1.
Proof.
  intros Hm.
  assert (H12 : 1 <= m <= 12) by lia.
  destruct (month_cases m H12) as
    [-> | [-> | [-> | [-> | [-> | [-> | [-> | [-> | [-> | [-> | [-> | ->]]]]]]]]]]];
    try lia; destruct leap; reflexivity.
Qed.

Lemma month_length_bounds leap m : 1 <= m <= 12 -> 28 <= month_length leap m <= 31.
Proof.
  intros Hm.
  destruct (month_cases m Hm) as
    [-> | [-> | [-> | [-> | [-> | [-> | [-> | [-> | [-> | [-> | [-> | ->]]]]]]]]]]];
    destruct leap; vm_compute; split; discriminate.
Qed.

Lemma day_of_year_first leap m d :
  1 <= m <= 12 -> 1 <= d -> 0 <= day_of_year leap m d.
Proof.
  intros Hm Hd.
  assert (0 <= day_of_year leap m 1).
  { destruct (month_cases m Hm) as
      [-> | [-> | [-> | [-> | [-> | [-> | [-> | [-> | [-> | [-> | [-> | ->]]]]]]]]]]];
      destruct leap; vm_compute; discriminate. }
  unfold day_of_year in *. lia.
Qed.

Lemma day_of_year_december leap :
  day_of_year leap 12 (month_length leap 12) = 364 + (if leap then 1 else 0)
  /\ day_of_year leap 1 1 = 0.
Proof. destruct leap; split; reflexivity. Qed.

(** The day after: still a date, and its day number is one more. *)
Lemma next_day_toordinal d :
  valid d = true -> toordinal d < MAXORDINAL ->
  valid (next_day d) = true /\ toordinal (next_day d) = toordinal d + 1.
Proof.
  intros Hvalid Hmax. apply valid_spec in Hvalid. rewrite valid_spec.
  rewrite !toordinal_day_of_year in *. rewrite ?days_in_month_length in *.
  destruct d as [y m dd]. unfold next_day. cbn [year month day] in *.
  rewrite ?days_in_month_length.
  destruct Hvalid as (Hy & Hm & Hd).
  pose proof (month_length_bounds (is_leap y) m Hm) as Hlen.
  destruct (Z.ltb_spec dd (month_length (is_leap y) m)) as [Hin | Hlast];
    cbn [year month day].
  - rewrite ?days_in_month_length. unfold day_of_year. lia.
  - assert (dd = month_length (is_leap y) m) as -> by lia. clear Hd Hlast.
    destruct (Z.ltb_spec m 12) as [Hm12 | Hm12]; cbn [year month day].
    + rewrite ?days_in_month_length.
      pose proof (month_length_bounds (is_leap y) (m + 1) ltac:(lia)).
      rewrite day_of_year_next_month by lia. lia.
    + assert (m = 12) as -> by lia.
      rewrite ?days_in_month_length.
      pose proof (month_length_bounds (is_leap (y + 1)) 1 ltac:(lia)).
      destruct (day_of_year_december (is_leap y)) as [Hdec _].
      destruct (day_of_year_december (is_leap (y + 1))) as [_ Hjan].
      rewrite Hdec in *. rewrite Hjan, days_before_year_succ.
      assert (y <> 9999).
      { intros ->. vm_compute in Hmax. discriminate. }
      lia.
Qed.

Lemma toordinal_pos d : valid d = true -> 1 <= toordinal d.
Proof.
  intros Hvalid. apply valid_spec in Hvalid.
  rewrite toordinal_day_of_year.
  destruct Hvalid as (Hy & Hm & Hd).
  pose proof (days_before_year_nonneg (year d) ltac:(lia)).
  pose proof (day_of_year_first (is_leap (year d)) (month d) (day d) Hm ltac:(lia)).
  lia.
Qed.

(** Adding [k] days to a date is taking the next day [k] times. *)
Lemma add_days_steps d : valid d = true -> forall k : nat,
  toordinal d + Z.of_nat k <= MAXORDINAL ->
  add_days d (Z.of_nat k) = Some (Nat.iter k next_day d)
  /\ valid (Nat.iter k next_day d) = true
  /\ toordinal (Nat.iter k next_day d) = toordinal d + Z.of_nat k.
Proof.
  intros Hvalid. pose proof (toordinal_pos d Hvalid) as Hpos.
  assert (Hadd : forall k d', 0 <= k -> toordinal d + k <= MAXORDINAL ->
            valid d' = true -> toordinal d' = toordinal d + k ->
            add_days d k = Some d').
  { intros k d' Hk Hmax Hv Ho. unfold add_days.
    destruct (Z.ltb_spec 0 (toordinal d + k)); [| lia].
    destruct (Z.leb_spec (toordinal d + k) MAXORDINAL); [| lia].
    cbn [andb]. rewrite <- Ho, fromordinal_toordinal by exact Hv. reflexivity. }
  induction k as [| k IH]; intros Hmax.
  - cbn [Nat.iter nat_rect]. change (Z.of_nat 0) with 0.
    split; [| split; [exact Hvalid | lia]].
    apply Hadd; [lia | lia | exact Hvalid | lia].
  - destruct (IH ltac:(lia)) as (_ & Hv & Ho).
    destruct (next_day_toordinal _ Hv ltac:(lia)) as [Hv' Ho'].
    cbn [Nat.iter nat_rect]. fold (Nat.iter k next_day d).
    split; [| split; [exact Hv' | lia]].
    apply Hadd; [lia | lia | exact Hv' | lia].
Qed.

(** The due date of a date is its fifteenth next day. *)
Lemma add_days_15 d due :
  valid d = true -> add_days d 15 = Some due -> due = Nat.iter 15 next_day d.
Proof.
  intros Hvalid Hdue.
  assert (Hmax : toordinal d + 15 <= MAXORDINAL).
  { unfold add_days in Hdue.
    destruct (Z.leb_spec (toordinal d + 15) MAXORDINAL); [assumption |].
    rewrite andb_false_r in Hdue. discriminate. }
  destruct (add_days_steps d Hvalid 15 Hmax) as (Hadd & _).
  change (Z.of_nat 15) with 15 in Hadd. congruence.
Qed.

End CalendarFacts.

(** X7. After a start that succeeds, the date shown is the day of the
    start and the due date is the fifteenth day after it on the calendar,
    month ends, leap days and year ends included. *)
Lemma init_due_date_fifteen today w self w' :
  Datetime.valid today = true ->
  __init__ today w = (Ok self, w') ->
  date self = Datetime.strftime today
  /\ due_date self = Datetime.strftime (Nat.iter 15 Datetime.next_day today).
Proof.
  intros Hvalid Hinit.
  destruct (init_due_date today w self w' Hinit) as (due & Hdue & Hdate & Hdd).
  rewrite <- (add_days_15 today due Hvalid Hdue). split; assumption.
Qed.

Lemma init_due_date_fifteen_witness :
  (Datetime.valid new_year_2024 = true
   /\ __init__ new_year_2024 office_world = (Ok office_app, office_started))
  /\ date office_app = Datetime.strftime new_year_2024
  /\ due_date office_app
     = Datetime.strftime (Nat.iter 15 Datetime.next_day new_year_2024).
Proof.
  split; [split; vm_compute; reflexivity |].
  apply (init_due_date_fifteen new_year_2024 office_world office_app office_started);
    vm_compute; reflexivity.
Defined.

(** X8. When the Set Date button succeeds, the text of the calendar was a
    date in the form month/day/two-digit year, the date shown is that date
    and the due date is the fifteenth day after it on the calendar. *)
Lemma set_date_due_date_fifteen date_str self self' :
  set_date date_str self = (Ok tt, self') ->
  exists d,
    Datetime.strptime date_str = Some d
    /\ date self' = Datetime.strftime d
    /\ due_date self' = Datetime.strftime (Nat.iter 15 Datetime.next_day d).
Proof.
  intros Hset.
  destruct (set_date_due_date date_str self self' Hset)
    as (d & due & Hd & Hdue & Hdate & Hdd).
  exists d. split; [exact Hd |]. split; [exact Hdate |].
  assert (Hvalid : Datetime.valid d = true).
  { unfold Datetime.strptime in Hd.
    destruct (Datetime.match_mdy _) as [[[m dd] y] |]; [| discriminate].
    destruct (Datetime.valid _) eqn:Hv; [| discriminate].
    injection Hd as <-. exact Hv. }
  rewrite <- (add_days_15 d due Hvalid Hdue). exact Hdd.
Qed.

Lemma set_date_due_date_fifteen_witness :
  set_date "12/20/23" office_app
  = (Ok tt, with_dates "20 December 2023" "04 January 2024" office_app)
  /\ exists d,
       Datetime.strptime "12/20/23" = Some d
       /\ date (with_dates "20 December 2023" "04 January 2024" office_app)
          = Datetime.strftime d
       /\ due_date (with_dates "20 December 2023" "04 January 2024" office_app)
          = Datetime.strftime (Nat.iter 15 Datetime.next_day d).
Proof.
  split; [vm_compute; reflexivity |].
  apply (set_date_due_date_fifteen "12/20/23" office_app).
  vm_compute. reflexivity.
Defined.

Example fifteen_days_later :
  Nat.iter 15 Datetime.next_day
    {| Datetime.year := 2024; Datetime.month := 12; Datetime.day := 20 |}
  = {| Datetime.year := 2025; Datetime.month := 1; Datetime.day := 4 |}
  /\ Nat.iter 15 Datetime.next_day new_year_2024
     = {| Datetime.year := 2024; Datetime.month := 1; Datetime.day := 16 |}.
Proof. split; reflexivity. Qed.

(** ** From the first start on *)

(** X23. Where there is no counter file yet, [verify_invoice_number_file]
    followed by [N] calls of [get_next_invoice_number] returns the numbers
    1, 2, ..., [N] in this order, and the file then holds [N]. *)
Lemma first_invoice_numbers N w :
  files w !! "invoice_number.txt" = None ->
  exists w',
    (verify_invoice_number_file ;;; allocate_many N) w
    = (Ok (map Z.of_nat (seq 1 N)), w')
    /\ counter_is (Z.of_nat N) w'.
Proof.
  intros Habsent. unfold bind.
  rewrite verify_invoice_number_file_absent by exact Habsent.
  set (w0 := {| files := _; events := _ |}).
  assert (H0 : counter_is 0 w0) by apply lookup_insert_eq.
  destruct (sequential_allocation_from 0 N w0 ltac:(lia) H0) as (w' & Hrun & Hend).
  exists w'. split; [| exact Hend].
  rewrite Hrun. reflexivity.
Qed.

Lemma first_invoice_numbers_witness :
  exists w',
    (verify_invoice_number_file ;;; allocate_many 4) office_world
    = (Ok (map Z.of_nat (seq 1 4)), w')
    /\ counter_is (Z.of_nat 4) w'.
Proof. apply (first_invoice_numbers 4 office_world). reflexivity. Defined.

(** ** The rows of the saved page *)

(** On the whole page that [generate_invoice] saves, the rows that can be
    read back are the line items, banded at the odd places. *)
Lemma banded_rows_invoice_calls self n logo e ce ca cc signature rates fill :
  banded_rows fill None (invoice_calls self n logo e ce ca cc signature rates)
  = map (painted_row 0 (A4.2 - 9.5 * cm)%float) (seq 0 (length (line_items self))).
Proof.
  unfold invoice_calls, head_calls. cbn [A4 fst snd app banded_rows].
  apply banded_rows_item_calls_app. intros fill'.
  unfold total_calls, foot_calls. cbn [A4 fst snd app banded_rows]. reflexivity.
Qed.

(** * Further properties of the code *)

(** ** More on text: stripping and splitting *)

Section Stripping.
Import Py.

Lemma list_ascii_of_string_app a b :
  list_ascii_of_string (a +:+ b) = list_ascii_of_string a ++ list_ascii_of_string b.
Proof. induction a as [| c a IH]; simpl; [reflexivity | f_equal; exact IH]. Qed.

Lemma lstrip_app_nonspace a c b :
  is_space c = false -> lstrip (a ++ c :: b) = lstrip a ++ c :: b.
Proof.
  intros Hc. induction a as [| x a IH]; cbn [app lstrip].
  - rewrite Hc. reflexivity.
  - destruct (is_space x); [exact IH | reflexivity].
Qed.

Lemma lstrip_spaces a : Forall (fun c => is_space c = true) a -> lstrip a = [].
Proof.
  induction 1 as [| x a Hx _ IH]; cbn [lstrip]; [reflexivity |].
  rewrite Hx. exact IH.
Qed.

Lemma rstrip_app_nonspace a c b :
  is_space c = false -> rstrip (a ++ c :: b) = a ++ c :: rstrip b.
Proof.
  intros Hc. unfold rstrip.
  rewrite List.rev_app_distr. cbn [rev]. rewrite <- app_assoc. cbn [app].
  rewrite (lstrip_app_nonspace _ _ _ Hc), List.rev_app_distr. cbn [rev].
  rewrite List.rev_involutive, <- app_assoc. reflexivity.
Qed.

Lemma rstrip_spaces a : Forall (fun c => is_space c = true) a -> rstrip a = [].
Proof.
  intros H. unfold rstrip. rewrite lstrip_spaces; [reflexivity |].
  apply Forall_rev. exact H.
Qed.

(** A text is blank, or it has a first character that is not. *)
Lemma first_nonspace v :
  Forall (fun c => is_space c = true) v
  \/ exists a c b, v = a ++ c :: b
       /\ Forall (fun c => is_space c = true) a /\ is_space c = false.
Proof.
  induction v as [| x v IH]; [left; constructor |].
  destruct (is_space x) eqn:Hx.
  - destruct IH as [Hall | (a & c & b & -> & Ha & Hc)].
    + left. constructor; assumption.
    + right. exists (x :: a), c, b. repeat split; [constructor |]; assumption.
  - right. exists [], x, v. repeat split; [constructor | exact Hx].
Qed.

(** Stripping what was stripped on the right is stripping. *)
Lemma strip_chars_rstrip v : strip_chars (rstrip v) = strip_chars v.
Proof.
  unfold strip_chars.
  destruct (first_nonspace v) as [Hall | (a & c & b & -> & Ha & Hc)].
  - rewrite (rstrip_spaces v Hall), (lstrip_spaces v Hall). reflexivity.
  - rewrite (rstrip_app_nonspace a c b Hc).
    rewrite !(lstrip_app_nonspace a c _ Hc), (lstrip_spaces a Ha). cbn [app].
    pose proof (rstrip_app_nonspace [] c (rstrip b) Hc) as H1.
    pose proof (rstrip_app_nonspace [] c b Hc) as H2.
    cbn [app] in H1, H2. rewrite H1, H2. f_equal.
    unfold rstrip. rewrite List.rev_involutive.
    destruct (first_nonspace (rev b)) as [Hb | (a' & c' & b' & Hb & Ha' & Hc')].
    + rewrite (lstrip_spaces _ Hb). reflexivity.
    + rewrite Hb, (lstrip_app_nonspace a' c' b' Hc'), (lstrip_spaces a' Ha').
      cbn [app lstrip]. rewrite Hc'. reflexivity.
Qed.

Lemma split_eq_app key : forall before rest,
  Forall (fun c => Ascii.eqb c "=" = false) key ->
  Config.split_eq before (key ++ "="%char :: rest) = Some (rev before ++ key, rest).
Proof.
  induction key as [| c key IH]; intros before rest Hkey; cbn [app Config.split_eq].
  - rewrite app_nil_r. reflexivity.
  - inversion Hkey as [| ? ? Hc Hkey']; subst. rewrite Hc.
    rewrite IH by exact Hkey'. cbn [rev]. rewrite <- app_assoc. reflexivity.
Qed.

End Stripping.

(** ** More on the configuration file *)

Lemma config_keys_cases key :
  In key config_keys ->
  key = "companyimage_file_name" \/ key = "signature_file_name"
  \/ key = "company_name" \/ key = "address" \/ key = "city_st_zip"
  \/ key = "phone_no" \/ key = "email" \/ key = "customer_name"
  \/ key = "customer_email" \/ key = "customer_address" \/ key = "customer_city".
Proof. cbn. intuition auto. Qed.

Lemma assign_known key value self :
  In key config_keys -> Config.assign key value self = <[key := value]> self.
Proof.
  intros Hkey.
  destruct (config_keys_cases key Hkey) as
    [-> | [-> | [-> | [-> | [-> | [-> | [-> | [-> | [-> | [-> | ->]]]]]]]]]];
    reflexivity.
Qed.

Lemma assign_unknown key value self :
  ~ In key config_keys -> Config.assign key value self = self.
Proof.
  intros Hkey. unfold Config.assign.
  repeat match goal with
  | |- context [String.eqb key ?k] =>
      destruct (String.eqb_spec key k) as [-> | _];
        [exfalso; apply Hkey; cbn; tauto |]
  end.
  reflexivity.
Qed.

Lemma known_key_shape key :
  In key config_keys ->
  Forall (fun c => Ascii.eqb c "=" = false) (list_ascii_of_string key)
  /\ exists c rest, list_ascii_of_string key = c :: rest /\ Py.is_space c = false.
Proof.
  intros Hkey.
  destruct (config_keys_cases key Hkey) as
    [-> | [-> | [-> | [-> | [-> | [-> | [-> | [-> | [-> | [-> | ->]]]]]]]]]];
    (split; [repeat constructor | eexists; eexists; split; reflexivity]).
Qed.

Lemma load_line_known key value self :
  In key config_keys ->
  Config.load_line (config_line key value) self
  = Ok (<[key := Py.strip value]> self).
Proof.
  intros Hkey. unfold Config.load_line, config_line.
  rewrite !list_ascii_of_string_app.
  change (list_ascii_of_string "=") with ["="%char]. cbn [app].
  destruct (known_key_shape key Hkey) as (Hnoeq & c & rest & Hshape & Hc).
  set (v := list_ascii_of_string value).
  assert (Hstrip : Py.strip_chars (list_ascii_of_string key ++ "="%char :: v)
                   = list_ascii_of_string key ++ "="%char :: Py.rstrip v).
  { unfold Py.strip_chars. rewrite Hshape. cbn [app Py.lstrip]. rewrite Hc.
    change (c :: rest ++ "="%char :: v) with ((c :: rest) ++ "="%char :: v).
    apply rstrip_app_nonspace. reflexivity. }
  rewrite Hstrip, split_eq_app by exact Hnoeq. cbn [rev app].
  rewrite string_of_list_ascii_of_string, strip_chars_rstrip.
  rewrite assign_known by exact Hkey. reflexivity.
Qed.

(** X1. A line [key=value] with one of the eleven keys sets that attribute
    to the value without the whitespace around it, whatever the value is:
    it may hold further [=] signs, and what the attribute held before is
    replaced. *)
Theorem load_line_sets_attribute key value self :
  In key config_keys ->
  Config.load_line (config_line key value) self
  = Ok (<[key := Py.strip value]> self).
Proof.
  intros Hkey. unfold Config.load_line, config_line.
  rewrite !list_ascii_of_string_app.
  change (list_ascii_of_string "=") with ["="%char]. cbn [app].
  destruct (known_key_shape key Hkey) as (Hnoeq & c & rest & Hshape & Hc).
  set (v := list_ascii_of_string value).
  assert (Hstrip : Py.strip_chars (list_ascii_of_string key ++ "="%char :: v)
                   = list_ascii_of_string key ++ "="%char :: Py.rstrip v).
  { unfold Py.strip_chars. rewrite Hshape. cbn [app Py.lstrip]. rewrite Hc.
    change (c :: rest ++ "="%char :: v) with ((c :: rest) ++ "="%char :: v).
    apply rstrip_app_nonspace. reflexivity. }
  rewrite Hstrip, split_eq_app by exact Hnoeq. cbn [rev app].
  rewrite string_of_list_ascii_of_string, strip_chars_rstrip.
  rewrite assign_known by exact Hkey. reflexivity.
Qed.

Lemma load_line_sets_attribute_witness :
  Config.load_line (config_line "address" "  1 Main St = Suite 2 ")
    (<["address" := "old"]> ∅)
  = Ok (<["address" := "1 Main St = Suite 2"]> (<["address" := "old"]> ∅)).
Proof.
  apply (load_line_sets_attribute "address" "  1 Main St = Suite 2 "
           (<["address" := "old"]> ∅)).
  cbn. tauto.
Defined.

(** X2. A line whose key is none of the eleven, a known key followed by a
    blank before the [=] for one, changes no attribute. *)
Theorem load_line_unknown_key line key value self :
  Config.split_eq [] (Py.strip_chars (list_ascii_of_string line)) = Some (key, value) ->
  ~ In (string_of_list_ascii key) config_keys ->
  Config.load_line line self = Ok self.
Proof.
  intros Hsplit Hkey. unfold Config.load_line. rewrite Hsplit.
  rewrite assign_unknown by exact Hkey. reflexivity.
Qed.

Lemma load_line_unknown_key_witness :
  Config.load_line "company_name = ACME" (<["company_name" := "old"]> ∅)
  = Ok (<["company_name" := "old"]> ∅).
Proof.
  apply (load_line_unknown_key "company_name = ACME"
           (list_ascii_of_string "company_name ") (list_ascii_of_string " ACME")
           (<["company_name" := "old"]> ∅)).
  - reflexivity.
  - cbn. intros H. repeat (destruct H as [H | H]; [discriminate |]). exact H.
Defined.

Lemma load_lines_ok_iff lines : forall self,
  (exists self', Config.load_lines lines self = Ok self')
  <-> Forall (fun line =>
                Config.split_eq [] (Py.strip_chars (list_ascii_of_string line))
                <> None) lines.
Proof.
  induction lines as [| line rest IH]; intros self.
  - split; [constructor | intros _; exists self; reflexivity].
  - cbn [Config.load_lines]. unfold Config.load_line.
    destruct (Config.split_eq [] _) as [[key value] |] eqn:Hsplit.
    + rewrite IH. split.
      * intros Hrest. constructor; [rewrite Hsplit; discriminate | exact Hrest].
      * intros Hall. inversion Hall; assumption.
    + split.
      * intros [self' H]. discriminate.
      * intros Hall. inversion Hall as [| ? ? Hline _]; subst.
        rewrite Hsplit in Hline. contradiction.
Qed.

(** X3. [load_config] on a text file never changes a file, and it returns
    normally exactly when every line of the file has an [=] in it; an empty
    line is enough to make it raise. *)
Theorem load_config_returns_iff path content self w :
  files w !! path = Some (TextFile content) ->
  files (Config.load_config path self w).2 = files w
  /\ ((exists self', (Config.load_config path self w).1 = Ok self')
      <-> every_line_has_eq content).
Proof.
  intros Hfile. unfold every_line_has_eq.
  rewrite <- (load_lines_ok_iff (Config.file_lines content) self).
  unfold Config.load_config, bind, lookup_file, emit, ret, raise.
  rewrite Hfile. cbn [files events].
  destruct (Config.load_lines (Config.file_lines content) self) as [self' | e];
    cbn [fst snd files].
  - split; [reflexivity |]. split; intros _; eauto.
  - split; [reflexivity |]. split; intros [self' H]; discriminate.
Qed.

Lemma load_config_returns_iff_witness :
  files (Config.load_config "config.txt" ∅
           (world_with_config ("email=a@b.c" +:+ String Config.LF (String Config.LF "")))).2
  = files (world_with_config ("email=a@b.c" +:+ String Config.LF (String Config.LF "")))
  /\ ((exists self',
         (Config.load_config "config.txt" ∅
            (world_with_config ("email=a@b.c" +:+ String Config.LF (String Config.LF "")))).1
         = Ok self')
      <-> every_line_has_eq ("email=a@b.c" +:+ String Config.LF (String Config.LF ""))).
Proof.
  apply (load_config_returns_iff "config.txt"
           ("email=a@b.c" +:+ String Config.LF (String Config.LF "")) ∅
           (world_with_config ("email=a@b.c" +:+ String Config.LF (String Config.LF "")))).
  reflexivity.
Defined.

(** ** Starting the application *)

Lemma load_config_files path self w :
  files (Config.load_config path self w).2 = files w.
Proof.
  unfold Config.load_config, bind, lookup_file, emit, ret, raise.
  destruct (files w !! path) as [[content | | |] |]; cbn [files events];
    try reflexivity.
  destruct (Config.load_lines _ _); reflexivity.
Qed.

(** X4. Without a configuration file the start shows the error dialog of
    [load_config], goes on, and ends in the [AttributeError] of line 71 for
    [company_name]; the counter file is not created. *)
Theorem startup_without_config today w :
  files w !! "config.txt" = None ->
  Datetime.add_days today 15 <> None ->
  __init__ today w
  = (Raise (AttributeError "company_name"),
     {| files := files w;
        events := events w
                  ++ [ShowError "Error" "Configuration file not found: config.txt"] |}).
Proof.
  intros Hfile Hdue.
  unfold __init__, Config.load_config, add_days_or_raise, attr, bind,
    lookup_file, emit, ret, raise.
  rewrite Hfile. cbn [files events].
  destruct (Datetime.add_days today 15); [reflexivity | contradiction].
Qed.

Lemma startup_without_config_witness :
  __init__ new_year_2024 empty_world
  = (Raise (AttributeError "company_name"),
     {| files := ∅;
        events := [ShowError "Error" "Configuration file not found: config.txt"] |}).
Proof.
  apply (startup_without_config new_year_2024 empty_world);
    [reflexivity | vm_compute; discriminate].
Defined.

(** X5. A start that succeeds leaves the line items empty and the counter
    file in place: the file is created when it was absent and kept as it
    was otherwise, and no other path is changed. *)
Theorem startup_touches_counter_only today w self w' :
  __init__ today w = (Ok self, w') ->
  line_items self = []
  /\ is_Some (files w' !! "invoice_number.txt")
  /\ (forall f, files w !! "invoice_number.txt" = Some f ->
        files w' !! "invoice_number.txt" = Some f)
  /\ (forall path, path <> "invoice_number.txt" ->
        files w' !! path = files w !! path).
Proof.
  unfold __init__, add_days_or_raise, attr, bind at 1.
  pose proof (load_config_files "config.txt" ∅ w) as Hcfg.
  destruct (Config.load_config "config.txt" ∅ w) as [[cfg | e] w1];
    [| discriminate].
  cbn [snd] in Hcfg. unfold bind, ret, raise.
  destruct (Datetime.add_days today 15); [| discriminate].
  destruct (cfg !! "company_name"); [| discriminate].
  destruct (cfg !! "address"); [| discriminate].
  destruct (cfg !! "city_st_zip"); [| discriminate].
  destruct (cfg !! "phone_no"); [| discriminate].
  destruct (cfg !! "customer_name"); [| discriminate].
  unfold verify_invoice_number_file, bind, lookup_file, emit, store_file, ret.
  rewrite Hcfg.
  destruct (files w !! "invoice_number.txt") as [f |] eqn:Hcounter;
    intros H; injection H as <- <-; cbn [line_items files].
  - rewrite Hcfg, Hcounter. repeat split; eauto.
  - repeat split.
    + rewrite lookup_insert_eq. eauto.
    + intros f Hf. discriminate.
    + intros path Hpath. rewrite lookup_insert_ne by congruence.
      rewrite Hcfg. reflexivity.
Qed.

Lemma startup_touches_counter_only_witness :
  line_items office_app = []
  /\ is_Some (files office_started !! "invoice_number.txt")
  /\ (forall f, files office_world !! "invoice_number.txt" = Some f ->
        files office_started !! "invoice_number.txt" = Some f)
  /\ (forall path, path <> "invoice_number.txt" ->
        files office_started !! path = files office_world !! path).
Proof.
  apply (startup_touches_counter_only new_year_2024 office_world office_app
           office_started).
  vm_compute. reflexivity.
Defined.

(** ** The calendar button *)

Lemma digit_value_bounds c d : Py.digit_value c = Some d -> 0 <= d <= 9.
Proof.
  unfold Py.digit_value.
  destruct ((48 <=? nat_of_ascii c)%nat && (nat_of_ascii c <=? 57)%nat) eqn:H;
    [| discriminate].
  intros [= <-]. apply andb_true_iff in H. destruct H as [H1 H2].
  apply Nat.leb_le in H1, H2. lia.
Qed.

Lemma read_year_bounds s y : Datetime.read_year s = Some y -> 0 <= y <= 99.
Proof.
  unfold Datetime.read_year.
  destruct s as [| slash [| a [| b [| ? ?]]]]; try discriminate.
  destruct (Ascii.eqb slash "/"); [| discriminate].
  destruct (Py.digit_value a) as [x |] eqn:Ha; [| discriminate].
  destruct (Py.digit_value b) as [z |] eqn:Hb; [| discriminate].
  intros [= <-].
  pose proof (digit_value_bounds a x Ha). pose proof (digit_value_bounds b z Hb).
  lia.
Qed.

Lemma match_mdy_year s m d y :
  Datetime.match_mdy s = Some (m, d, y) -> 0 <= y <= 99.
Proof.
  unfold Datetime.match_mdy. intros H. apply head_Some_elem_of in H.
  apply list_elem_of_bind in H. destruct H as (mr & H & _).
  apply list_elem_of_bind in H. destruct H as (r1 & H & _).
  apply list_elem_of_bind in H. destruct H as (dr & H & _).
  apply list_elem_of_bind in H. destruct H as (y' & H & Hy).
  apply list_elem_of_singleton in H. injection H as _ _ ->.
  destruct (Datetime.read_year dr.2) as [y'' |] eqn:Hr; cbn in Hy.
  - apply list_elem_of_singleton in Hy. subst y''.
    exact (read_year_bounds _ _ Hr).
  - apply elem_of_nil in Hy. destruct Hy.
Qed.

Lemma strptime_year s d :
  Datetime.strptime s = Some d ->
  Datetime.valid d = true /\ 1969 <= Datetime.year d <= 2068.
Proof.
  unfold Datetime.strptime.
  destruct (Datetime.match_mdy _) as [[[m dd] y] |] eqn:Hm; [| discriminate].
  destruct (Datetime.valid _) eqn:Hv; [| discriminate].
  intros [= <-]. split; [exact Hv |]. cbn [Datetime.year].
  pose proof (match_mdy_year _ _ _ _ Hm).
  destruct (Z.leb_spec y 68); lia.
Qed.

Lemma days_before_year_le y : 1 <= y -> Datetime.days_before_year y <= 366 * y.
Proof.
  intros Hy. unfold Datetime.days_before_year. cbv zeta.
  Z.to_euclidean_division_equations. lia.
Qed.

Lemma toordinal_le d :
  Datetime.valid d = true -> Datetime.toordinal d <= 366 * Datetime.year d + 366.
Proof.
  intros Hvalid. apply valid_spec in Hvalid. destruct Hvalid as (Hy & Hm & Hd).
  rewrite toordinal_day_of_year.
  pose proof (days_before_year_le (Datetime.year d) ltac:(lia)).
  rewrite days_in_month_length in Hd.
  pose proof (month_length_le_31 (Datetime.is_leap (Datetime.year d)) (Datetime.month d)).
  pose proof (month_day_ok_all (Datetime.is_leap (Datetime.year d))
                (Datetime.month d) (Datetime.day d) Hm ltac:(lia)) as Hok.
  unfold Calendar.month_day_ok in Hok.
  destruct (Z.leb_spec (Datetime.day d)
              (Calendar.month_length (Datetime.is_leap (Datetime.year d))
                 (Datetime.month d))); [| lia].
  cbn [implb] in Hok. rewrite !andb_true_iff, !Z.leb_le in Hok. lia.
Qed.

(** X6. The Set Date button either rejects the text of the calendar with a
    [ValueError] and leaves the application as it is, or reads a date of
    the years 1969 to 2068 and sets both dates: the date addition of line
    195 cannot overflow. *)
Theorem set_date_year_window date_str self :
  match Datetime.strptime date_str with
  | None => set_date date_str self = (Raise (ValueError_strptime date_str), self)
  | Some d =>
      1969 <= Datetime.year d <= 2068
      /\ exists due,
           Datetime.add_days d 15 = Some due
           /\ set_date date_str self
              = (Ok tt, with_dates (Datetime.strftime d) (Datetime.strftime due) self)
  end.
Proof.
  unfold set_date.
  destruct (Datetime.strptime date_str) as [d |] eqn:Hd; [| reflexivity].
  destruct (strptime_year _ _ Hd) as [Hvalid Hyear]. split; [exact Hyear |].
  pose proof (toordinal_le d Hvalid) as Hle.
  assert (Hmax : Datetime.toordinal d + Z.of_nat 15 <= Datetime.MAXORDINAL)
    by (unfold Datetime.MAXORDINAL; lia).
  destruct (add_days_steps d Hvalid 15 Hmax) as (Hadd & _).
  change (Z.of_nat 15) with 15 in Hadd. rewrite Hadd.
  eexists. split; reflexivity.
Qed.

(** ** Generating an invoice: every way through *)

Ltac simp_world := cbv beta iota zeta; cbn [files events fst snd].

(** Either every rate reads as a float, or there is a first one that does
    not. *)
Lemma rates_cases items :
  (exists rates, rates_are items rates)
  \/ (exists good bad rest,
        items = good ++ bad :: rest
        /\ Forall (fun item => is_Some (PyFloat.float (rate item))) good
        /\ PyFloat.float (rate bad) = None).
Proof.
  induction items as [| item items IH].
  - left. exists []. constructor.
  - destruct (PyFloat.float (rate item)) as [r |] eqn:Hr.
    + destruct IH as [[rates Hrates] | (good & bad & rest & -> & Hgood & Hbad)].
      * left. exists (r :: rates). constructor; assumption.
      * right. exists (item :: good), bad, rest.
        split; [reflexivity |]. split; [| exact Hbad].
        constructor; [rewrite Hr; eauto | exact Hgood].
    + right. exists [], item, items. split; [reflexivity |].
      split; [constructor | exact Hr].
Qed.


(** A [render] that raises has written nothing. *)
Lemma render_raise_files self n w e :
  (render self n w).1 = Raise e -> files (render self n w).2 = files w.
Proof.
  unfold render, save, load_image. cbn [A4]. run.
  destruct (companyimage_file_name self) as [logo |]; [| reflexivity].
  simp_world.
  destruct (files w !! logo) as [[] |]; try reflexivity.
  simp_world.
  destruct (email self); [| reflexivity].
  simp_world.
  destruct (customer_email self); [| reflexivity].
  simp_world.
  destruct (customer_address self); [| reflexivity].
  simp_world.
  destruct (customer_city self); [| reflexivity].
  simp_world.
  destruct (draw_items _ _ _ _) as [[[calls y] subtotal] |]; [| reflexivity].
  simp_world.
  destruct (signature_file_name self) as [signature |]; [| reflexivity].
  simp_world.
  destruct (files w !! signature) as [[] |]; try reflexivity.
  simp_world.
  destruct (files w !! "invoices") as [[] |]; try reflexivity.
  simp_world.
  destruct (files w !! pdf_filename n) as [[] |]; simp_world; try reflexivity;
    discriminate.
Qed.

(** What must have held when [render] returns, and the world it leaves. *)
Lemma render_ok_inv self n w w' :
  render self n w = (Ok tt, w') ->
  exists logo e ce ca cc signature rates,
    companyimage_file_name self = Some logo
    /\ files w !! logo = Some ImageFile
    /\ email self = Some e
    /\ customer_email self = Some ce
    /\ customer_address self = Some ca
    /\ customer_city self = Some cc
    /\ rates_are (line_items self) rates
    /\ signature_file_name self = Some signature
    /\ files w !! signature = Some ImageFile
    /\ files w !! "invoices" = Some Directory
    /\ files w !! pdf_filename n <> Some Directory
    /\ w' = {| files := <[pdf_filename n :=
                           PdfFile A4 (invoice_calls self n logo e ce ca cc
                                         signature rates)]> (files w);
               events := events w
                         ++ [Opened logo "rb"; Opened signature "rb";
                             Opened (pdf_filename n) "wb";
                             ShowInfo "Success"
                               ("Invoice generated successfully and saved as "
                                +:+ pdf_filename n +:+ ".");
                             Destroyed;
                             BrowserOpened (pdf_filename n)] |}.
Proof.
  intros Hrun.
  assert (Hok : (render self n w).1 = Ok tt) by (rewrite Hrun; reflexivity).
  revert Hok. unfold render, save, load_image. cbn [A4]. run.
  destruct (companyimage_file_name self) as [logo |] eqn:Hlogo; [| discriminate].
  simp_world.
  destruct (files w !! logo) as [[] |] eqn:Hlogo_file; try discriminate.
  simp_world.
  destruct (email self) as [e |] eqn:He; [| discriminate].
  simp_world.
  destruct (customer_email self) as [ce |] eqn:Hce; [| discriminate].
  simp_world.
  destruct (customer_address self) as [ca |] eqn:Hca; [| discriminate].
  simp_world.
  destruct (customer_city self) as [cc |] eqn:Hcc; [| discriminate].
  simp_world.
  destruct (rates_cases (line_items self))
    as [[rates Hrates] | (good & bad & rest & Hitems & Hgood & Hbad)].
  2: { rewrite Hitems, draw_items_bad by assumption. discriminate. }
  rewrite (draw_items_ok _ rates) by exact Hrates.
  simp_world.
  destruct (signature_file_name self) as [signature |] eqn:Hsig; [| discriminate].
  simp_world.
  destruct (files w !! signature) as [[] |] eqn:Hsig_file; try discriminate.
  simp_world.
  destruct (files w !! "invoices") as [[] |] eqn:Hdir; try discriminate.
  simp_world.
  intros _.
  assert (Hpdf : files w !! pdf_filename n <> Some Directory).
  { intros Hpdf. revert Hrun. unfold render, save, load_image. cbn [A4]. run.
    step Hlogo. step Hlogo_file. step He. step Hce. step Hca. step Hcc.
    rewrite (draw_items_ok _ rates) by exact Hrates.
    step Hsig. step Hsig_file. step Hdir. step Hpdf. discriminate. }
  exists logo, e, ce, ca, cc, signature, rates.
  repeat (split; [first [assumption | reflexivity] |]).
  rewrite (render_saved self n w logo e ce ca cc Hlogo Hlogo_file He Hce Hca Hcc
             signature rates Hrates Hsig Hsig_file Hdir Hpdf) in Hrun.
  congruence.
Qed.

(** ** Generating an invoice: the number and the document *)

Lemma get_next_invoice_number_unreadable w :
  stored_number w = None ->
  exists e,
    (get_next_invoice_number w).1 = Raise e
    /\ files (get_next_invoice_number w).2 = files w.
Proof.
  unfold stored_number, get_next_invoice_number, read_text. run.
  destruct (files w !! "invoice_number.txt") as [[content | | |] |];
    simp_world; eauto.
  intros ->. simp_world. eauto.
Qed.

Lemma get_next_invoice_number_ok_inv w n w' :
  get_next_invoice_number w = (Ok n, w') ->
  exists content number,
    files w !! "invoice_number.txt" = Some (TextFile content)
    /\ Py.int (Py.strip content) = Some number.
Proof.
  unfold get_next_invoice_number, read_text. run.
  destruct (files w !! "invoice_number.txt") as [[content | | |] |];
    simp_world; try discriminate.
  destruct (Py.int (Py.strip content)) as [number |] eqn:Hnumber;
    simp_world; [| discriminate].
  eauto.
Qed.

(** Past the gate, [generate_invoice] is [get_next_invoice_number] and
    then [render]. *)
Lemma generate_invoice_past_gate self w :
  field_missing self = false ->
  generate_invoice self w
  = match get_next_invoice_number w with
    | (Ok n, w1) => render self n w1
    | (Raise e, w1) => (Raise e, w1)
    end.
Proof. intros Hfields. unfold generate_invoice. rewrite Hfields. reflexivity. Qed.

(** X9. When the counter file is missing or does not hold a number, a run
    past the gate raises and changes no file: the counter file is made at
    the start of the program only. *)
Theorem unreadable_counter_stops_invoice self w :
  field_missing self = false ->
  stored_number w = None ->
  exists e,
    (generate_invoice self w).1 = Raise e
    /\ files (generate_invoice self w).2 = files w.
Proof.
  intros Hfields Hstored. rewrite generate_invoice_past_gate by exact Hfields.
  destruct (get_next_invoice_number_unreadable w Hstored) as (e & Hraise & Hfiles).
  destruct (get_next_invoice_number w) as [[n | e'] w1]; [discriminate |].
  cbn [fst snd] in *. eauto.
Qed.

Lemma unreadable_counter_stops_invoice_witness :
  exists e,
    (generate_invoice office_app office_world).1 = Raise e
    /\ files (generate_invoice office_app office_world).2 = files office_world.
Proof.
  apply (unreadable_counter_stops_invoice office_app office_world);
    vm_compute; reflexivity.
Defined.



(** X11. A run that raises leaves every path but the counter file as it was:
    no document is written, and none is changed. *)
Theorem failed_run_writes_no_document self w e :
  (generate_invoice self w).1 = Raise e ->
  forall path, path <> "invoice_number.txt" ->
    files (generate_invoice self w).2 !! path = files w !! path.
Proof.
  intros Hraise path Hpath.
  destruct (field_missing self) eqn:Hfields.
  - rewrite generate_invoice_field_missing in Hraise by exact Hfields.
    discriminate.
  - rewrite generate_invoice_past_gate in * by exact Hfields.
    pose proof (get_next_invoice_number_files w path Hpath) as Hnext.
    destruct (get_next_invoice_number w) as [[n | e'] w1]; cbn [snd] in Hnext.
    + rewrite (render_raise_files self n w1 e Hraise). exact Hnext.
    + exact Hnext.
Qed.

Lemma failed_run_writes_no_document_witness :
  (generate_invoice (with_line_items items_with_abc office_app) office_started).1
  = Raise (ValueError_float "abc")
  /\ forall path, path <> "invoice_number.txt" ->
       files (generate_invoice (with_line_items items_with_abc office_app) office_started).2 !! path
       = files office_started !! path.
Proof.
  split; [vm_compute; reflexivity |].
  apply (failed_run_writes_no_document (with_line_items items_with_abc office_app) office_started
           (ValueError_float "abc")).
  vm_compute. reflexivity.
Defined.

(** What must have held when a run past the gate returns. *)
Lemma generate_invoice_ok_inv self w w' :
  field_missing self = false ->
  generate_invoice self w = (Ok tt, w') ->
  exists content number logo e ce ca cc signature rates,
    files w !! "invoice_number.txt" = Some (TextFile content)
    /\ Py.int (Py.strip content) = Some number
    /\ rates_are (line_items self) rates
    /\ w' = {| files :=
                 <[pdf_filename (number + 1) :=
                     PdfFile A4 (invoice_calls self (number + 1) logo e ce ca cc
                                   signature rates)]>
                   (<["invoice_number.txt" :=
                        TextFile (Py.overwrite (Py.str (number + 1)) content)]>
                      (files w));
               events := events w
                         ++ [Opened "invoice_number.txt" "r+";
                             Opened logo "rb"; Opened signature "rb";
                             Opened (pdf_filename (number + 1)) "wb";
                             ShowInfo "Success"
                               ("Invoice generated successfully and saved as "
                                +:+ pdf_filename (number + 1) +:+ ".");
                             Destroyed;
                             BrowserOpened (pdf_filename (number + 1))] |}.
Proof.
  intros Hfields. rewrite generate_invoice_past_gate by exact Hfields.
  destruct (get_next_invoice_number w) as [[n | e'] w1] eqn:Hnext;
    [| discriminate].
  destruct (get_next_invoice_number_ok_inv w n w1 Hnext)
    as (content & number & Hcounter & Hnumber).
  rewrite (get_next_invoice_number_text content number w Hcounter Hnumber) in Hnext.
  injection Hnext as <- <-. intros Hrender.
  destruct (render_ok_inv _ _ _ _ Hrender)
    as (logo & e & ce & ca & cc & signature & rates & _ & _ & _ & _ & _ & _
        & Hrates & _ & _ & _ & _ & ->).
  exists content, number, logo, e, ce, ca, cc, signature, rates.
  repeat (split; [assumption |]).
  cbn [files events]. rewrite <- app_assoc. reflexivity.
Qed.

(** X12. When a run past the gate returns, the counter file held a number
    [n] and the document [invoices/Invoice_(n+1).pdf] is there, an A4 page
    that shows the number. The document was written before the success
    dialog was shown; then the window was closed and the viewer opened;
    no error dialog was shown. *)
Theorem success_means_saved self w w' :
  field_missing self = false ->
  generate_invoice self w = (Ok tt, w') ->
  exists number calls before,
    stored_number w = Some number
    /\ files w' !! pdf_filename (number + 1) = Some (PdfFile A4 calls)
    /\ In (DrawRightString (A4.1 - 2 * cm)%float (A4.2 - 5 * cm)%float
             ("Invoice No.: " +:+ Py.str (number + 1))) calls
    /\ events w'
       = events w ++ before
         ++ [Opened (pdf_filename (number + 1)) "wb";
             ShowInfo "Success"
               ("Invoice generated successfully and saved as "
                +:+ pdf_filename (number + 1) +:+ ".");
             Destroyed;
             BrowserOpened (pdf_filename (number + 1))]
    /\ Forall (fun ev => exists path mode, ev = Opened path mode) before.
Proof.
  intros Hfields Hrun.
  destruct (generate_invoice_ok_inv self w w' Hfields Hrun)
    as (content & number & logo & e & ce & ca & cc & signature & rates
        & Hcounter & Hnumber & _ & ->).
  exists number. eexists.
  exists [Opened "invoice_number.txt" "r+"; Opened logo "rb"; Opened signature "rb"].
  split; [unfold stored_number; rewrite Hcounter; exact Hnumber |].
  split; [cbn [files]; apply lookup_insert_eq |].
  split; [| split; [reflexivity | repeat constructor; eauto]].
  unfold invoice_calls, head_calls. cbn [A4 fst snd].
  apply in_or_app. left. do 14 right. left. reflexivity.
Qed.

Lemma success_means_saved_witness :
  exists number calls before,
    stored_number office_started = Some number
    /\ files (generate_invoice office_app office_started).2
         !! pdf_filename (number + 1) = Some (PdfFile A4 calls)
    /\ In (DrawRightString (A4.1 - 2 * cm)%float (A4.2 - 5 * cm)%float
             ("Invoice No.: " +:+ Py.str (number + 1))) calls
    /\ events (generate_invoice office_app office_started).2
       = events office_started ++ before
         ++ [Opened (pdf_filename (number + 1)) "wb";
             ShowInfo "Success"
               ("Invoice generated successfully and saved as "
                +:+ pdf_filename (number + 1) +:+ ".");
             Destroyed;
             BrowserOpened (pdf_filename (number + 1))]
    /\ Forall (fun ev => exists path mode, ev = Opened path mode) before.
Proof.
  apply (success_means_saved office_app office_started
           (generate_invoice office_app office_started).2);
    vm_compute; reflexivity.
Defined.

(** X13. When one of [email], [customer_email], [customer_address] and
    [customer_city] was never set, because the configuration file has no
    line for it, a run past the gate raises [AttributeError] for the first
    of them that is unset (the order of the four in the source), after the
    number is used up and the logo opened; no document is written. *)
Theorem unset_attribute_stops_invoice self w content number logo :
  field_missing self = false ->
  files w !! "invoice_number.txt" = Some (TextFile content) ->
  Py.int (Py.strip content) = Some number ->
  companyimage_file_name self = Some logo ->
  files w !! logo = Some ImageFile ->
  email self = None \/ customer_email self = None
  \/ customer_address self = None \/ customer_city self = None ->
  exists name,
    head (omap (fun '(name, value) =>
                  match value with None => Some name | Some _ => None end)
            [("email", email self); ("customer_email", customer_email self);
             ("customer_address", customer_address self);
             ("customer_city", customer_city self)])
    = Some name
    /\ generate_invoice self w
       = (Raise (AttributeError name),
          {| files := <["invoice_number.txt" :=
                          TextFile (Py.overwrite (Py.str (number + 1)) content)]>
                        (files w);
             events := events w ++ [Opened "invoice_number.txt" "r+";
                                    Opened logo "rb"] |}).
Proof.
  intros Hfields Hcounter Hnumber Hlogo Hlogo_file Hunset.
  rewrite (generate_invoice_numbered self w content number Hfields Hcounter Hnumber).
  assert (Hlogo_file' :
            <["invoice_number.txt" :=
                TextFile (Py.overwrite (Py.str (number + 1)) content)]>
              (files w) !! logo = Some ImageFile).
  { rewrite lookup_insert_ne; [exact Hlogo_file |]. intros <-. congruence. }
  unfold render, load_image. cbn [A4]. run.
  step Hlogo. step Hlogo_file'. rewrite <- app_assoc. cbn [app].
  destruct (email self); simp_world;
    [| exists "email"; split; reflexivity].
  destruct (customer_email self); simp_world;
    [| exists "customer_email"; split; reflexivity].
  destruct (customer_address self); simp_world;
    [| exists "customer_address"; split; reflexivity].
  destruct (customer_city self); simp_world;
    [| exists "customer_city"; split; reflexivity].
  destruct Hunset as [H | [H | [H | H]]]; discriminate.
Qed.

Lemma unset_attribute_stops_invoice_witness :
  exists name,
    head (omap (fun '(name, value) =>
                  match value with None => Some name | Some _ => None end)
            [("email", email app_without_email);
             ("customer_email", customer_email app_without_email);
             ("customer_address", customer_address app_without_email);
             ("customer_city", customer_city app_without_email)])
    = Some name
    /\ generate_invoice app_without_email office_started
       = (Raise (AttributeError name),
          {| files := <["invoice_number.txt" :=
                          TextFile (Py.overwrite (Py.str (0 + 1)) "0")]>
                        (files office_started);
             events := events office_started
                       ++ [Opened "invoice_number.txt" "r+";
                           Opened "logo.png" "rb"] |}).
Proof.
  apply (unset_attribute_stops_invoice app_without_email office_started "0" 0
           "logo.png"); try reflexivity.
  left. reflexivity.
Defined.

(** X14. The program never makes the directory [invoices]. When it is not
    there, a run that got as far as saving raises [FileNotFoundError] for
    the document: the number is used up, both images were opened, no
    document is written and no dialog is shown. *)
Theorem missing_directory_stops_invoice self w content number logo signature
    e ce ca cc rates :
  field_missing self = false ->
  files w !! "invoice_number.txt" = Some (TextFile content) ->
  Py.int (Py.strip content) = Some number ->
  companyimage_file_name self = Some logo ->
  files w !! logo = Some ImageFile ->
  email self = Some e ->
  customer_email self = Some ce ->
  customer_address self = Some ca ->
  customer_city self = Some cc ->
  rates_are (line_items self) rates ->
  signature_file_name self = Some signature ->
  files w !! signature = Some ImageFile ->
  files w !! "invoices" = None ->
  generate_invoice self w
  = (Raise (FileNotFoundError (pdf_filename (number + 1))),
     {| files := <["invoice_number.txt" :=
                     TextFile (Py.overwrite (Py.str (number + 1)) content)]>
                   (files w);
        events := events w ++ [Opened "invoice_number.txt" "r+";
                               Opened logo "rb"; Opened signature "rb"] |}).
Proof.
  intros Hfields Hcounter Hnumber Hlogo Hlogo_file He Hce Hca Hcc Hrates Hsig
    Hsig_file Hdir.
  rewrite (generate_invoice_numbered self w content number Hfields Hcounter Hnumber).
  set (advanced := <["invoice_number.txt" := _]> (files w)).
  assert (Hother : forall path f,
            files w !! path = Some f -> f = ImageFile -> advanced !! path = Some f).
  { intros path f Hpath ->. unfold advanced.
    rewrite lookup_insert_ne; [exact Hpath |]. intros <-. congruence. }
  assert (Hdir' : advanced !! "invoices" = None).
  { unfold advanced. rewrite lookup_insert_ne by discriminate. exact Hdir. }
  pose proof (Hother logo _ Hlogo_file eq_refl) as Hlogo_file'.
  pose proof (Hother signature _ Hsig_file eq_refl) as Hsig_file'.
  unfold render, save, load_image. cbn [A4]. run.
  step Hlogo. step Hlogo_file'. step He. step Hce. step Hca. step Hcc.
  rewrite (draw_items_ok _ rates) by exact Hrates. simp_world.
  step Hsig. step Hsig_file'. step Hdir'.
  rewrite <- !app_assoc. reflexivity.
Qed.

Lemma missing_directory_stops_invoice_witness :
  generate_invoice office_app office_without_directory
  = (Raise (FileNotFoundError (pdf_filename (0 + 1))),
     {| files := <["invoice_number.txt" :=
                     TextFile (Py.overwrite (Py.str (0 + 1)) "0")]>
                   (files office_without_directory);
        events := events office_without_directory
                  ++ [Opened "invoice_number.txt" "r+";
                      Opened "logo.png" "rb"; Opened "signature.png" "rb"] |}).
Proof.
  apply (missing_directory_stops_invoice office_app office_without_directory "0" 0
           "logo.png" "signature.png" "" "" "" "" []);
    try reflexivity.
  constructor.
Defined.

(** X15. The gate of line 264 turns a run away, with the dialog "Please fill
    in all fields." as its only effect, exactly when one of the company
    name, address, city line, date, customer name and phone number is
    empty. *)
Theorem gate_rejects_iff self w :
  generate_invoice self w
  = (Ok tt, {| files := files w;
               events := events w
                         ++ [ShowError "Error" "Please fill in all fields."] |})
  <-> company_name self = "" \/ address self = "" \/ city_st_zip self = ""
      \/ date self = "" \/ customer_name self = "" \/ phone_no self = "".
Proof.
  assert (Hgate : field_missing self = true
                  <-> company_name self = "" \/ address self = ""
                      \/ city_st_zip self = "" \/ date self = ""
                      \/ customer_name self = "" \/ phone_no self = "").
  { unfold field_missing, authorized_signatory.
    rewrite !orb_true_iff, !py_not_true. tauto. }
  rewrite <- Hgate. split.
  - intros Hrun. destruct (field_missing self) eqn:Hfields; [reflexivity |].
    destruct (generate_invoice_ok_inv self w _ Hfields Hrun)
      as (content & number & logo & e & ce & ca & cc & signature & rates
          & _ & _ & _ & Hw).
    injection Hw as _ Hevents. apply app_inv_head in Hevents. discriminate.
  - apply generate_invoice_field_missing.
Qed.

(** ** The names of the documents *)

Lemma append_inv_head a b c : a +:+ b = a +:+ c -> b = c.
Proof.
  induction a as [| x a IH]; cbn [String.append]; [tauto |].
  intros H. injection H as H. exact (IH H).
Qed.

Lemma append_inv_tail a b c : a +:+ c = b +:+ c -> a = b.
Proof.
  intros H. apply (f_equal list_ascii_of_string) in H.
  rewrite !list_ascii_of_string_app in H. apply app_inv_tail in H.
  apply (f_equal string_of_list_ascii) in H.
  rewrite !string_of_list_ascii_of_string in H. exact H.
Qed.

Lemma digits_inj n m : 0 <= n -> 0 <= m -> Py.digits n = Py.digits m -> n = m.
Proof.
  intros Hn Hm H. pose proof (int_chars_digits n Hn) as H1.
  rewrite H, int_chars_digits in H1 by exact Hm. congruence.
Qed.

Lemma digits_no_sign n l : 0 <= n -> Py.digits n <> "-"%char :: l.
Proof.
  intros Hn H. pose proof (digits_head n Hn) as Hhead. rewrite H in Hhead.
  destruct Hhead as [d Hd]. vm_compute in Hd. discriminate.
Qed.

(** [str] gives different integers different texts. *)
Lemma str_inj n m : Py.str n = Py.str m -> n = m.
Proof.
  unfold Py.str. intros H. apply (f_equal list_ascii_of_string) in H.
  rewrite !list_ascii_of_string_of_list_ascii in H. revert H.
  unfold Py.str_chars.
  destruct (Z.ltb_spec n 0) as [Hn | Hn], (Z.ltb_spec m 0) as [Hm | Hm];
    intros Heq.
  - injection Heq as Heq. apply digits_inj in Heq; lia.
  - symmetry in Heq. apply digits_no_sign in Heq; [contradiction | lia].
  - apply digits_no_sign in Heq; [contradiction | lia].
  - apply digits_inj; assumption.
Qed.


(** X16. Different invoice numbers, negative ones included, give different
    document paths. *)
Theorem pdf_filename_injective n m :
  n <> m -> pdf_filename n <> pdf_filename m.
Proof.
  intros Hnm H. apply Hnm. unfold pdf_filename in H.
  apply append_inv_head in H. apply append_inv_tail in H.
  apply str_inj. exact H.
Qed.

Lemma pdf_filename_injective_witness : pdf_filename 9 <> pdf_filename 10.
Proof. apply (pdf_filename_injective 9 10). lia. Defined.



(** ** What the page holds *)

Lemma drawn_rows_skip op rest :
  match op with SetFillColor _ _ _ => False | _ => True end ->
  drawn_rows (op :: rest) = drawn_rows rest.
Proof. destruct op; intros H; try reflexivity. destruct H. Qed.

Lemma drawn_rows_skip_all l rest :
  Forall (fun op => match op with SetFillColor _ _ _ => False | _ => True end) l ->
  drawn_rows (l ++ rest) = drawn_rows rest.
Proof.
  induction 1 as [| op l Hop _ IH]; [reflexivity |].
  cbn [app]. rewrite drawn_rows_skip by exact Hop. exact IH.
Qed.

Lemma drawn_rows_band y rest :
  drawn_rows (band_calls y ++ rest) = drawn_rows rest.
Proof. reflexivity. Qed.

Lemma drawn_rows_row y item rest :
  drawn_rows (row_calls y item ++ rest) = as_drawn item :: drawn_rows rest.
Proof. reflexivity. Qed.

Lemma drawn_rows_item_calls items : forall index y rest,
  drawn_rows (item_calls index items y ++ rest)
  = map as_drawn items ++ drawn_rows rest.
Proof.
  induction items as [| item items IH]; intros index y rest; [reflexivity |].
  cbn [item_calls map]. rewrite <- !app_assoc.
  destruct (Nat.odd index).
  - rewrite drawn_rows_band, drawn_rows_row, IH. reflexivity.
  - cbn [app]. rewrite drawn_rows_row, IH. reflexivity.
Qed.

Lemma drawn_rows_invoice_calls self n logo e ce ca cc signature rates :
  drawn_rows (invoice_calls self n logo e ce ca cc signature rates)
  = map as_drawn (line_items self).
Proof.
  unfold invoice_calls.
  rewrite drawn_rows_skip_all
    by (unfold head_calls; cbn [A4]; repeat constructor).
  rewrite drawn_rows_item_calls.
  rewrite drawn_rows_skip_all
    by (unfold total_calls; cbn [A4]; repeat constructor).
  unfold foot_calls. cbn [A4]. cbn [drawn_rows]. apply app_nil_r.
Qed.

(** X18. The table of a saved document reads back as the line items, in the
    order they were entered: each row shows the four texts as typed, the
    rate behind a dollar sign and not reformatted. *)
Theorem saved_rows_read_back self w w' :
  field_missing self = false ->
  generate_invoice self w = (Ok tt, w') ->
  exists number calls,
    stored_number w = Some number
    /\ files w' !! pdf_filename (number + 1) = Some (PdfFile A4 calls)
    /\ drawn_rows calls = map as_drawn (line_items self).
Proof.
  intros Hfields Hrun.
  destruct (generate_invoice_ok_inv self w w' Hfields Hrun)
    as (content & number & logo & e & ce & ca & cc & signature & rates
        & Hcounter & Hnumber & _ & ->).
  exists number. eexists.
  split; [unfold stored_number; rewrite Hcounter; exact Hnumber |].
  split; [cbn [files]; apply lookup_insert_eq |].
  apply drawn_rows_invoice_calls.
Qed.

Lemma saved_rows_read_back_witness :
  exists number calls,
    stored_number office_started = Some number
    /\ files (generate_invoice (with_line_items five_items office_app)
               office_started).2 !! pdf_filename (number + 1)
       = Some (PdfFile A4 calls)
    /\ drawn_rows calls
       = map as_drawn (line_items (with_line_items five_items office_app)).
Proof.
  apply (saved_rows_read_back (with_line_items five_items office_app)
           office_started
           (generate_invoice (with_line_items five_items office_app)
              office_started).2);
    vm_compute; reflexivity.
Defined.

Lemma item_calls_no_page items : forall index y,
  ~ In ShowPage (item_calls index items y).
Proof.
  induction items as [| item items IH]; intros index y; [intros [] |].
  cbn [item_calls]. rewrite !in_app_iff. intros [H | [H | H]].
  - destruct (Nat.odd index); cbn in H; intuition discriminate.
  - cbn in H. intuition discriminate.
  - exact (IH _ _ H).
Qed.

(** X19. A saved document is one page, however many rows it has: its calls
    end in the one [showPage] of line 381, and the rows never start a new
    page. *)
Theorem saved_document_is_one_page self w w' :
  field_missing self = false ->
  generate_invoice self w = (Ok tt, w') ->
  exists number body,
    stored_number w = Some number
    /\ files w' !! pdf_filename (number + 1) = Some (PdfFile A4 (body ++ [ShowPage]))
    /\ ~ In ShowPage body.
Proof.
  intros Hfields Hrun.
  destruct (generate_invoice_ok_inv self w w' Hfields Hrun)
    as (content & number & logo & e & ce & ca & cc & signature & rates
        & Hcounter & Hnumber & _ & ->).
  exists number.
  exists (head_calls self (number + 1) logo e ce ca cc
          ++ item_calls 0 (line_items self) (A4.2 - 9.5 * cm)%float
          ++ total_calls self
               (y_after (length (line_items self)) (A4.2 - 9.5 * cm)%float)
               (fold_left PrimFloat.add rates 0%float)
          ++ removelast
               (foot_calls signature
                  (y_after (length (line_items self)) (A4.2 - 9.5 * cm)%float))).
  split; [unfold stored_number; rewrite Hcounter; exact Hnumber |].
  split.
  - cbn [files]. rewrite lookup_insert_eq. unfold invoice_calls.
    rewrite <- !app_assoc. reflexivity.
  - rewrite !in_app_iff. intros [H | [H | [H | H]]].
    + unfold head_calls in H. cbn in H. intuition discriminate.
    + exact (item_calls_no_page _ _ _ H).
    + unfold total_calls in H. cbn in H. intuition discriminate.
    + unfold foot_calls in H. cbn in H. intuition discriminate.
Qed.

Lemma saved_document_is_one_page_witness :
  exists number body,
    stored_number office_started = Some number
    /\ files (generate_invoice (with_line_items five_items office_app)
               office_started).2 !! pdf_filename (number + 1)
       = Some (PdfFile A4 (body ++ [ShowPage]))
    /\ ~ In ShowPage body.
Proof.
  apply (saved_document_is_one_page (with_line_items five_items office_app)
           office_started
           (generate_invoice (with_line_items five_items office_app)
              office_started).2);
    vm_compute; reflexivity.
Defined.

(** ** The line item window *)

Lemma float_empty : PyFloat.float "" = None.
Proof. vm_compute. reflexivity. Qed.

(** X20. Opening the line item window, or pressing + Add Line, keeps the
    rows that are there and adds one whose four fields are empty. While
    that row is as it is, no document can be made: a run past the gate
    raises, since line 342 cannot read the empty rate, and writes to no path
    but the counter file. *)
Theorem unfilled_row_stops_invoice self w :
  field_missing self = false ->
  line_items (open_line_item_window self)
  = line_items self
    ++ [{| item_date := ""; description := ""; location := ""; rate := "" |}]
  /\ (exists e, (generate_invoice (open_line_item_window self) w).1 = Raise e)
  /\ forall path, path <> "invoice_number.txt" ->
       files (generate_invoice (open_line_item_window self) w).2 !! path
       = files w !! path.
Proof.
  intros Hfields. split; [reflexivity |].
  assert (Hgate : field_missing (open_line_item_window self) = false)
    by exact Hfields.
  assert (Hraise : exists e,
            (generate_invoice (open_line_item_window self) w).1 = Raise e).
  { destruct (generate_invoice (open_line_item_window self) w)
      as [[[] | e] w'] eqn:Hrun; [| cbn [fst]; eauto].
    destruct (generate_invoice_ok_inv _ w w' Hgate Hrun)
      as (content & number & logo & e & ce & ca & cc & signature & rates
          & _ & _ & Hrates & _).
    unfold rates_are in Hrates. cbn [open_line_item_window add_line_item_row
      with_line_items line_items] in Hrates.
    apply Forall2_app_inv_l in Hrates.
    destruct Hrates as (rates1 & rates2 & _ & Hlast & _).
    inversion Hlast as [| ? r ? ? Hr _]; subst.
    cbn [rate] in Hr. rewrite float_empty in Hr. discriminate. }
  split; [exact Hraise |].
  destruct Hraise as [e He]. intros path Hpath.
  rewrite generate_invoice_past_gate in * by exact Hgate.
  pose proof (get_next_invoice_number_files w path Hpath) as Hnext.
  destruct (get_next_invoice_number w) as [[n | e'] w1]; cbn [snd] in Hnext.
  - rewrite (render_raise_files _ n w1 e He). exact Hnext.
  - exact Hnext.
Qed.

Lemma unfilled_row_stops_invoice_witness :
  line_items (open_line_item_window office_app)
  = line_items office_app
    ++ [{| item_date := ""; description := ""; location := ""; rate := "" |}]
  /\ (exists e,
        (generate_invoice (open_line_item_window office_app) office_started).1
        = Raise e)
  /\ forall path, path <> "invoice_number.txt" ->
       files (generate_invoice (open_line_item_window office_app)
                office_started).2 !! path
       = files office_started !! path.
Proof.
  apply (unfilled_row_stops_invoice office_app office_started).
  vm_compute. reflexivity.
Defined.

(** ** The first invoice *)

Lemma init_world today w self w' :
  __init__ today w = (Ok self, w') ->
  line_items self = []
  /\ files w' = match files w !! "invoice_number.txt" with
                | Some _ => files w
                | None => <["invoice_number.txt" := TextFile "0"]> (files w)
                end.
Proof.
  unfold __init__, add_days_or_raise, attr, bind at 1.
  pose proof (load_config_files "config.txt" ∅ w) as Hcfg.
  destruct (Config.load_config "config.txt" ∅ w) as [[cfg | e] w1];
    [| discriminate].
  cbn [snd] in Hcfg. unfold bind, ret, raise.
  destruct (Datetime.add_days today 15); [| discriminate].
  destruct (cfg !! "company_name"); [| discriminate].
  destruct (cfg !! "address"); [| discriminate].
  destruct (cfg !! "city_st_zip"); [| discriminate].
  destruct (cfg !! "phone_no"); [| discriminate].
  destruct (cfg !! "customer_name"); [| discriminate].
  unfold verify_invoice_number_file, bind, lookup_file, emit, store_file, ret.
  rewrite Hcfg.
  destruct (files w !! "invoice_number.txt") as [f |];
    intros H; injection H as <- <-; cbn [line_items files]; rewrite ?Hcfg;
    split; reflexivity.
Qed.

(** X21. The first run after an installation: when there is no counter file
    at the start and Generate Invoice is pressed right away, with the
    attributes, images and directory in place, the run returns, the
    document is [invoices/Invoice_1.pdf], the counter file holds [1], and
    the page has no rows and the total [$ 0.00]. *)
Theorem first_invoice_after_install today w self w1 logo signature e ce ca cc :
  files w !! "invoice_number.txt" = None ->
  __init__ today w = (Ok self, w1) ->
  field_missing self = false ->
  companyimage_file_name self = Some logo ->
  files w !! logo = Some ImageFile ->
  email self = Some e ->
  customer_email self = Some ce ->
  customer_address self = Some ca ->
  customer_city self = Some cc ->
  signature_file_name self = Some signature ->
  files w !! signature = Some ImageFile ->
  files w !! "invoices" = Some Directory ->
  files w !! "invoices/Invoice_1.pdf" <> Some Directory ->
  exists w2 calls,
    generate_invoice self w1 = (Ok tt, w2)
    /\ files w2 !! "invoices/Invoice_1.pdf" = Some (PdfFile A4 calls)
    /\ files w2 !! "invoice_number.txt" = Some (TextFile "1")
    /\ drawn_rows calls = []
    /\ In (DrawRightString (A4.1 - 3 * cm)%float
             (A4.2 - 9.5 * cm - 1 * cm)%float "$ 0.00") calls.
Proof.
  intros Habsent Hinit Hfields Hlogo Hlogo_file He Hce Hca Hcc Hsig Hsig_file
    Hdir Hpdf.
  destruct (init_world today w self w1 Hinit) as [Hitems Hfiles].
  rewrite Habsent in Hfiles.
  assert (Hother : forall path, path <> "invoice_number.txt" ->
            files w1 !! path = files w !! path).
  { intros path Hpath. rewrite Hfiles. apply lookup_insert_ne. congruence. }
  assert (Hcounter : files w1 !! "invoice_number.txt" = Some (TextFile "0"))
    by (rewrite Hfiles; apply lookup_insert_eq).
  assert (Hlogo1 : files w1 !! logo = Some ImageFile).
  { rewrite Hother; [exact Hlogo_file |]. intros ->. congruence. }
  assert (Hsig1 : files w1 !! signature = Some ImageFile).
  { rewrite Hother; [exact Hsig_file |]. intros ->. congruence. }
  assert (Hdir1 : files w1 !! "invoices" = Some Directory)
    by (rewrite Hother by discriminate; exact Hdir).
  assert (Hpdf1 : files w1 !! pdf_filename (0 + 1) <> Some Directory)
    by (change (pdf_filename (0 + 1)) with "invoices/Invoice_1.pdf";
        rewrite Hother by discriminate; exact Hpdf).
  assert (Hrates : rates_are (line_items self) [])
    by (rewrite Hitems; constructor).
  pose proof (generate_invoice_saved self w1 "0" 0 logo e ce ca cc Hfields
                Hcounter eq_refl Hlogo Hlogo1 He Hce Hca Hcc signature []
                Hrates Hsig Hsig1 Hdir1 Hpdf1) as Hrun.
  change (pdf_filename (0 + 1)) with "invoices/Invoice_1.pdf" in Hrun.
  eexists. eexists. split; [exact Hrun |]. cbn [files].
  split; [apply lookup_insert_eq |].
  split; [rewrite lookup_insert_ne by discriminate; apply lookup_insert_eq |].
  split.
  - rewrite drawn_rows_invoice_calls, Hitems. reflexivity.
  - unfold invoice_calls, total_calls. rewrite Hitems.
    cbn [A4 fst snd length y_after fold_left].
    apply in_or_app. right. apply in_or_app. right. apply in_or_app. left.
    do 5 right. left. reflexivity.
Qed.

Lemma first_invoice_after_install_witness :
  exists w2 calls,
    generate_invoice office_app office_started = (Ok tt, w2)
    /\ files w2 !! "invoices/Invoice_1.pdf" = Some (PdfFile A4 calls)
    /\ files w2 !! "invoice_number.txt" = Some (TextFile "1")
    /\ drawn_rows calls = []
    /\ In (DrawRightString (A4.1 - 3 * cm)%float
             (A4.2 - 9.5 * cm - 1 * cm)%float "$ 0.00") calls.
Proof.
  apply (first_invoice_after_install new_year_2024 office_world office_app
           office_started "logo.png" "signature.png" "" "" "" "");
    try reflexivity; vm_compute; try reflexivity; discriminate.
Defined.

(** ** A counter file with white space at its end *)

Lemma string_of_list_ascii_app a b :
  string_of_list_ascii (a ++ b) = string_of_list_ascii a +:+ string_of_list_ascii b.
Proof.
  induction a as [| c a IH]; cbn [app string_of_list_ascii]; [reflexivity |].
  rewrite IH. reflexivity.
Qed.

Lemma strip_chars_padded l ws :
  l <> [] ->
  Forall (fun c => Py.is_space c = false) l ->
  Forall (fun c => Py.is_space c = true) ws ->
  Py.strip_chars (l ++ ws) = l.
Proof.
  intros Hne Hl Hws. unfold Py.strip_chars.
  rewrite lstrip_id
    by (destruct l as [| c l]; [contradiction | inversion Hl; assumption]).
  destruct (exists_last Hne) as (init & last & ->).
  apply Forall_app in Hl. destruct Hl as [_ Hlast].
  inversion Hlast as [| ? ? Hc _]; subst.
  rewrite <- app_assoc. cbn [app].
  rewrite (rstrip_app_nonspace init last ws Hc), (rstrip_spaces ws Hws).
  reflexivity.
Qed.

Lemma strip_str_padded C ws :
  0 <= C ->
  Forall (fun c => Py.is_space c = true) ws ->
  Py.strip (Py.str C +:+ string_of_list_ascii ws) = Py.str C.
Proof.
  intros HC Hws. unfold Py.strip, Py.str.
  rewrite list_ascii_of_string_app, !list_ascii_of_string_of_list_ascii.
  rewrite str_chars_nonneg by exact HC.
  rewrite strip_chars_padded;
    [reflexivity | apply digits_nonempty; exact HC
     | apply digits_not_space; exact HC | exact Hws].
Qed.

Lemma overwrite_str_succ_padded C ws :
  0 <= C ->
  Py.overwrite (Py.str (C + 1)) (Py.str C +:+ string_of_list_ascii ws)
  = Py.str (C + 1)
    +:+ string_of_list_ascii
          (drop (length (Py.digits (C + 1)) - length (Py.digits C)) ws).
Proof.
  intros HC. unfold Py.overwrite, Py.str.
  rewrite list_ascii_of_string_app, !list_ascii_of_string_of_list_ascii.
  rewrite !str_chars_nonneg by lia.
  rewrite drop_app_ge by (apply digits_length_mono; lia).
  apply string_of_list_ascii_app.
Qed.

Lemma ascii_space_is_space ws :
  Forall (fun c => is_ascii_space c = true) ws ->
  Forall (fun c => Py.is_space c = true) ws.
Proof.
  induction 1 as [| c ws Hc _ IH]; constructor; [| exact IH].
  unfold is_ascii_space in Hc. apply andb_true_iff in Hc. tauto.
Qed.

Lemma get_next_invoice_number_padded C w :
  0 <= C -> counter_padded C w ->
  exists w',
    get_next_invoice_number w = (Ok (C + 1), w') /\ counter_padded (C + 1) w'.
Proof.
  intros HC (ws & Hws & Hfile).
  pose proof (ascii_space_is_space ws Hws) as Hspace.
  rewrite (get_next_invoice_number_text _ C w Hfile)
    by (rewrite strip_str_padded by assumption; apply int_str; exact HC).
  eexists. split; [reflexivity |].
  exists (drop (length (Py.digits (C + 1)) - length (Py.digits C)) ws).
  split; [apply Forall_drop; exact Hws |].
  cbn [files]. rewrite lookup_insert_eq, overwrite_str_succ_padded by exact HC.
  reflexivity.
Qed.

(** X22. White space of ASCII after the number in the counter file, such
    as the newline an editor leaves, does no harm: from a file that holds
    the non-negative [C] followed by blanks, tabs, line feeds or carriage
    returns, [N] calls of [get_next_invoice_number] return [C+1], ...,
    [C+N] in this order, and the file then holds [C+N], followed by what is
    left of the white space. Digits and these characters are one byte
    each, so that the write of line 416 replaces whole characters. *)
Theorem padded_counter_allocation C N w :
  0 <= C -> counter_padded C w ->
  exists w',
    allocate_many N w = (Ok (map (fun k => C + Z.of_nat k) (seq 1 N)), w')
    /\ counter_padded (C + Z.of_nat N) w'
    /\ stored_number w' = Some (C + Z.of_nat N).
Proof.
  revert C w. induction N as [| N IH]; intros C w HC Hfile.
  - exists w. cbn [allocate_many seq map]. rewrite Z.add_0_r.
    split; [reflexivity |]. split; [exact Hfile |].
    destruct Hfile as (ws & Hws & Hfile). unfold stored_number.
    pose proof (ascii_space_is_space ws Hws) as Hspace.
    rewrite Hfile, strip_str_padded by assumption. apply int_str. exact HC.
  - cbn [allocate_many]. unfold bind at 1.
    destruct (get_next_invoice_number_padded C w HC Hfile) as (w1 & -> & H1).
    destruct (IH (C + 1) w1 ltac:(lia) H1) as (w' & Hrun & Hend).
    exists w'. unfold bind. rewrite Hrun. unfold ret.
    assert (Hshift : map (fun k => C + 1 + Z.of_nat k) (seq 1 N)
                     = map (fun k => C + Z.of_nat k) (seq 2 N)).
    { rewrite <- (seq_shift N 1), map_map. apply map_ext. intros k. lia. }
    cbn [seq map]. rewrite Hshift. change (Z.of_nat 1) with 1.
    split; [reflexivity |].
    replace (C + Z.of_nat (S N)) with (C + 1 + Z.of_nat N) by lia. exact Hend.
Qed.

Lemma padded_counter_allocation_witness :
  exists w',
    allocate_many 3 (world_with_counter ("8" +:+ String Config.LF ""))
    = (Ok (map (fun k => 8 + Z.of_nat k) (seq 1 3)), w')
    /\ counter_padded (8 + Z.of_nat 3) w'
    /\ stored_number w' = Some (8 + Z.of_nat 3).
Proof.
  apply (padded_counter_allocation 8 3
           (world_with_counter ("8" +:+ String Config.LF ""))); [lia |].
  exists [Config.LF]. split; [repeat constructor | reflexivity].
Defined.

(** ** Writing a configuration file and loading it *)

Lemma lines_from_line l : forall cur rest,
  Forall (fun c => Ascii.eqb c Config.LF = false /\ Ascii.eqb c Config.CR = false) l ->
  Config.lines_from false cur (l ++ Config.LF :: rest)
  = (rev cur ++ l ++ [Config.LF]) :: Config.lines_from false [] rest.
Proof.
  induction l as [| c l IH]; intros cur rest Hl; cbn [app Config.lines_from].
  - rewrite Ascii.eqb_refl. reflexivity.
  - inversion Hl as [| ? ? [Hlf Hcr] Hl']; subst. rewrite Hlf, Hcr.
    rewrite IH by exact Hl'. cbn [rev]. rewrite <- app_assoc. reflexivity.
Qed.

Lemma known_key_no_newline key :
  In key config_keys -> no_newline key.
Proof.
  intros Hkey.
  destruct (config_keys_cases key Hkey) as
    [-> | [-> | [-> | [-> | [-> | [-> | [-> | [-> | [-> | [-> | ->]]]]]]]]]];
    repeat constructor.
Qed.

Lemma file_lines_config_text lines :
  Forall (fun kv => In kv.1 config_keys /\ no_newline kv.2) lines ->
  Config.file_lines (config_text lines)
  = map (fun kv => config_line kv.1 (kv.2 +:+ String Config.LF "")) lines.
Proof.
  unfold Config.file_lines.
  induction 1 as [| [key value] lines [Hkey Hvalue] _ IH]; [reflexivity |].
  change (config_text ((key, value) :: lines))
    with (config_line key value +:+ String Config.LF (config_text lines)).
  cbn [fst snd map] in *.
  unfold config_line at 1.
  rewrite !list_ascii_of_string_app. cbn [list_ascii_of_string].
  rewrite lines_from_line.
  - cbn [map rev app]. rewrite IH. f_equal.
    rewrite <- (string_of_list_ascii_of_string (config_line key _)). f_equal.
    unfold config_line. rewrite !list_ascii_of_string_app.
    cbn [list_ascii_of_string app]. rewrite <- app_assoc. reflexivity.
  - apply Forall_app. split; [exact (known_key_no_newline key Hkey) |].
    change (list_ascii_of_string "=") with ["="%char].
    cbn [app]. constructor; [split; reflexivity | exact Hvalue].
Qed.

Lemma strip_line_feed value : Py.strip (value +:+ String Config.LF "") = Py.strip value.
Proof.
  unfold Py.strip. f_equal. rewrite list_ascii_of_string_app.
  cbn [list_ascii_of_string].
  rewrite <- (strip_chars_rstrip (_ ++ _)), <- (strip_chars_rstrip (list_ascii_of_string value)).
  f_equal. unfold Py.rstrip. rewrite List.rev_app_distr. reflexivity.
Qed.

Lemma load_lines_config_text lines : forall self,
  Forall (fun kv => In kv.1 config_keys /\ no_newline kv.2) lines ->
  Config.load_lines (Config.file_lines (config_text lines)) self
  = Ok (fold_left (fun self kv => <[kv.1 := Py.strip kv.2]> self) lines self).
Proof.
  intros self Hlines. rewrite file_lines_config_text by exact Hlines.
  revert self. induction Hlines as [| [key value] lines [Hkey _] _ IH];
    intros self; [reflexivity |].
  cbn [map Config.load_lines fold_left fst snd].
  rewrite load_line_known, strip_line_feed by exact Hkey. apply IH.
Qed.

Lemma fold_insert_other (lines : list (string * string)) key : forall self : Config.attrs,
  ~ In key (map fst lines) ->
  fold_left (fun self kv => <[kv.1 := Py.strip kv.2]> self) lines self !! key
  = self !! key.
Proof.
  induction lines as [| [k v] lines IH]; intros self Hkey; [reflexivity |].
  cbn [fold_left map fst snd In] in *.
  rewrite IH by tauto. apply lookup_insert_ne. intros ->. tauto.
Qed.

(** X24. A configuration file that is written as lines [key=value] with keys
    among the eleven, and values that hold no line end, loads without an
    error and without a dialog. Afterwards each key that occurs holds the
    value of its last line, without the white space around it, and every
    other attribute is as it was. *)
Theorem config_file_read_back lines path self w :
  Forall (fun kv => In kv.1 config_keys /\ no_newline kv.2) lines ->
  files w !! path = Some (TextFile (config_text lines)) ->
  exists self',
    Config.load_config path self w
    = (Ok self', {| files := files w; events := events w ++ [Opened path "r"] |})
    /\ (forall before key value after,
          lines = before ++ (key, value) :: after ->
          ~ In key (map fst after) ->
          self' !! key = Some (Py.strip value))
    /\ (forall key, ~ In key (map fst lines) -> self' !! key = self !! key).
Proof.
  intros Hlines Hfile. eexists. split; [| split].
  - unfold Config.load_config. run. step Hfile.
    rewrite load_lines_config_text by exact Hlines. reflexivity.
  - intros before key value after -> Hlast.
    rewrite fold_left_app. cbn [fold_left fst snd].
    rewrite fold_insert_other by exact Hlast. apply lookup_insert_eq.
  - intros key Hkey. apply fold_insert_other. exact Hkey.
Qed.

Lemma config_file_read_back_witness :
  exists self',
    Config.load_config "config.txt" ∅
      (world_with_config
         (config_text [("email", " old@acme.example"); ("phone_no", "555-0100 ");
                       ("email", "new@acme.example")]))
    = (Ok self',
       {| files := files (world_with_config
                            (config_text [("email", " old@acme.example");
                                          ("phone_no", "555-0100 ");
                                          ("email", "new@acme.example")]));
          events := [] ++ [Opened "config.txt" "r"] |})
    /\ (forall before key value after,
          [("email", " old@acme.example"); ("phone_no", "555-0100 ");
           ("email", "new@acme.example")]
          = before ++ (key, value) :: after ->
          ~ In key (map fst after) ->
          self' !! key = Some (Py.strip value))
    /\ (forall key,
          ~ In key (map fst [("email", " old@acme.example");
                             ("phone_no", "555-0100 ");
                             ("email", "new@acme.example")]) ->
          self' !! key = (∅ : Config.attrs) !! key).
Proof.
  apply (config_file_read_back
           [("email", " old@acme.example"); ("phone_no", "555-0100 ");
            ("email", "new@acme.example")]
           "config.txt" ∅
           (world_with_config
              (config_text [("email", " old@acme.example");
                            ("phone_no", "555-0100 ");
                            ("email", "new@acme.example")])));
    [| reflexivity].
  repeat constructor; cbn; tauto.
Defined.

(** ** A counter file with a blank before the number *)

Lemma digits_last C :
  0 <= C -> exists init, Py.digits C = init ++ [Py.digit_char (C mod 10)].
Proof.
  intros HC. destruct (Z_lt_ge_dec C 10).
  - exists []. rewrite digits_small, Z.mod_small by lia. reflexivity.
  - exists (Py.digits (C / 10)). apply digits_step. lia.
Qed.

(** Without a carry out of the last digit the next number has as many
    digits. *)
Lemma digits_length_succ C :
  0 <= C -> C mod 10 <> 9 -> length (Py.digits (C + 1)) = length (Py.digits C).
Proof.
  intros HC Hlast. pose proof (Z.mod_pos_bound C 10 ltac:(lia)) as Hmod.
  destruct (Z_lt_ge_dec C 10).
  - rewrite Z.mod_small in Hlast by lia.
    rewrite !digits_small by lia. reflexivity.
  - rewrite (digits_step C), (digits_step (C + 1)) by lia.
    rewrite !length_app. cbn [length].
    replace ((C + 1) / 10) with (C / 10); [reflexivity |].
    apply (Z.div_unique_pos (C + 1) 10 (C / 10) (C mod 10 + 1)); [lia |].
    pose proof (Z.div_mod C 10 ltac:(lia)). lia.
Qed.

Lemma strip_leading_space C :
  0 <= C -> Py.strip (" " +:+ Py.str C) = Py.str C.
Proof.
  intros HC. unfold Py.strip, Py.str.
  rewrite list_ascii_of_string_app, list_ascii_of_string_of_list_ascii.
  rewrite str_chars_nonneg by exact HC.
  change (list_ascii_of_string " ") with [" "%char]. cbn [app].
  change (Py.strip_chars (" "%char :: Py.digits C))
    with (Py.strip_chars (Py.digits C)).
  rewrite strip_chars_id by (apply digits_not_space; exact HC). reflexivity.
Qed.

(** The write of line 416 over a blank and [C]: the digits of [C + 1] take
    the place of the blank and of all digits of [C] but the last, which
    stays behind them. *)
Lemma overwrite_leading_space C :
  0 <= C -> C mod 10 <> 9 ->
  Py.overwrite (Py.str (C + 1)) (" " +:+ Py.str C)
  = Py.str (10 * (C + 1) + C mod 10).
Proof.
  intros HC Hlast. pose proof (Z.mod_pos_bound C 10 ltac:(lia)) as Hmod.
  unfold Py.overwrite, Py.str.
  rewrite list_ascii_of_string_app, !list_ascii_of_string_of_list_ascii.
  rewrite !str_chars_nonneg by lia.
  change (list_ascii_of_string " ") with [" "%char]. cbn [app].
  f_equal.
  rewrite (digits_step (10 * (C + 1) + C mod 10)) by lia.
  replace ((10 * (C + 1) + C mod 10) / 10) with (C + 1)
    by (apply (Z.div_unique_pos _ 10 (C + 1) (C mod 10)); lia).
  replace ((10 * (C + 1) + C mod 10) mod 10) with (C mod 10)
    by (apply (Z.mod_unique_pos _ 10 (C + 1) (C mod 10)); lia).
  f_equal.
  rewrite digits_length_succ by assumption.
  destruct (digits_last C HC) as [init ->].
  rewrite length_app. cbn [length].
  replace (length init + 1)%nat with (S (length init)) by lia.
  cbn [drop]. apply drop_app_length.
Qed.

Lemma get_next_invoice_number_leading_space C w :
  0 <= C -> C mod 10 <> 9 ->
  files w !! "invoice_number.txt" = Some (TextFile (" " +:+ Py.str C)) ->
  stored_number w = Some C
  /\ get_next_invoice_number w
     = (Ok (C + 1),
        {| files := <["invoice_number.txt" :=
                        TextFile (Py.str (10 * (C + 1) + C mod 10))]> (files w);
           events := events w ++ [Opened "invoice_number.txt" "r+"] |}).
Proof.
  intros HC Hlast Hfile.
  assert (Hnumber : Py.int (Py.strip (" " +:+ Py.str C)) = Some C)
    by (rewrite strip_leading_space by exact HC; apply int_str; exact HC).
  split; [unfold stored_number; rewrite Hfile; exact Hnumber |].
  rewrite (get_next_invoice_number_text _ C w Hfile Hnumber).
  rewrite overwrite_leading_space by assumption. reflexivity.
Qed.

(** C1. The counter file may hold its number behind a blank: line 414
    strips the text before it reads it, and so the file stores [C]. From
    such a file, with [C] not ending in 9, two calls of
    [get_next_invoice_number] do not return [C+1] and [C+2]. The first
    returns [C+1]; its write does not truncate, the last digit of [C] stays
    in the file behind the digits of [C+1], and the second call returns
    [10*(C+1) + C mod 10 + 1]. *)
Theorem leading_blank_breaks_sequence C w :
  0 <= C -> C mod 10 <> 9 ->
  files w !! "invoice_number.txt" = Some (TextFile (" " +:+ Py.str C)) ->
  stored_number w = Some C
  /\ exists w',
       allocate_many 2 w = (Ok [C + 1; 10 * (C + 1) + C mod 10 + 1], w')
       /\ 10 * (C + 1) + C mod 10 + 1 <> C + 2.
Proof.
  intros HC Hlast Hfile. pose proof (Z.mod_pos_bound C 10 ltac:(lia)) as Hmod.
  destruct (get_next_invoice_number_leading_space C w HC Hlast Hfile)
    as [Hstored Hfirst].
  split; [exact Hstored |].
  cbn [allocate_many]. unfold bind at 1. rewrite Hfirst. cbv beta iota.
  set (w1 := {| files := _; events := _ |}).
  assert (H1 : counter_is (10 * (C + 1) + C mod 10) w1) by apply lookup_insert_eq.
  unfold bind.
  rewrite (get_next_invoice_number_canonical (10 * (C + 1) + C mod 10) w1
             ltac:(lia) H1).
  unfold ret. eexists. split; [reflexivity | lia].
Qed.

Lemma leading_blank_breaks_sequence_witness :
  stored_number (world_with_counter " 7") = Some 7
  /\ exists w',
       allocate_many 2 (world_with_counter " 7") = (Ok [8; 88], w')
       /\ 88 <> 9.
Proof.
  apply (leading_blank_breaks_sequence 7 (world_with_counter " 7"));
    [lia | discriminate | reflexivity].
Defined.

(** C2. From a counter file that holds a blank and then [C], with [C] not
    ending in 9, one call of [get_next_invoice_number] returns [C+1] and
    leaves a file that is not rewritten in full: it holds the digits of
    [C+1] and behind them the last digit of [C], the text of the number
    [10*(C+1) + C mod 10]. Reading the counter again gives that number and
    not the number returned. *)
Theorem leading_blank_leaves_stale_digit C w :
  0 <= C -> C mod 10 <> 9 ->
  files w !! "invoice_number.txt" = Some (TextFile (" " +:+ Py.str C)) ->
  stored_number w = Some C
  /\ exists w',
       get_next_invoice_number w = (Ok (C + 1), w')
       /\ files w' !! "invoice_number.txt"
          = Some (TextFile (Py.str (C + 1) +:+ String (Py.digit_char (C mod 10)) ""))
       /\ files w' !! "invoice_number.txt" <> Some (TextFile (Py.str (C + 1)))
       /\ stored_number w' = Some (10 * (C + 1) + C mod 10)
       /\ stored_number w' <> Some (C + 1).
Proof.
  intros HC Hlast Hfile. pose proof (Z.mod_pos_bound C 10 ltac:(lia)) as Hmod.
  destruct (get_next_invoice_number_leading_space C w HC Hlast Hfile)
    as [Hstored Hfirst].
  split; [exact Hstored |].
  eexists. split; [exact Hfirst |]. cbn [files]. rewrite lookup_insert_eq.
  assert (Hstored' :
            stored_number
              {| files := <["invoice_number.txt" :=
                              TextFile (Py.str (10 * (C + 1) + C mod 10))]> (files w);
                 events := events w ++ [Opened "invoice_number.txt" "r+"] |}
            = Some (10 * (C + 1) + C mod 10)).
  { unfold stored_number. cbn [files]. rewrite lookup_insert_eq.
    rewrite strip_str by lia. apply int_str. lia. }
  split; [| split; [| split]].
  - f_equal. f_equal. unfold Py.str.
    rewrite !str_chars_nonneg by lia.
    rewrite (digits_step (10 * (C + 1) + C mod 10)) by lia.
    replace ((10 * (C + 1) + C mod 10) / 10) with (C + 1)
      by (apply (Z.div_unique_pos _ 10 (C + 1) (C mod 10)); lia).
    replace ((10 * (C + 1) + C mod 10) mod 10) with (C mod 10)
      by (apply (Z.mod_unique_pos _ 10 (C + 1) (C mod 10)); lia).
    apply string_of_list_ascii_app.
  - intros H. injection H as H. apply str_inj in H. lia.
  - exact Hstored'.
  - rewrite Hstored'. intros H. injection H as H. lia.
Qed.

Lemma leading_blank_leaves_stale_digit_witness :
  stored_number (world_with_counter " 7") = Some 7
  /\ exists w',
       get_next_invoice_number (world_with_counter " 7") = (Ok 8, w')
       /\ files w' !! "invoice_number.txt" = Some (TextFile "87")
       /\ files w' !! "invoice_number.txt" <> Some (TextFile "8")
       /\ stored_number w' = Some 87
       /\ stored_number w' <> Some 8.
Proof.
  apply (leading_blank_leaves_stale_digit 7 (world_with_counter " 7"));
    [lia | discriminate | reflexivity].
Defined.
